(** * BlackRoad dashboard builder: a shallow embedding of
      [src/src/dashboard_builder.py] and the properties of its metric store
      and dashboard store.

    Conventions of the embedding.
    - A Python [str] is a [string] whose characters are code points below
      256; SQLite compares TEXT cells bytewise (BINARY collation), which on
      these strings is the order of [String.compare].
    - A Python [float] is a finite binary64 number, kept by its exact
      value in [Q], an infinity, or NaN; the sign of a zero is not kept.
      A REAL cell holds such a number or NULL, which is what SQLite stores
      for NaN.  [statistics.mean] sums exactly and rounds the mean to the
      nearest binary64 number; [int(len * 0.95)] is carried out in binary64
      with [SpecFloat].
    - A TEXT cell holds a string or NULL.
    - The SQLite file is the [store]; every method takes it and returns the
      new one.  [datetime.now()] is an input: each read of the clock is an
      argument of the method, in the order the method reads it.
    - A raised exception is the [Raise] case of [result]. *)

From Stdlib Require Import ZArith NArith QArith Qabs Qpower Qreduction Qround.
From Stdlib Require Import List String Ascii Bool Lia Lqa.
From Stdlib Require Import Permutation Sorted DecimalString.
From Stdlib Require Decimal DecimalFacts DecimalPos DecimalN.
From Stdlib Require Import SpecFloat.
Import ListNotations.

Set Warnings "-register-all".

Local Open Scope Z_scope.

(** ** Exceptions and results *)

(** [ProgrammingError] is [sqlite3.ProgrammingError], raised for a parameter
    of a type SQLite cannot bind ([sqlite3.InterfaceError] before Python
    3.11). *)
Inductive exn : Type :=
| IntegrityError
| ProgrammingError
| AttributeError
| TypeError
| IndexError
| ValueError
| StatisticsError
| OverflowError.

Inductive result (A : Type) : Type :=
| Ok (a : A)
| Raise (e : exn).

Arguments Ok {A} a.
Arguments Raise {A} e.

Definition bind {A B : Type} (r : result A) (k : A -> result B) : result B :=
  match r with
  | Ok a => k a
  | Raise e => Raise e
  end.

Declare Scope result_scope.
Delimit Scope result_scope with result.
Notation "x <- r ;; k" := (bind r (fun x => k))
  (at level 61, r at next level, right associativity) : result_scope.

(** ** Strings *)

Definition str1 (c : ascii) : string := String c EmptyString.

Definition quote_char : ascii := ascii_of_nat 34.
Definition backslash_char : ascii := ascii_of_nat 92.

Fixpoint join (sep : string) (l : list string) : string :=
  match l with
  | [] => EmptyString
  | [x] => x
  | x :: rest => (x ++ sep ++ join sep rest)%string
  end.

Fixpoint zeros (n : nat) : string :=
  match n with
  | O => EmptyString
  | S k => String "0"%char (zeros k)
  end.

(** [format(n, "0<width>d")] for a non-negative [n]. *)
Definition fmt_d (width : nat) (n : N) : string :=
  let digits := NilEmpty.string_of_uint (N.to_uint n) in
  (zeros (width - String.length digits) ++ digits)%string.

Definition hex_digit (n : nat) : ascii :=
  if Nat.ltb n 10 then ascii_of_nat (48 + n) else ascii_of_nat (87 + n).

(** ** datetime *)

(** A naive [datetime], as [datetime.now()] returns it. *)
Record datetime : Type := mk_datetime {
  year : N;
  month : N;
  day : N;
  hour : N;
  minute : N;
  second : N;
  microsecond : N
}.

(** [datetime.isoformat()]: the fraction is printed only when the
    microsecond is not zero. *)
Definition isoformat (d : datetime) : string :=
  (fmt_d 4 (year d) ++ "-" ++ fmt_d 2 (month d) ++ "-" ++ fmt_d 2 (day d)
   ++ "T" ++ fmt_d 2 (hour d) ++ ":" ++ fmt_d 2 (minute d) ++ ":"
   ++ fmt_d 2 (second d)
   ++ (if N.eqb (microsecond d) 0 then EmptyString
       else "." ++ fmt_d 6 (microsecond d)))%string.

(** ** json.dumps of a label mapping *)

(** A Python [dict] from [str] to [str]: the pairs in insertion order. *)
Definition labels_t : Type := list (string * string).

(** [labels or {}] *)
Definition or_empty (labels : option labels_t) : labels_t :=
  match labels with
  | Some l => l
  | None => []
  end.

(** [json.encoder.py_encode_basestring_ascii] on one character: the
    printable ASCII characters stand for themselves, quote and backslash
    are escaped, the usual control characters have their short escape, and
    every other character is [\u00xx]. *)
Definition esc_char (c : ascii) : string :=
  let n := nat_of_ascii c in
  if Nat.eqb n 34 then String backslash_char (str1 quote_char)
  else if Nat.eqb n 92 then String backslash_char (str1 backslash_char)
  else if Nat.eqb n 8 then String backslash_char "b"
  else if Nat.eqb n 12 then String backslash_char "f"
  else if Nat.eqb n 10 then String backslash_char "n"
  else if Nat.eqb n 13 then String backslash_char "r"
  else if Nat.eqb n 9 then String backslash_char "t"
  else if Nat.leb 32 n && Nat.leb n 126 then str1 c
  else String backslash_char
         ("u00" ++ String (hex_digit (n / 16)) (str1 (hex_digit (n mod 16)))).

Fixpoint esc_string (s : string) : string :=
  match s with
  | EmptyString => EmptyString
  | String c rest => (esc_char c ++ esc_string rest)%string
  end.

Definition json_str (s : string) : string :=
  String quote_char (esc_string s ++ str1 quote_char).

Definition json_pair (kv : string * string) : string :=
  (json_str (fst kv) ++ ": " ++ json_str (snd kv))%string.

(** [json.dumps(labels)] with the default separators and no key sorting:
    the pairs are written in the mapping's own order. *)
Definition json_dumps_labels (labels : labels_t) : string :=
  ("{" ++ join ", " (map json_pair labels) ++ "}")%string.

(** ** Floats *)

(** A Python [float] other than NaN: a finite binary64 number, kept by its
    exact value, or an infinity.  The sign of a zero is not kept: Python
    compares [0.0] and [-0.0] equal, and SQLite gives [0.0] back for a
    stored [-0.0]. *)
Inductive number : Type :=
| Fin (q : Q)
| Inf (negative : bool).

(** A Python [float]. *)
Inductive pyfloat : Type :=
| Num (x : number)
| NaN.

(** [x < y] on two floats that are numbers. *)
Definition number_ltb (x y : number) : bool :=
  match x, y with
  | Fin p, Fin q => negb (Qle_bool q p)
  | Fin _, Inf negative => negb negative
  | Inf negative, Fin _ => negative
  | Inf n1, Inf n2 => n1 && negb n2
  end.

Definition number_leb (x y : number) : bool := negb (number_ltb y x).

(** [m * 2^e] *)
Definition dyadic (m e : Z) : Q := (inject_Z m * 2 ^ e)%Q.

(** A binary64 number: a mantissa of at most 53 bits, the exponent of its
    last bit between -1074 and 971. *)
Definition is_binary64 (q : Q) : Prop :=
  exists m e : Z,
    Z.abs m < 2 ^ 53 /\ -1074 <= e <= 971 /\ (q == dyadic m e)%Q.

(** The integer nearest to [a / b], the even one of two equally near. *)
Definition round_half_even (a b : Z) : Z :=
  let q := a / b in
  match 2 * (a mod b) ?= b with
  | Lt => q
  | Gt => q + 1
  | Eq => if Z.even q then q else q + 1
  end.

(** [(a / d) / 2^e] as a quotient of two integers. *)
Definition scaled (a d e : Z) : Z * Z :=
  if 0 <=? e then (a, d * 2 ^ e) else (a * 2 ^ (- e), d).

(** The exponent of the last mantissa bit of [a / d]:
    [floor (log2 (a / d)) - 52], and -1074 in the subnormal range. *)
Definition ulp_exponent (a d : Z) : Z :=
  let k := Z.log2 a - Z.log2 d in
  let '(A, B) := scaled a d k in
  Z.max ((if A <? B then k - 1 else k) - 52) (-1074).

(** ** The store *)

(** A row of table [metrics], without the [id] column: SQLite assigns it
    and no statement of the program reads it.  [m_value] is [None] for
    NULL. *)
Record metric_row : Type := mk_metric_row {
  m_name : string;
  m_labels : string;
  m_value : option number;
  m_timestamp : string;
  m_created_at : string
}.

(** The dataclass [Metric]. *)
Record Metric : Type := mk_Metric {
  metric_name : string;
  metric_labels : labels_t;
  metric_value : pyfloat;
  metric_timestamp : datetime
}.

(** Binding a [float] parameter: SQLite stores NaN as NULL. *)
Definition bind_real (v : pyfloat) : option number :=
  match v with
  | Num x => Some x
  | NaN => None
  end.

(** The columns of [UNIQUE(name, labels, timestamp)]. *)
Definition metric_key (r : metric_row) : string * string * string :=
  (m_name r, m_labels r, m_timestamp r).

Definition same_key (name labels ts : string) (r : metric_row) : bool :=
  String.eqb (m_name r) name && String.eqb (m_labels r) labels
  && String.eqb (m_timestamp r) ts.

(** [INSERT OR IGNORE INTO metrics]: a row whose key is already there is
    dropped, any other is appended. *)
Definition insert_or_ignore (rows : list metric_row)
    (name labels : string) (value : option number) (ts created : string)
    : list metric_row :=
  if existsb (same_key name labels ts) rows then rows
  else rows ++ [mk_metric_row name labels value ts created].

(** ** JSON values *)

(** What [json.loads] returns and [json.dumps] accepts.  The columns
    [tags], [panels] and [variables] hold JSON text that is only ever
    decoded again, and the exported document is only ever parsed again:
    both are kept as the value they encode ([json.loads (json.dumps v)] is
    [v] on these values).  A [JDict] lists its pairs in insertion order. *)
Inductive json : Type :=
| JNull
| JBool (b : bool)
| JInt (z : Z)
| JFloat (x : pyfloat)
| JStr (s : string)
| JList (l : list json)
| JDict (d : list (string * json)).

Fixpoint dict_lookup (k : string) (d : list (string * json)) : option json :=
  match d with
  | [] => None
  | (k', v) :: rest => if String.eqb k' k then Some v else dict_lookup k rest
  end.

(** [d.get(k, default)] *)
Definition dict_get (d : list (string * json)) (k : string) (default : json)
    : json :=
  match dict_lookup k d with
  | Some v => v
  | None => default
  end.

(** ** Dataclasses *)

Record Position : Type := mk_Position {
  pos_x : Z;
  pos_y : Z;
  pos_w : Z;
  pos_h : Z
}.

(** [Position()] *)
Definition default_Position : Position := mk_Position 0 0 12 8.

Record Panel : Type := mk_Panel {
  p_id : string;
  p_title : string;
  p_type : string;
  p_datasource : string;
  p_query : string;
  p_options : list (string * json);
  p_position : Position
}.

Record Variable_ : Type := mk_Variable {
  v_name : string;
  v_type : string;
  v_query : string;
  v_current_value : string
}.

(** The dataclass [Dashboard].  The fields [uid], [description], [tags],
    [refresh_interval] and [time_range] hold the Python value they were
    given: [import_json] passes on whatever the document holds, and
    [create_dashboard] its [str] arguments. *)
Record Dashboard : Type := mk_Dashboard {
  d_id : string;
  d_uid : json;
  d_title : string;
  d_description : json;
  d_tags : json;
  d_panels : list Panel;
  d_variables : list Variable_;
  d_refresh_interval : json;
  d_time_range : json;
  d_created_at : datetime
}.

(** A row of table [dashboards]; [r_id] is the primary key and [r_uid] is
    declared UNIQUE.  The TEXT columns that the schema lets be NULL are
    [None] for NULL; [tags], [panels] and [variables] are the decoded JSON
    text. *)
Record dash_row : Type := mk_dash_row {
  r_id : string;
  r_uid : option string;
  r_title : string;
  r_description : option string;
  r_tags : json;
  r_panels : json;
  r_variables : json;
  r_refresh_interval : option string;
  r_time_range : option string;
  r_created_at : string
}.

(** The database: tables [dashboards] and [metrics].  Table
    [metric_stats] is created by [_init_db] and never read or written. *)
Record store : Type := mk_store {
  dashboards : list dash_row;
  metrics : list metric_row
}.

(** [_init_db] on a new file. *)
Definition init_db : store := mk_store [] [].

(** ** Sorting *)

Section Sort.
Context {A : Type} (leb : A -> A -> bool).

Fixpoint insert_sorted (x : A) (l : list A) : list A :=
  match l with
  | [] => [x]
  | y :: rest => if leb x y then x :: l else y :: insert_sorted x rest
  end.

(** A stable sort: among equal keys the earlier element stays first. *)
Fixpoint sort_by (l : list A) : list A :=
  match l with
  | [] => []
  | x :: rest => insert_sorted x (sort_by rest)
  end.
End Sort.

(** [ORDER BY timestamp ASC] *)
Definition order_by_timestamp (rows : list metric_row) : list metric_row :=
  sort_by (fun r1 r2 => String.leb (m_timestamp r1) (m_timestamp r2)) rows.

(** ** Metric store *)

(** [push_metric]: [now1] is the clock read for the sample's timestamp,
    [now2] the one for [created_at]. *)
Definition push_metric (s : store) (name : string) (value : pyfloat)
    (labels : option labels_t) (now1 now2 : datetime) : store * Metric :=
  let metric := mk_Metric name (or_empty labels) value now1 in
  let labels_json := json_dumps_labels (or_empty labels) in
  (mk_store (dashboards s)
     (insert_or_ignore (metrics s) name labels_json (bind_real value)
        (isoformat (metric_timestamp metric)) (isoformat now2)),
   metric).

(** [WHERE name = ? AND labels = ?] *)
Definition series_match (name labels_json : string) (r : metric_row) : bool :=
  String.eqb (m_name r) name && String.eqb (m_labels r) labels_json.

(** [timestamp BETWEEN ? AND ?] *)
Definition between (lo hi : string) (r : metric_row) : bool :=
  String.leb lo (m_timestamp r) && String.leb (m_timestamp r) hi.

Definition query_metrics (s : store) (name : string)
    (labels : option labels_t) (from_ts to_ts : option datetime)
    (step_s : Z) : list (string * option number) :=
  let labels_json := json_dumps_labels (or_empty labels) in
  let results :=
    match from_ts, to_ts with
    | Some f, Some t =>
        order_by_timestamp
          (filter (fun r => series_match name labels_json r
                            && between (isoformat f) (isoformat t) r)
                  (metrics s))
    | _, _ =>
        order_by_timestamp
          (filter (series_match name labels_json) (metrics s))
    end in
  map (fun r => (m_timestamp r, m_value r)) results.

(** [ORDER BY timestamp DESC LIMIT 1]; the result is the cell of the
    row found, [None] when it is NULL, and [None] when no row is found. *)
Definition get_current_value (s : store) (name : string)
    (labels : option labels_t) : option number :=
  let labels_json := json_dumps_labels (or_empty labels) in
  match sort_by (fun r1 r2 => String.leb (m_timestamp r2) (m_timestamp r1))
          (filter (series_match name labels_json) (metrics s)) with
  | r :: _ => m_value r
  | [] => None
  end.

(** ** Statistics *)

Definition len {A : Type} (l : list A) : Z := Z.of_nat (List.length l).

(** [l[i]]: a negative index counts from the end. *)
Definition py_getitem {A : Type} (l : list A) (i : Z) : result A :=
  let j := if i <? 0 then i + len l else i in
  if (j <? 0) || (len l <=? j) then Raise IndexError
  else match nth_error l (Z.to_nat j) with
       | Some v => Ok v
       | None => Raise IndexError
       end.

(** [a < b] on two cells of a REAL column: [None] is not ordered. *)
Definition py_lt (a b : option number) : result bool :=
  match a, b with
  | Some x, Some y => Ok (number_ltb x y)
  | _, _ => Raise TypeError
  end.

Fixpoint min_from (best : option number) (rest : list (option number))
    : result (option number) :=
  match rest with
  | [] => Ok best
  | v :: rest' =>
      (lt <- py_lt v best ;; min_from (if lt then v else best) rest')%result
  end.

(** [min(values)]: the first smallest element. *)
Definition py_min (values : list (option number)) : result (option number) :=
  match values with
  | [] => Raise ValueError
  | x :: rest => min_from x rest
  end.

Fixpoint max_from (best : option number) (rest : list (option number))
    : result (option number) :=
  match rest with
  | [] => Ok best
  | v :: rest' =>
      (gt <- py_lt best v ;; max_from (if gt then v else best) rest')%result
  end.

(** [max(values)]: the first largest element. *)
Definition py_max (values : list (option number)) : result (option number) :=
  match values with
  | [] => Raise ValueError
  | x :: rest => max_from x rest
  end.

(** The cells as numbers, when none is [None]. *)
Fixpoint numbers (values : list (option number)) : option (list number) :=
  match values with
  | [] => Some []
  | None :: _ => None
  | Some x :: rest =>
      match numbers rest with
      | Some xs => Some (x :: xs)
      | None => None
      end
  end.

(** [sorted(values)]: a stable sort by [<]; two or more elements are
    compared, and a comparison with [None] raises. *)
Definition sorted (values : list (option number))
    : result (list (option number)) :=
  match values with
  | [] | [_] => Ok values
  | _ =>
      match numbers values with
      | Some xs => Ok (map Some (sort_by number_leb xs))
      | None => Raise TypeError
      end
  end.

Definition Qsum (values : list Q) : Q := fold_right Qplus 0%Q values.

(** The finite ones among [xs]. *)
Fixpoint finite_values (xs : list number) : list Q :=
  match xs with
  | [] => []
  | Fin q :: rest => q :: finite_values rest
  | Inf _ :: rest => finite_values rest
  end.

(** The float sum of the infinities among [xs], [acc] being the sum so far
    and [None] standing for no infinity yet: two of opposite signs add up
    to NaN. *)
Fixpoint infinite_sum (acc : option pyfloat) (xs : list number)
    : option pyfloat :=
  match xs with
  | [] => acc
  | Fin _ :: rest => infinite_sum acc rest
  | Inf negative :: rest =>
      infinite_sum
        (Some match acc with
              | None => Num (Inf negative)
              | Some (Num (Inf negative')) =>
                  if Bool.eqb negative negative' then Num (Inf negative)
                  else NaN
              | Some _ => NaN
              end)
        rest
  end.

(** [a / d] on two positive [int]: the quotient rounded to the nearest
    binary64 number, ties to even; [OverflowError] from [2^1024] on. *)
Definition true_divide (a d : Z) : result Q :=
  let e := ulp_exponent a d in
  let '(A, B) := scaled a d e in
  let m := round_half_even A B in
  if (971 <? e) || ((e =? 971) && (m =? 2 ^ 53)) then Raise OverflowError
  else Ok (Qred (dyadic m e)).

(** [float(x)] for a [Fraction]: numerator over denominator. *)
Definition float_of_fraction (x : Q) : result Q :=
  match Qnum x with
  | 0 => Ok 0%Q
  | Zpos a => true_divide (Zpos a) (Zpos (Qden x))
  | Zneg a => (r <- true_divide (Zpos a) (Zpos (Qden x)) ;; Ok (- r)%Q)%result
  end.

(** [statistics.mean(values)]: a [None] among the values raises
    [TypeError]; the finite values are summed exactly, and the mean is the
    binary64 number nearest to the sum over the count; with an infinity
    among the values the result is the float sum of the infinities. *)
Definition statistics_mean (values : list (option number)) : result pyfloat :=
  match values with
  | [] => Raise StatisticsError
  | _ =>
      match numbers values with
      | None => Raise TypeError
      | Some xs =>
          match infinite_sum None xs with
          | Some v => Ok v
          | None =>
              (q <- float_of_fraction
                      (Qsum (finite_values xs) / inject_Z (len xs))%Q ;;
               Ok (Num (Fin q)))%result
          end
      end
  end.

(** *** binary64 *)

Definition prec : Z := 53.
Definition emax : Z := 1024.

(** [float(n)] for an [int]. *)
Definition float_of_int (n : Z) : result spec_float :=
  match binary_normalize prec emax n 0 false with
  | S754_infinity _ => Raise OverflowError
  | f => Ok f
  end.

(** The literal [0.95]: [0x1.e666666666666p-1]. *)
Definition float_0_95 : spec_float :=
  S754_finite false 8556839292003942 (-53).

Definition float_mul (x y : spec_float) : spec_float := SFmul prec emax x y.

(** [int(f)]: truncation towards zero. *)
Definition int_of_float (f : spec_float) : result Z :=
  match f with
  | S754_zero _ => Ok 0
  | S754_finite sx m e => Ok (cond_Zopp sx (Z.shiftl (Zpos m) e))
  | S754_infinity _ => Raise OverflowError
  | S754_nan => Raise ValueError
  end.

(** [int(n * 0.95)] *)
Definition p95_index (n : Z) : result Z :=
  (f <- float_of_int n ;; int_of_float (float_mul f float_0_95))%result.

(** The values of the dictionary [get_stats] returns. *)
Inductive pyval : Type :=
| PNone
| PStr (s : string)
| PLabels (l : labels_t)
| PFloat (v : pyfloat)
| PInt (z : Z).

(** The Python value of a REAL cell. *)
Definition cell_value (c : option number) : pyval :=
  match c with
  | Some x => PFloat (Num x)
  | None => PNone
  end.

Definition pydict : Type := list (string * pyval).

Fixpoint py_lookup (k : string) (d : pydict) : option pyval :=
  match d with
  | [] => None
  | (k', v) :: rest => if String.eqb k' k then Some v else py_lookup k rest
  end.

(** The body of [get_stats] once the samples are loaded. *)
Definition stats_of (name : string) (labels : option labels_t)
    (metrics : list (string * option number)) : result pydict :=
  match metrics with
  | [] => Ok [("error"%string, PStr "No data found")]
  | _ =>
    let values := map snd metrics in
    (sorted_values <- sorted values ;;
     p95_idx <- p95_index (len sorted_values) ;;
     v_min <- py_min values ;;
     v_max <- py_max values ;;
     v_avg <- statistics_mean values ;;
     v_p95 <- (if p95_idx <? len sorted_values
               then py_getitem sorted_values p95_idx
               else py_getitem sorted_values (-1)) ;;
     Ok [("name"%string, PStr name);
         ("labels"%string, PLabels (or_empty labels));
         ("min"%string, cell_value v_min);
         ("max"%string, cell_value v_max);
         ("avg"%string, PFloat v_avg);
         ("p95"%string, cell_value v_p95);
         ("count"%string, PInt (len values))])%result
  end.

Definition get_stats (s : store) (name : string) (labels : option labels_t)
    (from_ts : option datetime) : result pydict :=
  stats_of name labels (query_metrics s name labels from_ts None 60).

(** ** hashlib.md5 *)

Module MD5.

Definition w32 (x : Z) : Z := x mod 2 ^ 32.

Definition rotl32 (x c : Z) : Z :=
  w32 (Z.lor (Z.shiftl x c) (Z.shiftr x (32 - c))).

Definition not32 (x : Z) : Z := Z.lxor x 4294967295.

Definition shifts : list Z :=
  [7; 12; 17; 22; 7; 12; 17; 22; 7; 12; 17; 22; 7; 12; 17; 22;
   5; 9; 14; 20; 5; 9; 14; 20; 5; 9; 14; 20; 5; 9; 14; 20;
   4; 11; 16; 23; 4; 11; 16; 23; 4; 11; 16; 23; 4; 11; 16; 23;
   6; 10; 15; 21; 6; 10; 15; 21; 6; 10; 15; 21; 6; 10; 15; 21].

(** [floor (2^32 * abs (sin (i + 1)))] for [i] from 0 to 63. *)
Definition sines : list Z :=
  [3614090360; 3905402710; 606105819; 3250441966;
   4118548399; 1200080426; 2821735955; 4249261313;
   1770035416; 2336552879; 4294925233; 2304563134;
   1804603682; 4254626195; 2792965006; 1236535329;
   4129170786; 3225465664; 643717713; 3921069994;
   3593408605; 38016083; 3634488961; 3889429448;
   568446438; 3275163606; 4107603335; 1163531501;
   2850285829; 4243563512; 1735328473; 2368359562;
   4294588738; 2272392833; 1839030562; 4259657740;
   2763975236; 1272893353; 4139469664; 3200236656;
   681279174; 3936430074; 3572445317; 76029189;
   3654602809; 3873151461; 530742520; 3299628645;
   4096336452; 1126891415; 2878612391; 4237533241;
   1700485571; 2399980690; 4293915773; 2240044497;
   1873313359; 4264355552; 2734768916; 1309151649;
   4149444226; 3174756917; 718787259; 3951481745].

(** [str.encode()]: UTF-8 of code points below 256. *)
Fixpoint utf8 (s : string) : list Z :=
  match s with
  | EmptyString => []
  | String c rest =>
      let n := Z.of_nat (nat_of_ascii c) in
      if n <? 128 then n :: utf8 rest
      else (192 + n / 64) :: (128 + n mod 64) :: utf8 rest
  end.

Definition le_bytes (count : nat) (x : Z) : list Z :=
  map (fun i => (x / 2 ^ (8 * Z.of_nat i)) mod 256) (seq 0 count).

(** The message, a one bit, zeros up to 56 modulo 64, and the bit length
    on eight bytes. *)
Definition pad (msg : list Z) : list Z :=
  let n := Z.of_nat (List.length msg) in
  msg ++ [128] ++ repeat 0 (Z.to_nat ((55 - n) mod 64))
      ++ le_bytes 8 ((8 * n) mod 2 ^ 64).

Definition word (chunk : list Z) (j : nat) : Z :=
  nth (4 * j) chunk 0 + nth (4 * j + 1) chunk 0 * 2 ^ 8
  + nth (4 * j + 2) chunk 0 * 2 ^ 16 + nth (4 * j + 3) chunk 0 * 2 ^ 24.

Definition state : Type := (Z * Z * Z * Z)%type.

Definition step (chunk : list Z) (st : state) (i : nat) : state :=
  let '(a, b, c, d) := st in
  let '(f, g) :=
    if Nat.ltb i 16 then
      (Z.lor (Z.land b c) (Z.land (not32 b) d), i)
    else if Nat.ltb i 32 then
      (Z.lor (Z.land d b) (Z.land (not32 d) c), (5 * i + 1) mod 16)%nat
    else if Nat.ltb i 48 then
      (Z.lxor (Z.lxor b c) d, (3 * i + 5) mod 16)%nat
    else
      (Z.lxor c (Z.lor b (not32 d)), (7 * i) mod 16)%nat in
  let f' := w32 (f + a + nth i sines 0 + word chunk g) in
  (d, w32 (b + rotl32 f' (nth i shifts 0)), b, c).

Definition compress (st : state) (chunk : list Z) : state :=
  let '(a0, b0, c0, d0) := st in
  let '(a, b, c, d) := fold_left (step chunk) (seq 0 64) st in
  (w32 (a0 + a), w32 (b0 + b), w32 (c0 + c), w32 (d0 + d)).

Fixpoint blocks (count : nat) (st : state) (bytes : list Z) : state :=
  match count with
  | O => st
  | S k => blocks k (compress st (firstn 64 bytes)) (skipn 64 bytes)
  end.

Definition digest (msg : list Z) : list Z :=
  let padded := pad msg in
  let '(a, b, c, d) :=
    blocks (List.length padded / 64) 
      (1732584193, 4023233417, 2562383102, 271733878) padded in
  le_bytes 4 a ++ le_bytes 4 b ++ le_bytes 4 c ++ le_bytes 4 d.

Definition hex_byte (x : Z) : string :=
  String (hex_digit (Z.to_nat (x / 16))) (str1 (hex_digit (Z.to_nat (x mod 16)))).

(** [hashlib.md5(s.encode()).hexdigest()] *)
Definition hexdigest (s : string) : string :=
  String.concat EmptyString (map hex_byte (digest (utf8 s))).

End MD5.

(** [hashlib.md5(s.encode()).hexdigest()[:8]] *)
Definition md5_8 (s : string) : string := substring 0 8 (MD5.hexdigest s).

(** ** Dashboard store *)

(** [dataclasses.asdict] *)
Definition asdict_Position (pos : Position) : json :=
  JDict [("x"%string, JInt (pos_x pos)); ("y"%string, JInt (pos_y pos));
         ("w"%string, JInt (pos_w pos)); ("h"%string, JInt (pos_h pos))].

Definition asdict_Panel (p : Panel) : json :=
  JDict [("id"%string, JStr (p_id p));
         ("title"%string, JStr (p_title p));
         ("type"%string, JStr (p_type p));
         ("datasource"%string, JStr (p_datasource p));
         ("query"%string, JStr (p_query p));
         ("options"%string, JDict (p_options p));
         ("position"%string, asdict_Position (p_position p))].

Definition asdict_Variable (v : Variable_) : json :=
  JDict [("name"%string, JStr (v_name v));
         ("type"%string, JStr (v_type v));
         ("query"%string, JStr (v_query v));
         ("current_value"%string, JStr (v_current_value v))].

(** [SELECT ... FROM dashboards WHERE id = ?] followed by [fetchone]. *)
Definition find_dashboard (s : store) (dashboard_id : string)
    : option dash_row :=
  find (fun r => String.eqb (r_id r) dashboard_id) (dashboards s).

(** The decimal text of an integer. *)
Definition string_of_Z (n : Z) : string := NilZero.string_of_int (Z.to_int n).

(** The cell a TEXT column gets for a parameter that is a value of a JSON
    document.  [None] is stored as NULL and a [str] as it is; an [int]
    must fit 64 bits and is stored, like a [bool], as its decimal text; NaN
    is stored as NULL and an infinity as [Inf] or [-Inf]; a list or a
    mapping cannot be bound.  The result is [None] for a finite [float]:
    it is stored as the text SQLite prints for the number, which is not
    modelled. *)
Definition bind_text (v : json) : option (result (option string)) :=
  match v with
  | JNull => Some (Ok None)
  | JStr s => Some (Ok (Some s))
  | JBool b => Some (Ok (Some (if b then "1" else "0")%string))
  | JInt n =>
      Some (if (- 2 ^ 63 <=? n) && (n <? 2 ^ 63) then Ok (Some (string_of_Z n))
            else Raise OverflowError)
  | JFloat NaN => Some (Ok None)
  | JFloat (Num (Inf negative)) =>
      Some (Ok (Some (if negative then "-Inf" else "Inf")%string))
  | JFloat (Num (Fin _)) => None
  | JList _ | JDict _ => Some (Raise ProgrammingError)
  end.

(** Sequencing of steps that may raise or fall outside the model. *)
Definition obind {A B : Type} (r : option (result A))
    (k : A -> option (result B)) : option (result B) :=
  match r with
  | Some (Ok a) => k a
  | Some (Raise e) => Some (Raise e)
  | None => None
  end.

Notation "x <-- r ;; k" := (obind r (fun x => k))
  (at level 61, r at next level, right associativity) : result_scope.

(** The Python value of a TEXT cell. *)
Definition text_value (c : option string) : json :=
  match c with
  | Some s => JStr s
  | None => JNull
  end.

(** A row that the primary key or the UNIQUE constraint on [uid] sets
    against a new row; NULL clashes with nothing. *)
Definition conflicts (new : dash_row) (r : dash_row) : bool :=
  String.eqb (r_id r) (r_id new)
  || match r_uid r, r_uid new with
     | Some u, Some u' => String.eqb u u'
     | _, _ => false
     end.

(** [INSERT INTO dashboards]: a conflict raises [sqlite3.IntegrityError]
    and nothing is written. *)
Definition insert_dashboard (s : store) (new : dash_row) : result store :=
  if existsb (conflicts new) (dashboards s) then Raise IntegrityError
  else Ok (mk_store (dashboards s ++ [new]) (metrics s)).

(** [INSERT OR REPLACE INTO dashboards]: the conflicting rows are deleted,
    then the new row is written. *)
Definition insert_or_replace (s : store) (new : dash_row) : store :=
  mk_store
    (filter (fun r => negb (conflicts new r)) (dashboards s) ++ [new])
    (metrics s).

(** The [Dashboard] that [create_dashboard] builds before it writes:
    [now1] salts the id, [now2] is [created_at]. *)
Definition new_dashboard (title description : string)
    (tags : option (list string)) (refresh_interval time_range : string)
    (now1 now2 : datetime) : Dashboard :=
  let uid := md5_8 title in
  let dashboard_id := md5_8 (title ++ isoformat now1) in
  mk_Dashboard dashboard_id (JStr uid) title (JStr description)
    (JList (map JStr (match tags with Some l => l | None => [] end)))
    [] [] (JStr refresh_interval) (JStr time_range) now2.

(** The row [create_dashboard] inserts for it: the [str] arguments are
    stored as they are, the two lists are empty. *)
Definition new_row (title description : string)
    (tags : option (list string)) (refresh_interval time_range : string)
    (now1 now2 : datetime) : dash_row :=
  mk_dash_row (md5_8 (title ++ isoformat now1)) (Some (md5_8 title)) title
    (Some description)
    (JList (map JStr (match tags with Some l => l | None => [] end)))
    (JList []) (JList []) (Some refresh_interval) (Some time_range)
    (isoformat now2).

Definition create_dashboard (s : store) (title description : string)
    (tags : option (list string)) (refresh_interval time_range : string)
    (now1 now2 : datetime) : result (store * Dashboard) :=
  let dashboard :=
    new_dashboard title description tags refresh_interval time_range
      now1 now2 in
  (s' <- insert_dashboard s
           (new_row title description tags refresh_interval time_range
              now1 now2) ;;
   Ok (s', dashboard))%result.

(** [UPDATE dashboards SET panels = ? WHERE id = ?] *)
Definition update_panels (s : store) (dashboard_id : string) (panels : json)
    : store :=
  mk_store
    (map (fun r =>
            if String.eqb (r_id r) dashboard_id then
              mk_dash_row (r_id r) (r_uid r) (r_title r) (r_description r)
                (r_tags r) panels (r_variables r) (r_refresh_interval r)
                (r_time_range r) (r_created_at r)
            else r)
         (dashboards s))
    (metrics s).

(** [UPDATE dashboards SET variables = ? WHERE id = ?] *)
Definition update_variables (s : store) (dashboard_id : string)
    (variables : json) : store :=
  mk_store
    (map (fun r =>
            if String.eqb (r_id r) dashboard_id then
              mk_dash_row (r_id r) (r_uid r) (r_title r) (r_description r)
                (r_tags r) (r_panels r) variables (r_refresh_interval r)
                (r_time_range r) (r_created_at r)
            else r)
         (dashboards s))
    (metrics s).

(** The [Panel] that [add_panel] builds and returns. *)
Definition new_panel (dashboard_id title panel_type query datasource : string)
    (position : option Position) (options : option (list (string * json)))
    : Panel :=
  let panel_id := md5_8 (dashboard_id ++ "/" ++ title) in
  let pos := match position with Some p => p | None => default_Position end in
  mk_Panel panel_id title panel_type datasource query
    (match options with Some o => o | None => [] end) pos.

(** [add_panel]: [panels.append] needs the stored JSON to be a list. *)
Definition add_panel (s : store)
    (dashboard_id title panel_type query datasource : string)
    (position : option Position) (options : option (list (string * json)))
    : result (store * Panel) :=
  let panel :=
    new_panel dashboard_id title panel_type query datasource position
      options in
  match find_dashboard s dashboard_id with
  | Some row =>
      match r_panels row with
      | JList panels =>
          Ok (update_panels s dashboard_id
                (JList (panels ++ [asdict_Panel panel])), panel)
      | _ => Raise AttributeError
      end
  | None => Ok (s, panel)
  end.

Definition add_variable (s : store) (dashboard_id name query var_type : string)
    : result (store * Variable_) :=
  let variable := mk_Variable name var_type query EmptyString in
  match find_dashboard s dashboard_id with
  | Some row =>
      match r_variables row with
      | JList variables =>
          Ok (update_variables s dashboard_id
                (JList (variables ++ [asdict_Variable variable])), variable)
      | _ => Raise AttributeError
      end
  | None => Ok (s, variable)
  end.

(** [export_json]: the document that is serialised; the empty document
    when the id is unknown.  A NULL cell is [None] in Python, which
    [json.dumps] writes as [null] and ["now-" + ...] cannot take. *)
Definition export_json (s : store) (dashboard_id : string) : result json :=
  match find_dashboard s dashboard_id with
  | None => Ok (JDict [])
  | Some row =>
      match r_time_range row with
      | None => Raise TypeError
      | Some time_range =>
          Ok (JDict
                [("id"%string, JStr (r_id row));
                 ("uid"%string, text_value (r_uid row));
                 ("title"%string, JStr (r_title row));
                 ("description"%string, text_value (r_description row));
                 ("tags"%string, r_tags row);
                 ("panels"%string, r_panels row);
                 ("variables"%string, r_variables row);
                 ("refresh"%string, text_value (r_refresh_interval row));
                 ("time"%string,
                   JDict [("from"%string, JStr ("now-" ++ time_range));
                          ("to"%string, JStr "now")]);
                 ("created_at"%string, JStr (r_created_at row))])
      end
  end.

(** [import_json] on the parsed document.  The [Dashboard] is built first,
    with whatever the document holds; then the parameters of the INSERT
    are bound in the order of the columns, and the first that cannot be
    bound raises.  The result is [None] when one of [uid], [description],
    [refresh] and [time.from] is a finite [float] (see [bind_text]) and no
    parameter before it raises. *)
Definition import_json (s : store) (json_str : json) (now : datetime)
    : option (result (store * Dashboard)) :=
  match json_str with
  | JDict data =>
    match dict_get data "title" (JStr EmptyString) with
    | JStr title =>
      let dashboard_id := md5_8 title in
      match dict_get data "time" (JDict []) with
      | JDict time =>
          let dashboard :=
            mk_Dashboard dashboard_id
              (dict_get data "uid" (JStr dashboard_id)) title
              (dict_get data "description" (JStr EmptyString))
              (dict_get data "tags" (JList [])) [] []
              (dict_get data "refresh" (JStr "30s"))
              (dict_get time "from" (JStr "1h")) now in
          (uid <-- bind_text (d_uid dashboard) ;;
           description <-- bind_text (d_description dashboard) ;;
           refresh <-- bind_text (d_refresh_interval dashboard) ;;
           time_range <-- bind_text (d_time_range dashboard) ;;
           Some (Ok (insert_or_replace s
                       (mk_dash_row dashboard_id uid title description
                          (d_tags dashboard)
                          (dict_get data "panels" (JList []))
                          (dict_get data "variables" (JList []))
                          refresh time_range (isoformat now)),
                     dashboard)))%result
      | _ => Some (Raise AttributeError)
      end
    | _ => Some (Raise AttributeError)
    end
  | _ => Some (Raise AttributeError)
  end.

(** ** Invariant of the metric table *)

(** [UNIQUE(name, labels, timestamp)] holds of the stored rows. *)
Definition metrics_unique (s : store) : Prop :=
  NoDup (map metric_key (metrics s)).

(** ** Sample data *)

Definition one_to_ten : list number :=
  map Fin [1; 2; 3; 4; 5; 6; 7; 8; 9; 10]%Q.

(** One second past midnight, two seconds past, and so on. *)
Definition tick (sec : N) : datetime := mk_datetime 2024 1 1 0 0 sec 0.

Definition host_a : labels_t := [("host"%string, "a"%string)].

(** Ten pushes of [cpu{host=a}], of the values 1 to 10, one per second. *)
Definition store_ten : store :=
  fold_left
    (fun s i =>
       fst (push_metric s "cpu" (Num (Fin (inject_Z (Z.of_N i))))
              (Some host_a) (tick i) (tick i)))
    [1; 2; 3; 4; 5; 6; 7; 8; 9; 10]%N init_db.

(** A sample of value 1 at second 0 and one of value 100 at second 5. *)
Definition store_two : store :=
  let s :=
    fst (push_metric init_db "cpu" (Num (Fin 1)) None (tick 0) (tick 0)) in
  fst (push_metric s "cpu" (Num (Fin 100)) None (tick 5) (tick 5)).

Definition labels_ab : labels_t :=
  [("a"%string, "1"%string); ("b"%string, "2"%string)].

Definition labels_ba : labels_t :=
  [("b"%string, "2"%string); ("a"%string, "1"%string)].

(** ** Reading back one escaped character *)

Definition hex_value (c : ascii) : nat :=
  let n := nat_of_ascii c in
  if Nat.leb n 57 then n - 48 else n - 87.

(** The character that the escape at the head of [s] stands for, and the
    rest of [s]; [None] at a closing quote or a malformed escape.  Used to
    show that [esc_char] loses nothing. *)
Definition unesc1 (s : string) : option (ascii * string) :=
  match s with
  | EmptyString => None
  | String c rest =>
      if Ascii.eqb c quote_char then None
      else if Ascii.eqb c backslash_char then
        match rest with
        | String e rest' =>
            if Ascii.eqb e quote_char then Some (quote_char, rest')
            else if Ascii.eqb e backslash_char then Some (backslash_char, rest')
            else if Ascii.eqb e "b" then Some (ascii_of_nat 8, rest')
            else if Ascii.eqb e "f" then Some (ascii_of_nat 12, rest')
            else if Ascii.eqb e "n" then Some (ascii_of_nat 10, rest')
            else if Ascii.eqb e "r" then Some (ascii_of_nat 13, rest')
            else if Ascii.eqb e "t" then Some (ascii_of_nat 9, rest')
            else if Ascii.eqb e "u" then
              match rest' with
              | String _ (String _ (String h1 (String h2 rest''))) =>
                  Some (ascii_of_nat (16 * hex_value h1 + hex_value h2),
                        rest'')
              | _ => None
              end
            else None
        | EmptyString => None
        end
      else Some (c, rest)
  end.

(** [doc[k]] on a parsed document; [None] for a missing key or a value
    that is not a mapping. *)
Definition json_field (k : string) (doc : json) : option json :=
  match doc with
  | JDict d => dict_lookup k d
  | _ => None
  end.

(** The id that [create_dashboard] gives [Test Dashboard] at second 1. *)
Definition sample_id : string :=
  md5_8 ("Test Dashboard" ++ isoformat (tick 1)).

(** The row of that dashboard after one [add_panel]. *)
Definition sample_row : dash_row :=
  mk_dash_row sample_id (Some (md5_8 "Test Dashboard")) "Test Dashboard"
    (Some "Test Desc"%string) (JList [JStr "ops"])
    (JList [asdict_Panel
              (new_panel sample_id "CPU" "timeseries" "rate(cpu[5m])"
                 "prometheus" None None)])
    (JList []) (Some "30s"%string) (Some "1h"%string) (isoformat (tick 1)).

Definition store_dash : store := mk_store [sample_row] [].

(** Two instants, 16 ms apart, at which the title [Test Dashboard] has the
    same eight-character fingerprint. *)
Definition instant_a : datetime := mk_datetime 2024 1 1 0 0 0 5504.
Definition instant_b : datetime := mk_datetime 2024 1 1 0 0 0 21467.

(** ** Invariants of the dashboard table and reachable stores *)

(** The cells that are not NULL. *)
Fixpoint non_null {A : Type} (cells : list (option A)) : list A :=
  match cells with
  | [] => []
  | Some a :: rest => a :: non_null rest
  | None :: rest => non_null rest
  end.

(** The primary key on [id] and the UNIQUE constraint on [uid] hold of the
    stored rows; the constraint does not bear on NULL. *)
Definition dashboards_unique (s : store) : Prop :=
  NoDup (map r_id (dashboards s))
  /\ NoDup (non_null (map r_uid (dashboards s))).

(** The stores that calls of the public methods build from a new database;
    a call that raises writes nothing. *)
Inductive reachable : store -> Prop :=
| reach_init : reachable init_db
| reach_push_metric s name value labels now1 now2 :
    reachable s ->
    reachable (fst (push_metric s name value labels now1 now2))
| reach_create_dashboard s title description tags refresh_interval
    time_range now1 now2 s' d :
    reachable s ->
    create_dashboard s title description tags refresh_interval time_range
      now1 now2 = Ok (s', d) ->
    reachable s'
| reach_add_panel s dashboard_id title panel_type query datasource position
    options s' p :
    reachable s ->
    add_panel s dashboard_id title panel_type query datasource position
      options = Ok (s', p) ->
    reachable s'
| reach_add_variable s dashboard_id name query var_type s' v :
    reachable s ->
    add_variable s dashboard_id name query var_type = Ok (s', v) ->
    reachable s'
| reach_import_json s doc now s' d :
    reachable s ->
    import_json s doc now = Some (Ok (s', d)) ->
    reachable s'.

(** ** Instants in order *)

(** The field ranges of a [datetime] (the day is not checked against the
    month). *)
Definition datetime_valid (d : datetime) : Prop :=
  (1 <= year d <= 9999)%N /\ (1 <= month d <= 12)%N
  /\ (1 <= day d <= 31)%N /\ (hour d < 24)%N /\ (minute d < 60)%N
  /\ (second d < 60)%N /\ (microsecond d < 1000000)%N.

Definition lex (c1 c2 : comparison) : comparison :=
  match c1 with
  | Eq => c2
  | _ => c1
  end.

(** Chronological comparison: year first, microsecond last. *)
Definition datetime_compare (d1 d2 : datetime) : comparison :=
  lex (N.compare (year d1) (year d2))
    (lex (N.compare (month d1) (month d2))
       (lex (N.compare (day d1) (day d2))
          (lex (N.compare (hour d1) (hour d2))
             (lex (N.compare (minute d1) (minute d2))
                (lex (N.compare (second d1) (second d2))
                   (N.compare (microsecond d1) (microsecond d2))))))).

(** Decimal digits by division, used to read [fmt_d] digit by digit. *)
Definition digit_cons (k : N) (d : Decimal.uint) : Decimal.uint :=
  match k with
  | 0 => Decimal.D0 d | 1 => Decimal.D1 d | 2 => Decimal.D2 d
  | 3 => Decimal.D3 d | 4 => Decimal.D4 d | 5 => Decimal.D5 d
  | 6 => Decimal.D6 d | 7 => Decimal.D7 d | 8 => Decimal.D8 d
  | _ => Decimal.D9 d
  end%N.

(** The [w] low digits of [n], least significant first. *)
Fixpoint low_digits (w : nat) (n : N) : Decimal.uint :=
  match w with
  | O => Decimal.Nil
  | S w' => digit_cons (n mod 10)%N (low_digits w' (n / 10)%N)
  end.

Definition digit_char (k : N) : ascii := ascii_of_N (48 + k)%N.

(** [n] on exactly [w] digits, most significant first. *)
Fixpoint fixed (w : nat) (n : N) : string :=
  match w with
  | O => EmptyString
  | S w' => (fixed w' (n / 10)%N ++ str1 (digit_char (n mod 10)%N))%string
  end.

(** ** Shape of identifiers *)

Definition is_hex (c : ascii) : bool :=
  existsb (Ascii.eqb c) (list_ascii_of_string "0123456789abcdef").

(** Eight characters, each a lowercase hexadecimal digit. *)
Definition hex8 (s : string) : Prop :=
  String.length s = 8%nat
  /\ forallb is_hex (list_ascii_of_string s) = true.

(** * Properties *)

(** ** binary64: the index [int(n * 0.95)] *)

Lemma iter_pos_nat {A : Type} (f : A -> A) (p : positive) (x : A) :
  iter_pos f p x = Nat.iter (Pos.to_nat p) f x.
Proof.
  revert x; induction p as [p IH | p IH |]; intro x; cbn [iter_pos].
  - rewrite !IH, Pos2Nat.inj_xI. 
    replace (S (2 * Pos.to_nat p))%nat with (Pos.to_nat p + (Pos.to_nat p + 1))%nat by lia.
    rewrite !Nat.iter_add. reflexivity.
  - rewrite !IH, Pos2Nat.inj_xO.
    replace (2 * Pos.to_nat p)%nat with (Pos.to_nat p + Pos.to_nat p)%nat by lia.
    rewrite Nat.iter_add. reflexivity.
  - reflexivity.
Qed.

Lemma shr_1_spec (m : Z) (r s : bool) :
  0 <= m ->
  shr_1 (Build_shr_record m r s) =
  Build_shr_record (m / 2) (Z.odd m) (r || s).
Proof.
  intro Hm. destruct m as [| p | p]; try lia.
  - reflexivity.
  - destruct p as [p | p |]; simpl shr_1.
    + replace (Z.pos p~1 / 2) with (Z.pos p); [reflexivity |].
      apply (Z.div_unique_pos _ 2 _ 1); lia.
    + replace (Z.pos p~0 / 2) with (Z.pos p); [reflexivity |].
      apply (Z.div_unique_pos _ 2 _ 0); lia.
    + reflexivity.
Qed.

Lemma shr_iter_spec (k : nat) (m : Z) :
  0 <= m ->
  Nat.iter (S k) shr_1 (Build_shr_record m false false) =
  Build_shr_record (m / 2 ^ Z.of_nat (S k))
    (Z.testbit m (Z.of_nat k))
    (negb (m mod 2 ^ Z.of_nat k =? 0)).
Proof.
  intro Hm. induction k as [| k IH].
  - cbn [Nat.iter nat_rect]. rewrite shr_1_spec by assumption.
    change (Z.of_nat 0) with 0. change (Z.of_nat 1) with 1.
    rewrite Z.bit0_odd, Z.pow_0_r, Z.pow_1_r, Z.mod_1_r. reflexivity.
  - change (Nat.iter (S (S k)) shr_1 ?x) with (shr_1 (Nat.iter (S k) shr_1 x)).
    rewrite IH.
    assert (H2 : 0 < 2 ^ Z.of_nat (S k)) by (apply Z.pow_pos_nonneg; lia).
    rewrite shr_1_spec by (apply Z.div_pos; lia).
    f_equal.
    + rewrite Z.div_div by lia. f_equal.
      rewrite (Nat2Z.inj_succ (S k)), Z.pow_succ_r by lia. lia.
    + rewrite Z.testbit_odd, Z.shiftr_div_pow2 by lia. reflexivity.
    + rewrite (Z.testbit_odd m), Z.shiftr_div_pow2 by lia.
      rewrite (Nat2Z.inj_succ k), Z.pow_succ_r by lia.
      assert (Hk : 0 < 2 ^ Z.of_nat k) by (apply Z.pow_pos_nonneg; lia).
      set (P := 2 ^ Z.of_nat k) in *.
      pose proof (Z.div_mod m P ltac:(lia)) as E1.
      pose proof (Z.mod_pos_bound m P Hk) as B1.
      pose proof (Z.div_mod (m / P) 2 ltac:(lia)) as E2.
      pose proof (Z.mod_pos_bound (m / P) 2 ltac:(lia)) as B2.
      assert (E3 : m mod (2 * P) = P * ((m / P) mod 2) + m mod P).
      { symmetry. apply (Z.mod_unique_pos _ _ (m / P / 2)); nia. }
      rewrite E3. rewrite Zodd_mod.
      destruct (Z.eqb_spec ((m / P) mod 2) 1) as [e|e];
      destruct (Z.eqb_spec (m mod P) 0) as [e'|e']; simpl;
      destruct (Z.eqb_spec (P * ((m / P) mod 2) + m mod P) 0); try reflexivity; try nia.
Qed.

Lemma mod_double (m P : Z) :
  0 <= m -> 0 < P ->
  m mod (2 * P) = P * (if Z.odd (m / P) then 1 else 0) + m mod P.
Proof.
  intros Hm HP.
  pose proof (Z.div_mod m P ltac:(lia)) as E1.
  pose proof (Z.mod_pos_bound m P HP) as B1.
  pose proof (Z.div_mod (m / P) 2 ltac:(lia)) as E2.
  pose proof (Z.mod_pos_bound (m / P) 2 ltac:(lia)) as B2.
  rewrite Zodd_mod.
  symmetry. apply (Z.mod_unique_pos _ _ (m / P / 2)).
  - destruct (Z.eqb_spec ((m / P) mod 2) 1); nia.
  - destruct (Z.eqb_spec ((m / P) mod 2) 1); nia.
Qed.

Lemma digits2_pos_bounds (p : positive) :
  2 ^ (Zpos (digits2_pos p) - 1) <= Zpos p < 2 ^ Zpos (digits2_pos p).
Proof.
  induction p as [p IH | p IH |]; cbn [digits2_pos].
  - rewrite Pos2Z.inj_succ.
    replace (Z.succ (Zpos (digits2_pos p)) - 1) with (Z.succ (Zpos (digits2_pos p) - 1)) by lia.
    rewrite !Z.pow_succ_r by lia. lia.
  - rewrite Pos2Z.inj_succ.
    replace (Z.succ (Zpos (digits2_pos p)) - 1) with (Z.succ (Zpos (digits2_pos p) - 1)) by lia.
    rewrite !Z.pow_succ_r by lia. lia.
  - simpl. lia.
Qed.

Lemma digits2_pos_unique (p : positive) (d : Z) :
  2 ^ (d - 1) <= Zpos p < 2 ^ d -> Zpos (digits2_pos p) = d.
Proof.
  intros [Hlo Hhi].
  pose proof (digits2_pos_bounds p) as [Blo Bhi].
  set (d' := Zpos (digits2_pos p)) in *.
  assert (0 < d).
  { destruct (Z.lt_trichotomy d 0) as [L | [E | G]]; [| | assumption].
    - rewrite (Z.pow_neg_r 2 d) in Hhi by lia. lia.
    - subst d. change (2 ^ 0) with 1 in Hhi. lia. }
  destruct (Z.lt_trichotomy d' d) as [L | [E | G]]; [| assumption |].
  - assert (2 ^ d' <= 2 ^ (d - 1)) by (apply Z.pow_le_mono_r; lia). lia.
  - assert (2 ^ d <= 2 ^ (d' - 1)) by (apply Z.pow_le_mono_r; lia). lia.
Qed.

(** Rounding a mantissa that already has [prec] digits changes nothing. *)
Lemma binary_round_aux_exact (m : positive) (e : Z) :
  Zpos (digits2_pos m) = 53 ->
  -1074 <= e <= 971 ->
  binary_round_aux prec emax false (Zpos m) e loc_Exact = S754_finite false m e.
Proof.
  intros Hd He.
  unfold binary_round_aux, shr_fexp, fexp, emin, prec, emax.
  cbn [Zdigits2 shr_record_of_loc]. rewrite Hd.
  replace (Z.max (53 + e - 53) (3 - 1024 - 53) - e) with 0 by lia.
  cbn [shr shr_m loc_of_shr_record round_nearest_even Zdigits2 shr_record_of_loc].
  rewrite Hd.
  replace (Z.max (53 + e - 53) (3 - 1024 - 53) - e) with 0 by lia.
  cbn [shr shr_m].
  destruct (Z.leb_spec e (1024 - 53)); [reflexivity | lia].
Qed.

Lemma Pos_iter_xO (p k : positive) :
  Zpos (Pos.iter xO p k) = Zpos p * 2 ^ Zpos k.
Proof.
  induction k as [| k IH] using Pos.peano_ind.
  - simpl. lia.
  - rewrite Pos.iter_succ, Pos2Z.inj_succ, Z.pow_succ_r by lia.
    change (Zpos (Pos.iter xO p k)~0) with (2 * Zpos (Pos.iter xO p k)).
    rewrite IH. lia.
Qed.

(** [float(n)] is exact below [2^53]: the mantissa is [n] shifted left to
    53 digits. *)
Lemma float_of_int_exact (p : positive) :
  let d := Zpos (digits2_pos p) in
  d <= 53 ->
  exists mz : positive,
    float_of_int (Zpos p) = Ok (S754_finite false mz (d - 53)) /\
    Zpos mz = Zpos p * 2 ^ (53 - d) /\
    Zpos (digits2_pos mz) = 53.
Proof.
  intros d Hd.
  pose proof (digits2_pos_bounds p) as Bp. fold d in Bp.
  assert (Hd0 : 0 < d) by (unfold d; lia).
  unfold float_of_int, binary_normalize, binary_round.
  assert (Hf : fexp prec emax (Zpos (digits2_pos p) + 0) = d - 53)
    by (unfold fexp, emin, prec, emax; fold d; lia).
  rewrite Hf. unfold shl_align.
  replace (d - 53 - 0) with (d - 53) by lia.
  destruct (d - 53) as [| x | x] eqn:Ex; try lia.
  - exists p. assert (Ed : d = 53) by lia.
    rewrite binary_round_aux_exact by (fold d; lia).
    split; [reflexivity |]. split; [| exact Ed].
    replace (53 - d) with 0 by lia. lia.
  - exists (Pos.iter xO p x).
    assert (Hm : Zpos (Pos.iter xO p x) = Zpos p * 2 ^ (53 - d)).
    { rewrite Pos_iter_xO. f_equal. f_equal. lia. }
    assert (Hdig : Zpos (digits2_pos (Pos.iter xO p x)) = 53).
    { apply digits2_pos_unique. rewrite Hm.
      assert (E1 : 2 ^ (53 - 1) = 2 ^ (d - 1) * 2 ^ (53 - d))
        by (rewrite <- Z.pow_add_r by lia; f_equal; lia).
      assert (E2 : 2 ^ 53 = 2 ^ d * 2 ^ (53 - d))
        by (rewrite <- Z.pow_add_r by lia; f_equal; lia).
      assert (0 < 2 ^ (53 - d)) by (apply Z.pow_pos_nonneg; lia).
      rewrite E1, E2. nia. }
    rewrite binary_round_aux_exact by (try assumption; lia).
    split; [reflexivity |]. split; assumption.
Qed.

(** Rounding a mantissa of [53 + K] digits, [K >= 1], to nearest even: the
    result is [V * 2^e] for a multiple [V] of [2^K] within [2^(K-1)] of the
    mantissa. *)
Lemma binary_round_aux_nearest (m : positive) (e : Z) (k : nat) :
  let K := Z.of_nat (S k) in
  Zpos (digits2_pos m) = 53 + K ->
  -1074 <= e + K ->
  e + K + 1 <= 971 ->
  exists (m' : positive) (e' : Z) (V : Z),
    binary_round_aux prec emax false (Zpos m) e loc_Exact
      = S754_finite false m' e' /\
    e + K <= e' /\
    Zpos m' * 2 ^ (e' - e) = V /\
    V mod 2 ^ K = 0 /\
    2 * Z.abs (V - Zpos m) <= 2 ^ K.
Proof.
  intros K Hd Hlo Hhi.
  pose proof (digits2_pos_bounds m) as Bm. rewrite Hd in Bm.
  assert (HK : 0 < K) by (unfold K; lia).
  assert (HP : 0 < 2 ^ (K - 1)) by (apply Z.pow_pos_nonneg; lia).
  assert (E2K : 2 ^ K = 2 * 2 ^ (K - 1)).
  { rewrite <- Z.pow_succ_r by lia. f_equal. lia. }
  assert (E53 : 2 ^ (53 + K) = 2 ^ 53 * 2 ^ K) by (apply Z.pow_add_r; lia).
  assert (E52 : 2 ^ (53 + K - 1) = 2 ^ 52 * 2 ^ K).
  { rewrite <- Z.pow_add_r by lia. f_equal. lia. }
  set (q := Zpos m / 2 ^ K).
  set (rem := Zpos m mod 2 ^ K).
  assert (Hqr : Zpos m = 2 ^ K * q + rem) by (apply Z.div_mod; lia).
  assert (Brem : 0 <= rem < 2 ^ K) by (apply Z.mod_pos_bound; lia).
  assert (Bq : 2 ^ 52 <= q < 2 ^ 53) by nia.
  unfold binary_round_aux, shr_fexp, fexp, emin, prec, emax.
  cbn [Zdigits2 shr_record_of_loc]. rewrite Hd.
  replace (Z.max (53 + K + e - 53) (3 - 1024 - 53) - e) with K by lia.
  unfold K at 1. cbn [Z.of_nat shr].
  rewrite iter_pos_nat, SuccNat2Pos.id_succ, shr_iter_spec by lia.
  change (Z.pos (Pos.of_succ_nat k)) with K.
  fold K. replace (Z.of_nat k) with (K - 1) by (unfold K; lia).
  fold q.
  pose proof (mod_double (Zpos m) (2 ^ (K - 1)) ltac:(lia) HP) as Hmd.
  rewrite <- E2K in Hmd. fold rem in Hmd.
  rewrite Z.testbit_odd, Z.shiftr_div_pow2 by lia.
  set (r := Z.odd (Zpos m / 2 ^ (K - 1))) in *.
  set (lo := Zpos m mod 2 ^ (K - 1)) in *.
  assert (Blo : 0 <= lo < 2 ^ (K - 1)) by (apply Z.mod_pos_bound; lia).
  cbn [shr_m].
  set (m1 := round_nearest_even q
               (loc_of_shr_record
                  {| shr_m := q; shr_r := r; shr_s := negb (lo =? 0) |})).
  assert (Hm1 : (m1 = q \/ m1 = q + 1) /\ 2 * Z.abs (m1 * 2 ^ K - Zpos m) <= 2 ^ K).
  { unfold m1. destruct r; destruct (Z.eqb_spec lo 0) as [El | El];
      cbn [negb loc_of_shr_record round_nearest_even].
    - destruct (Z.even q); split; auto; nia.
    - split; [auto | nia].
    - split; [auto | nia].
    - split; [auto | nia]. }
  destruct Hm1 as [Hm1 Habs].
  clearbody m1.
  assert (Bm1 : 2 ^ 52 <= m1 <= 2 ^ 53) by lia.
  destruct m1 as [| p1 | p1]; try lia.
  destruct (Z.eq_dec (Zpos p1) (2 ^ 53)) as [Eov | Nov].
  - (* the mantissa rounds up to 2^53: one more shift *)
    assert (Hd1 : Zpos (digits2_pos p1) = 54).
    { apply digits2_pos_unique. rewrite Eov. split; [reflexivity | reflexivity]. }
    cbn [Zdigits2]. rewrite Hd1.
    replace (Z.max (54 + (e + K) - 53) (3 - 1024 - 53) - (e + K)) with 1 by lia.
    cbn [shr iter_pos shr_record_of_loc].
    rewrite shr_1_spec by lia. cbn [shr_m].
    rewrite Eov. change (2 ^ 53 / 2) with (Zpos (2 ^ 52)).
    destruct (Z.leb_spec (e + K + 1) (1024 - 53)); [| lia].
    exists (2 ^ 52)%positive, (e + K + 1), (Zpos p1 * 2 ^ K).
    repeat split; try lia.
    + replace (e + K + 1 - e) with (K + 1) by lia.
      rewrite Z.pow_add_r, Eov by lia. change (2 ^ 1) with 2.
      change (Zpos (2 ^ 52)) with (2 ^ 52). lia.
    + apply Z.mod_mul. lia.
  - assert (Hd1 : Zpos (digits2_pos p1) = 53).
    { apply digits2_pos_unique. change (53 - 1) with 52. lia. }
    cbn [Zdigits2]. rewrite Hd1.
    replace (Z.max (53 + (e + K) - 53) (3 - 1024 - 53) - (e + K)) with 0 by lia.
    cbn [shr shr_m shr_record_of_loc].
    destruct (Z.leb_spec (e + K) (1024 - 53)); [| lia].
    exists p1, (e + K), (Zpos p1 * 2 ^ K).
    repeat split; try lia.
    + f_equal. f_equal. lia.
    + apply Z.mod_mul. lia.
Qed.

Lemma multiple_gap (a P : Z) : 0 < P -> a mod P = 0 -> 0 < a -> P <= a.
Proof.
  intros HP Hmod Ha.
  destruct (Z.lt_ge_cases a P) as [L | G]; [| assumption].
  rewrite Z.mod_small in Hmod by lia. lia.
Qed.

Lemma int_of_scaled (m' : positive) (e e' : Z) :
  e <= 0 -> e <= e' ->
  Z.shiftl (Zpos m') e' = (Zpos m' * 2 ^ (e' - e)) / 2 ^ (- e).
Proof.
  intros He Hee.
  assert (H1 : 0 < 2 ^ (- e)) by (apply Z.pow_pos_nonneg; lia).
  destruct (Z.lt_ge_cases e' 0) as [Neg | Pos].
  - rewrite Z.shiftl_div_pow2 by lia.
    replace (- e) with (- e' + (e' - e)) by lia.
    rewrite Z.pow_add_r by lia.
    assert (0 < 2 ^ (e' - e)) by (apply Z.pow_pos_nonneg; lia).
    assert (0 < 2 ^ (- e')) by (apply Z.pow_pos_nonneg; lia).
    rewrite Z.div_mul_cancel_r by lia. reflexivity.
  - rewrite Z.shiftl_mul_pow2 by lia.
    replace (e' - e) with (e' + - e) by lia.
    rewrite Z.pow_add_r, Z.mul_assoc, Z.div_mul by lia. reflexivity.
Qed.

(** [int(n * 0.95)] is the floor of [19 n / 20] for every length below
    [2^49]: the rounding of the binary64 product never crosses an integer. *)
Lemma p95_index_floor (n : Z) :
  0 <= n < 2 ^ 49 -> p95_index n = Ok (19 * n / 20).
Proof.
  intros [Hn0 Hn].
  destruct n as [| p | p]; [reflexivity | | lia].
  pose proof (digits2_pos_bounds p) as Bp.
  set (d := Zpos (digits2_pos p)) in *.
  assert (Hd0 : 0 < d) by (unfold d; lia).
  assert (Hd : d <= 49).
  { destruct (Z.lt_ge_cases 49 d) as [G | L]; [| assumption].
    assert (2 ^ 49 <= 2 ^ (d - 1)) by (apply Z.pow_le_mono_r; lia). lia. }
  destruct (float_of_int_exact p ltac:(fold d; lia)) as (mz & Hf & Hmz & Hdz).
  fold d in Hf, Hmz.
  unfold p95_index. rewrite Hf. cbn [bind].
  unfold float_mul, float_0_95. cbn [SFmul xorb].
  set (M := 8556839292003942%positive).
  set (T := 2 ^ (53 - d)) in *.
  assert (HT : 16 <= T).
  { unfold T. change 16 with (2 ^ 4). apply Z.pow_le_mono_r; lia. }
  set (X := Zpos p * T) in *.
  assert (BX : 2 ^ 52 <= X < 2 ^ 53).
  { pose proof (digits2_pos_bounds mz) as B. rewrite Hdz, Hmz in B.
    change (53 - 1) with 52 in B. exact B. }
  assert (Hm : Zpos (mz * M) = X * Zpos M) by (rewrite Pos2Z.inj_mul, Hmz; reflexivity).
  assert (Bm : 2 ^ 104 <= Zpos (mz * M) < 2 ^ 106).
  { rewrite Hm. unfold M. change (2 ^ 104) with (2 ^ 52 * 2 ^ 52).
    change (2 ^ 106) with (2 ^ 53 * 2 ^ 53).
    assert (2 ^ 52 <= 8556839292003942 < 2 ^ 53) by lia.
    nia. }
  pose proof (digits2_pos_bounds (mz * M)) as Bd.
  set (dm := Zpos (digits2_pos (mz * M))) in *.
  assert (Hdm : dm = 105 \/ dm = 106).
  { assert (104 < dm).
    { destruct (Z.lt_ge_cases 104 dm) as [G | L]; [assumption |].
      assert (2 ^ dm <= 2 ^ 104) by (apply Z.pow_le_mono_r; unfold dm; lia). lia. }
    assert (dm - 1 < 106).
    { destruct (Z.lt_ge_cases (dm - 1) 106) as [G | L]; [assumption |].
      assert (2 ^ 106 <= 2 ^ (dm - 1)) by (apply Z.pow_le_mono_r; lia). lia. }
    lia. }
  set (k := Z.to_nat (dm - 54)).
  assert (HK : Z.of_nat (S k) = dm - 53) by (unfold k; lia).
  destruct (binary_round_aux_nearest (mz * M) (d - 53 + -53) k)
    as (m' & e' & V & Hr & He' & HV & Hmod & Habs).
  { fold dm. lia. }
  { lia. }
  { lia. }
  rewrite Hr. cbn [int_of_float cond_Zopp]. f_equal.
  rewrite HK in *.
  set (K := dm - 53) in *.
  rewrite (int_of_scaled m' (d - 53 + -53) e') by lia.
  rewrite HV.
  replace (- (d - 53 + -53)) with (53 - d + 53) by lia.
  rewrite Z.pow_add_r by lia. fold T.
  set (S := T * 2 ^ 53).
  assert (HS : 0 < S) by (unfold S; lia).
  set (Q := 19 * Zpos p / 20).
  set (t := (19 * Zpos p) mod 20).
  assert (Hqt : 19 * Zpos p = 20 * Q + t) by (apply Z.div_mod; lia).
  assert (Bt : 0 <= t < 20) by (apply Z.mod_pos_bound; lia).
  (* 2^K divides S *)
  assert (HSK : S = 2 ^ K * (T * 2 ^ (53 - K))).
  { unfold S. replace (2 ^ 53) with (2 ^ K * 2 ^ (53 - K)).
    - lia.
    - rewrite <- Z.pow_add_r by (unfold K; lia). f_equal. lia. }
  assert (H2K : 0 < 2 ^ K) by (apply Z.pow_pos_nonneg; unfold K; lia).
  assert (E2K : 2 ^ (53 + K) = 2 ^ 53 * 2 ^ K) by (apply Z.pow_add_r; unfold K; lia).
  assert (Bm2 : Zpos (mz * M) < 2 ^ 53 * 2 ^ K).
  { rewrite <- E2K. replace (53 + K) with dm by (unfold K; lia). apply Bd. }
  assert (BK : 2 ^ K <= 2 ^ 53) by (apply Z.pow_le_mono_r; unfold K; lia).
  (* the exact product, twenty times *)
  assert (H20 : 20 * Zpos (mz * M) = 20 * (Q * S) + t * S - 8 * X).
  { rewrite Hm. unfold M, S, X in *.
    replace (20 * (Q * (T * 2 ^ 53))) with ((20 * Q) * T * 2 ^ 53) by ring.
    replace (20 * Q) with (19 * Zpos p - t) by lia.
    change (2 ^ 53) with 9007199254740992. ring. }
  assert (BtS : 0 <= t * S <= 19 * S).
  { split; [apply Z.mul_nonneg_nonneg; lia |].
    apply Z.mul_le_mono_nonneg_r; lia. }
  assert (HmodQS : (Q * S) mod 2 ^ K = 0).
  { rewrite HSK. replace (Q * (2 ^ K * (T * 2 ^ (53 - K))))
      with (Q * (T * 2 ^ (53 - K)) * 2 ^ K) by ring.
    apply Z.mod_mul. lia. }
  assert (HmodQS1 : ((Q + 1) * S) mod 2 ^ K = 0).
  { rewrite HSK. replace ((Q + 1) * (2 ^ K * (T * 2 ^ (53 - K))))
      with ((Q + 1) * (T * 2 ^ (53 - K)) * 2 ^ K) by ring.
    apply Z.mod_mul. lia. }
  symmetry. apply (Z.div_unique_pos _ _ _ (V - Q * S)); [| lia].
  change (2 ^ 53) with 9007199254740992 in *.
  change (2 ^ 52) with 4503599627370496 in *.
  change (2 ^ 49) with 562949953421312 in *.
  assert (HSval : S = T * 9007199254740992) by reflexivity.
  clearbody S.
  split.
  - (* V is not below Q * S *)
    destruct (Z.lt_ge_cases V (Q * S)) as [L | G]; [exfalso | lia].
    assert (Hgap : 2 ^ K <= Q * S - V).
    { apply multiple_gap; try lia.
      rewrite Zminus_mod, HmodQS, Hmod. reflexivity. }
    destruct (Z.eq_dec t 0) as [Et | Nt].
    + rewrite Et in *. lia.
    + assert (1 * S <= t * S) by (apply Z.mul_le_mono_nonneg_r; lia).
      lia.
  - (* V is below (Q + 1) * S *)
    destruct (Z.lt_ge_cases V ((Q + 1) * S)) as [L | G]; [lia | exfalso].
    lia.
Qed.

(** ** binary64: rounding the mean *)

Lemma round_half_even_nearest (a b g : Z) :
  0 < b ->
  Z.abs (round_half_even a b * b - a) <= Z.abs (g * b - a).
Proof.
  intro Hb. unfold round_half_even.
  pose proof (Z.div_mod a b ltac:(lia)) as Ed.
  pose proof (Z.mod_pos_bound a b Hb) as Br.
  set (q := a / b) in *. set (r := a mod b) in *.
  assert (Hg : g <= q \/ q + 1 <= g) by lia.
  assert (Hlow : g <= q -> r <= Z.abs (g * b - a) /\ b - r <= b + Z.abs (g * b - a)).
  { intro L. assert (0 <= (q - g) * b) by nia. split; lia. }
  assert (Hhigh : q + 1 <= g -> b - r <= Z.abs (g * b - a)).
  { intro L. assert (b <= (g - q) * b) by nia. lia. }
  assert (Case : forall m, (m = q /\ 2 * r <= b) \/ (m = q + 1 /\ b <= 2 * r) ->
            Z.abs (m * b - a) <= Z.abs (g * b - a)).
  { intros m [[-> H2] | [-> H2]].
    - replace (q * b - a) with (- r) by lia.
      destruct Hg as [L | L];
        [pose proof (Hlow L) | pose proof (Hhigh L)]; lia.
    - replace ((q + 1) * b - a) with (b - r) by lia.
      destruct Hg as [L | L].
      + pose proof (Hlow L). assert (0 <= (q - g) * b) by nia. lia.
      + pose proof (Hhigh L). lia. }
  destruct (Z.compare_spec (2 * r) b) as [E | L | G].
  - destruct (Z.even q); apply Case; lia.
  - apply Case; lia.
  - apply Case; lia.
Qed.

Lemma round_half_even_le (a b K : Z) :
  0 < b -> a <= K * b -> round_half_even a b <= K.
Proof.
  intros Hb Ha. unfold round_half_even.
  pose proof (Z.div_mod a b ltac:(lia)) as Ed.
  pose proof (Z.mod_pos_bound a b Hb) as Br.
  set (q := a / b) in *. set (r := a mod b) in *.
  assert (Hq : q <= K) by nia.
  assert (Hq1 : 0 < r -> q + 1 <= K) by nia.
  destruct (Z.compare_spec (2 * r) b) as [E | L | G].
  - destruct (Z.even q); lia.
  - lia.
  - lia.
Qed.

Lemma round_half_even_ge (a b K : Z) :
  0 < b -> K * b <= a -> K <= round_half_even a b.
Proof.
  intros Hb Ha. unfold round_half_even.
  pose proof (Z.div_mod a b ltac:(lia)) as Ed.
  pose proof (Z.mod_pos_bound a b Hb) as Br.
  set (q := a / b) in *. set (r := a mod b) in *.
  assert (Hq : K <= q) by nia.
  destruct (Z.compare_spec (2 * r) b) as [E | L | G].
  - destruct (Z.even q); lia.
  - lia.
  - lia.
Qed.

(** *** Powers of two in [Q] *)

Section Rounding.
Local Open Scope Q_scope.

Lemma two_neq_0 : ~ 2 == 0.
Proof. discriminate. Qed.

Lemma pow2_pos (e : Z) : 0 < 2 ^ e.
Proof. apply Qpower_0_lt. reflexivity. Qed.

Lemma pow2_add (e1 e2 : Z) : 2 ^ (e1 + e2) == 2 ^ e1 * 2 ^ e2.
Proof. apply Qpower_plus, two_neq_0. Qed.

Lemma pow2_Z (e : Z) : (0 <= e)%Z -> inject_Z (2 ^ e) == 2 ^ e.
Proof. intro H. apply (Zpower_Qpower 2 e H). Qed.

Lemma pow2_le (e1 e2 : Z) : (e1 <= e2)%Z -> 2 ^ e1 <= 2 ^ e2.
Proof. intro H. apply Qpower_le_compat_l; [exact H | discriminate]. Qed.

Lemma pow2_succ (e : Z) : 2 ^ (e + 1) == 2 * 2 ^ e.
Proof. rewrite pow2_add. change (2 ^ 1) with 2. ring. Qed.

Lemma pow2_sub (e1 e2 : Z) : 2 ^ (e1 - e2) * 2 ^ e2 == 2 ^ e1.
Proof.
  rewrite <- pow2_add. replace (e1 - e2 + e2)%Z with e1 by lia. reflexivity.
Qed.

Lemma Qabs_inject_Z (z : Z) : Qabs (inject_Z z) == inject_Z (Z.abs z).
Proof. destruct z; reflexivity. Qed.

Lemma inject_Z_pos (z : Z) : (0 < z)%Z -> 0 < inject_Z z.
Proof. intro H. unfold Qlt. cbn. lia. Qed.

Lemma inject_Z_neq_0 (z : Z) : (0 < z)%Z -> ~ inject_Z z == 0.
Proof. intros H E. unfold Qeq in E. cbn in E. lia. Qed.

(** [scaled a d e] is the quotient [(a / d) / 2^e]. *)
Lemma scaled_spec (a d e : Z) :
  (0 < a)%Z -> (0 < d)%Z ->
  (0 < fst (scaled a d e))%Z /\ (0 < snd (scaled a d e))%Z
  /\ inject_Z (fst (scaled a d e))
     == inject_Z a / inject_Z d / 2 ^ e * inject_Z (snd (scaled a d e)).
Proof.
  intros Ha Hd. unfold scaled.
  assert (Qd : ~ inject_Z d == 0) by (apply inject_Z_neq_0, Hd).
  pose proof (pow2_pos e) as Pe.
  assert (Qe : ~ 2 ^ e == 0) by (intro E; rewrite E in Pe; discriminate).
  destruct (Z.leb_spec 0 e) as [Hpos | Hneg]; cbn [fst snd].
  - assert (0 < 2 ^ e)%Z by (apply Z.pow_pos_nonneg; lia).
    split; [exact Ha |]. split; [nia |].
    rewrite inject_Z_mult, pow2_Z by exact Hpos. field. split; assumption.
  - assert (0 < 2 ^ (- e))%Z by (apply Z.pow_pos_nonneg; lia).
    split; [nia |]. split; [exact Hd |].
    rewrite inject_Z_mult, pow2_Z by lia.
    rewrite Qpower_opp. field. split; assumption.
Qed.

(** Among the integers none is nearer to [A / B] than [round_half_even]. *)
Lemma round_half_even_nearest_Q (A B g : Z) (y : Q) :
  (0 < B)%Z -> inject_Z A == y * inject_Z B ->
  Qabs (inject_Z (round_half_even A B) - y) <= Qabs (inject_Z g - y).
Proof.
  intros HB Ey.
  assert (QB : 0 < inject_Z B) by (apply inject_Z_pos, HB).
  assert (Scale : forall z : Z,
            inject_Z (Z.abs (z * B - A)) == Qabs (inject_Z z - y) * inject_Z B).
  { intro z. rewrite <- Qabs_inject_Z.
    unfold Zminus. rewrite inject_Z_plus, inject_Z_opp, inject_Z_mult, Ey.
    setoid_replace (inject_Z z * inject_Z B + - (y * inject_Z B))
      with ((inject_Z z - y) * inject_Z B) by ring.
    rewrite Qabs_Qmult, (Qabs_pos (inject_Z B)) by (apply Qlt_le_weak, QB).
    reflexivity. }
  pose proof (round_half_even_nearest A B g HB) as Hz.
  rewrite Zle_Qle, !Scale in Hz.
  apply Qmult_le_r in Hz; assumption.
Qed.

Lemma log2_bounds_Q (a : Z) :
  (0 < a)%Z ->
  2 ^ Z.log2 a <= inject_Z a /\ inject_Z a < 2 * 2 ^ Z.log2 a.
Proof.
  intro Ha. destruct (Z.log2_spec a Ha) as [Lo Hi].
  pose proof (Z.log2_nonneg a) as Hn.
  rewrite <- pow2_succ, <- !pow2_Z by lia.
  split; [rewrite <- Zle_Qle; exact Lo | rewrite <- Zlt_Qlt].
  replace (Z.log2 a + 1)%Z with (Z.succ (Z.log2 a)) by lia. exact Hi.
Qed.

(** The exponent [ulp_exponent] picks puts the quotient below [2^53] units
    and, outside the subnormal range, at [2^52] units or more. *)
Lemma ulp_exponent_spec (a d : Z) :
  (0 < a)%Z -> (0 < d)%Z ->
  let e := ulp_exponent a d in
  let x := inject_Z a / inject_Z d in
  (-1074 <= e)%Z
  /\ x < 2 ^ 53 * 2 ^ e
  /\ (e = (-1074)%Z \/ 2 ^ 52 * 2 ^ e <= x).
Proof.
  intros Ha Hd e x.
  destruct (log2_bounds_Q a Ha) as [La Ua].
  destruct (log2_bounds_Q d Hd) as [Ld Ud].
  set (k := (Z.log2 a - Z.log2 d)%Z) in *.
  assert (Ek : 2 ^ Z.log2 a == 2 ^ k * 2 ^ Z.log2 d)
    by (symmetry; apply pow2_sub).
  destruct (scaled_spec a d k Ha Hd) as (HA & HB & EA).
  pose proof (inject_Z_pos d Hd) as Qd.
  pose proof (pow2_pos k) as Pk.
  pose proof (pow2_pos (Z.log2 d)) as Pd.
  assert (Ex : inject_Z a == x * inject_Z d).
  { unfold x. field. intro E. rewrite E in Qd. discriminate. }
  fold x in EA.
  set (fl := if (fst (scaled a d k) <? snd (scaled a d k))%Z
             then (k - 1)%Z else k).
  assert (Hfl : 2 ^ fl <= x /\ x < 2 * 2 ^ fl).
  { rewrite Ek in La, Ua.
    set (P := 2 ^ k) in *. set (L := 2 ^ Z.log2 d) in *.
    set (D := inject_Z d) in *. set (N := inject_Z a) in *.
    assert (Hx2 : x < 2 * P).
    { apply Qnot_le_lt. intro C.
      assert (2 * P * D <= x * D) by (apply Qmult_le_compat_r; lra).
      assert (P * L <= P * D) by (apply Qmult_le_l; lra).
      lra. }
    assert (HxP : P < 2 * x).
    { apply Qnot_le_lt. intro C.
      assert (2 * x * D <= P * D) by (apply Qmult_le_compat_r; lra).
      assert (P * D < P * (2 * L)) by (apply Qmult_lt_l; lra).
      lra. }
    unfold fl.
    destruct (Z.ltb_spec (fst (scaled a d k)) (snd (scaled a d k))) as [Lt | Ge].
    - assert (E1 : 2 ^ k == 2 * 2 ^ (k - 1)).
      { rewrite <- pow2_succ. replace (k - 1 + 1)%Z with k by lia.
        reflexivity. }
      fold P in E1.
      rewrite Zlt_Qlt, EA in Lt.
      pose proof (inject_Z_pos _ HB) as QB.
      set (B := inject_Z (snd (scaled a d k))) in *.
      assert (x / P < 1).
      { apply Qnot_le_lt. intro C.
        assert (1 * B <= x / P * B) by (apply Qmult_le_compat_r; lra). lra. }
      assert (x < P).
      { apply (Qmult_lt_r _ _ (/ P)); [apply Qinv_lt_0_compat; exact Pk |].
        setoid_replace (P * / P) with 1 by (field; lra).
        exact H. }
      lra.
    - rewrite Zle_Qle, EA in Ge.
      pose proof (inject_Z_pos _ HB) as QB.
      set (B := inject_Z (snd (scaled a d k))) in *.
      assert (1 <= x / P).
      { apply Qnot_lt_le. intro C.
        assert (x / P * B < 1 * B) by (apply Qmult_lt_compat_r; lra). lra. }
      assert (P <= x).
      { apply (Qmult_le_r _ _ (/ P)); [apply Qinv_lt_0_compat; exact Pk |].
        setoid_replace (P * / P) with 1 by (field; lra).
        exact H. }
      fold P. lra. }
  assert (Ee : e = Z.max (fl - 52) (-1074)).
  { unfold e, ulp_exponent. fold k.
    destruct (scaled a d k) as [A0 B0]. reflexivity. }
  destruct Hfl as [Lo Hi].
  split; [lia |]. split.
  - assert (2 * 2 ^ fl <= 2 ^ 53 * 2 ^ e).
    { rewrite <- pow2_succ, <- pow2_add. apply pow2_le. lia. }
    lra.
  - destruct (Z.eq_dec e (-1074)) as [E | N]; [left; exact E | right].
    assert (E52 : 2 ^ 52 * 2 ^ e == 2 ^ fl).
    { rewrite <- pow2_add. replace (52 + e)%Z with fl by lia. reflexivity. }
    rewrite E52. exact Lo.
Qed.

Lemma nearest_scale (p g y u x : Q) :
  0 < u -> x == y * u ->
  Qabs (p - y) <= Qabs (g - y) ->
  Qabs (p * u - x) <= Qabs (g * u - x).
Proof.
  intros Hu Ex H.
  assert (S : forall z, Qabs (z * u - x) == Qabs (z - y) * u).
  { intro z. rewrite Ex.
    setoid_replace (z * u - y * u) with ((z - y) * u) by ring.
    rewrite Qabs_Qmult, (Qabs_pos u) by lra. reflexivity. }
  rewrite !S. apply Qmult_le_compat_r; lra.
Qed.

(** The rounded quotient has at most 53 bits (or is [2^53]) and no number
    [M * 2^E] with a 53-bit [M] and [E] at least -1074 is nearer to the
    quotient. *)
Lemma rounding_nearest (a d : Z) :
  (0 < a)%Z -> (0 < d)%Z ->
  let e := ulp_exponent a d in
  let m := round_half_even (fst (scaled a d e)) (snd (scaled a d e)) in
  let x := inject_Z a / inject_Z d in
  (0 <= m <= 2 ^ 53)%Z /\ (-1074 <= e)%Z
  /\ (e = (-1074)%Z \/ (2 ^ 52 <= m)%Z)
  /\ forall M E : Z,
       (Z.abs M < 2 ^ 53)%Z -> (-1074 <= E)%Z ->
       Qabs (dyadic m e - x) <= Qabs (dyadic M E - x).
Proof.
  intros Ha Hd e m x.
  destruct (ulp_exponent_spec a d Ha Hd) as (He & Hup & Hlow).
  fold e in He, Hup, Hlow. fold x in Hup, Hlow.
  destruct (scaled_spec a d e Ha Hd) as (HA & HB & EA). fold x in EA.
  set (A := fst (scaled a d e)) in *. set (B := snd (scaled a d e)) in *.
  pose proof (pow2_pos e) as Pu. set (u := 2 ^ e) in *.
  pose proof (inject_Z_pos B HB) as QB.
  assert (Exy : x == x / u * u) by (field; lra).
  set (y := x / u) in *.
  assert (Hy53 : y < 2 ^ 53).
  { apply Qnot_le_lt. intro C.
    assert (2 ^ 53 * u <= y * u) by (apply Qmult_le_compat_r; lra). lra. }
  assert (Hm : (0 <= m <= 2 ^ 53)%Z).
  { split.
    - apply round_half_even_ge; lia.
    - apply round_half_even_le; [exact HB |].
      rewrite Zle_Qle, EA, inject_Z_mult.
      change (inject_Z (2 ^ 53)) with (2 ^ 53).
      apply Qmult_le_compat_r; lra. }
  split; [exact Hm |]. split; [exact He |].
  split.
  { destruct Hlow as [E1074 | Hlow]; [left; exact E1074 | right].
    apply round_half_even_ge; [exact HB |].
    rewrite Zle_Qle, EA, inject_Z_mult.
    change (inject_Z (2 ^ 52)) with (2 ^ 52).
    apply Qmult_le_compat_r; [| lra].
    apply Qnot_lt_le. intro C.
    assert (y * u < 2 ^ 52 * u) by (apply Qmult_lt_compat_r; lra). lra. }
  intros M E HM HE. unfold dyadic. fold u.
  destruct (Z.le_gt_cases e E) as [Le | Gt].
  - (* the other number is a multiple of the unit *)
    set (g := (M * 2 ^ (E - e))%Z).
    assert (Eg : inject_Z M * 2 ^ E == inject_Z g * u).
    { unfold g, u. rewrite inject_Z_mult, pow2_Z by lia.
      rewrite <- Qmult_assoc, pow2_sub. reflexivity. }
    rewrite Eg. apply (nearest_scale _ _ y); [exact Pu | exact Exy |].
    apply round_half_even_nearest_Q; assumption.
  - (* the other number is below [2^52] units *)
    destruct Hlow as [E1074 | Hlow]; [lia |].
    assert (Hy52 : 2 ^ 52 <= y).
    { apply Qnot_lt_le. intro C.
      assert (y * u < 2 ^ 52 * u) by (apply Qmult_lt_compat_r; lra). lra. }
    pose proof (pow2_pos E) as PE.
    assert (Hhalf : 2 * 2 ^ E <= u).
    { rewrite <- pow2_succ. apply pow2_le. lia. }
    set (w := 2 ^ E) in *.
    assert (HMq : inject_Z M <= 2 ^ 53 - 1).
    { change (2 ^ 53 - 1) with (inject_Z (2 ^ 53 - 1)).
      rewrite <- Zle_Qle. lia. }
    assert (Hf : inject_Z M * w <= (2 ^ 53 - 1) * w)
      by (apply Qmult_le_compat_r; lra).
    assert (Hfx : inject_Z M * w < 2 ^ 52 * u).
    { setoid_replace (2 ^ 52 * u) with (2 ^ 53 * (u * (1 # 2))) by ring.
      assert (2 ^ 53 * w <= 2 ^ 53 * (u * (1 # 2)))
        by (apply Qmult_le_l; [reflexivity | lra]).
      lra. }
    assert (Hnear : Qabs (inject_Z m * u - x)
                    <= Qabs (inject_Z (2 ^ 52) * u - x)).
    { apply (nearest_scale _ _ y); [exact Pu | exact Exy |].
      apply round_half_even_nearest_Q; assumption. }
    change (inject_Z (2 ^ 52)) with (2 ^ 52) in Hnear.
    assert (H52 : 2 ^ 52 * u <= x).
    { rewrite Exy. apply Qmult_le_compat_r; lra. }
    rewrite (Qabs_neg (2 ^ 52 * u - x)) in Hnear by lra.
    rewrite (Qabs_neg (inject_Z M * w - x)) by lra.
    lra.
Qed.

(** *** [float] of a fraction *)

Lemma dyadic_carry (e : Z) : dyadic (2 ^ 53) e == dyadic (2 ^ 52) (e + 1).
Proof.
  unfold dyadic. rewrite pow2_succ.
  change (inject_Z (2 ^ 53)) with (2 * inject_Z (2 ^ 52)). ring.
Qed.

Lemma is_binary64_opp (q : Q) : is_binary64 q -> is_binary64 (- q).
Proof.
  intros (m & e & Hm & He & E). exists (- m)%Z, e.
  split; [lia |]. split; [exact He |].
  rewrite E. unfold dyadic. rewrite inject_Z_opp. ring.
Qed.

Lemma is_binary64_0 : is_binary64 0.
Proof. exists 0%Z, 0%Z. repeat split; try lia. Qed.

Lemma is_binary64_inject_Z (z : Z) :
  (Z.abs z < 2 ^ 53)%Z -> is_binary64 (inject_Z z).
Proof.
  intro H. exists z, 0%Z. split; [exact H |]. split; [lia |].
  unfold dyadic. change (2 ^ 0) with 1. ring.
Qed.

Lemma binary64_below_limit (q : Q) : is_binary64 q -> q < 2 ^ 1024.
Proof.
  intros (m & e & Hm & He & E). rewrite E. unfold dyadic.
  pose proof (pow2_pos e) as Pe.
  assert (inject_Z m <= 2 ^ 53 - 1).
  { change (2 ^ 53 - 1) with (inject_Z (2 ^ 53 - 1)).
    rewrite <- Zle_Qle. lia. }
  assert (2 ^ e <= 2 ^ 971) by (apply pow2_le; lia).
  assert (inject_Z m * 2 ^ e <= (2 ^ 53 - 1) * 2 ^ e)
    by (apply Qmult_le_compat_r; lra).
  assert ((2 ^ 53 - 1) * 2 ^ e <= (2 ^ 53 - 1) * 2 ^ 971)
    by (apply Qmult_le_l; [reflexivity | assumption]).
  assert ((2 ^ 53 - 1) * 2 ^ 971 < 2 ^ 1024) by reflexivity.
  lra.
Qed.

(** [true_divide] returns a binary64 number, and no binary64 number is
    nearer to the quotient; it returns one whenever the quotient is at most
    some binary64 number. *)
Lemma true_divide_spec (a d : Z) :
  (0 < a)%Z -> (0 < d)%Z ->
  let x := inject_Z a / inject_Z d in
  (forall r, true_divide a d = Ok r ->
     0 <= r /\ is_binary64 r
     /\ forall f, is_binary64 f -> Qabs (r - x) <= Qabs (f - x))
  /\ (forall hi, is_binary64 hi -> x <= hi ->
       exists r, true_divide a d = Ok r).
Proof.
  intros Ha Hd x.
  destruct (rounding_nearest a d Ha Hd) as (Hm & He & Hnorm & Hnear).
  fold x in Hnear. unfold true_divide.
  set (e := ulp_exponent a d) in *.
  destruct (scaled a d e) as [A B] eqn:Es. cbn [fst snd] in *.
  set (m := round_half_even A B) in *.
  pose proof (pow2_pos e) as Pe.
  assert (Hv0 : 0 <= dyadic m e).
  { unfold dyadic. apply Qmult_le_0_compat; [| lra].
    change 0 with (inject_Z 0). rewrite <- Zle_Qle. lia. }
  split.
  - intros r Hr.
    destruct ((971 <? e)%Z || ((e =? 971)%Z && (m =? 2 ^ 53)%Z)) eqn:Ov;
      [discriminate |].
    assert (Er : r == dyadic m e).
    { injection Hr as <-. exact (Qred_correct (dyadic m e)). }
    clear Hr.
    apply orb_false_iff in Ov as [Ov1 Ov2].
    apply Z.ltb_ge in Ov1.
    split; [rewrite Er; exact Hv0 |]. split.
    + destruct (Z.eq_dec m (2 ^ 53)) as [E53 | N53].
      * assert (e <> 971%Z).
        { intro E. rewrite E53, E in Ov2. discriminate. }
        exists (2 ^ 52)%Z, (e + 1)%Z.
        split; [reflexivity |]. split; [lia |].
        rewrite Er, E53. apply dyadic_carry.
      * exists m, e. split; [lia |]. split; [lia | exact Er].
    + intros f (M & E & HM & HE & Ef). rewrite Er, Ef.
      apply Hnear; [exact HM | lia].
  - intros hi Hhi Hx.
    destruct ((971 <? e)%Z || ((e =? 971)%Z && (m =? 2 ^ 53)%Z)) eqn:Ov;
      [exfalso | eexists; reflexivity].
    pose proof (binary64_below_limit hi Hhi) as Hlim.
    destruct Hhi as (M & E & HM & HE & Ef).
    pose proof (Hnear M E HM ltac:(lia)) as Hn. rewrite <- Ef in Hn.
    assert (Hbig : 2 ^ 1024 <= dyadic m e).
    { unfold dyadic. apply orb_true_iff in Ov as [Ov | Ov].
      - apply Z.ltb_lt in Ov. destruct Hnorm as [E1074 | Hnorm]; [lia |].
        assert (2 ^ 52 <= inject_Z m).
        { change (2 ^ 52) with (inject_Z (2 ^ 52)).
          rewrite <- Zle_Qle. exact Hnorm. }
        assert (2 ^ 972 <= 2 ^ e) by (apply pow2_le; lia).
        assert (2 ^ 52 * 2 ^ e <= inject_Z m * 2 ^ e)
          by (apply Qmult_le_compat_r; lra).
        assert (2 ^ 52 * 2 ^ 972 <= 2 ^ 52 * 2 ^ e)
          by (apply Qmult_le_l; [reflexivity | assumption]).
        assert (2 ^ 1024 == 2 ^ 52 * 2 ^ 972) by reflexivity.
        lra.
      - apply andb_true_iff in Ov as [Ov1 Ov2].
        apply Z.eqb_eq in Ov1, Ov2. rewrite Ov1, Ov2.
        apply Qle_lteq. right. reflexivity. }
    rewrite (Qabs_pos (dyadic m e - x)) in Hn by lra.
    rewrite (Qabs_pos (hi - x)) in Hn by lra.
    lra.
Qed.

Lemma Qmake_div (x : Q) :
  x == inject_Z (Qnum x) / inject_Z (Zpos (Qden x)).
Proof. destruct x as [n d]. cbn [Qnum Qden]. apply Qmake_Qdiv. Qed.

(** [float(x)] is a binary64 number nearest to [x]. *)
Lemma float_of_fraction_nearest (x r : Q) :
  float_of_fraction x = Ok r ->
  is_binary64 r
  /\ forall f, is_binary64 f -> Qabs (r - x) <= Qabs (f - x).
Proof.
  unfold float_of_fraction. pose proof (Qmake_div x) as Ex.
  destruct (Qnum x) as [| a | a] eqn:En.
  - intro H. injection H as <-.
    assert (E0 : x == 0) by (rewrite Ex; reflexivity).
    split; [apply is_binary64_0 |].
    intros f _. rewrite E0.
    setoid_replace (0 - 0) with 0 by ring. apply Qabs_nonneg.
  - intro H.
    destruct (true_divide_spec (Zpos a) (Zpos (Qden x)) eq_refl eq_refl)
      as [Hs _].
    destruct (Hs r H) as (_ & Hb & Hn).
    split; [exact Hb |]. intros f Hf. rewrite Ex. apply Hn, Hf.
  - destruct (true_divide (Zpos a) (Zpos (Qden x))) as [r' | ex] eqn:Et;
      [| discriminate].
    intro H. injection H as <-.
    destruct (true_divide_spec (Zpos a) (Zpos (Qden x)) eq_refl eq_refl)
      as [Hs _].
    destruct (Hs r' Et) as (_ & Hb & Hn).
    split; [apply is_binary64_opp, Hb |]. intros f Hf.
    pose proof (Hn (- f) (is_binary64_opp f Hf)) as H.
    assert (Ex' : x == - (inject_Z (Zpos a) / inject_Z (Zpos (Qden x)))).
    { apply (Qeq_trans _ _ _ Ex). change (Zneg a) with (- Zpos a)%Z.
      rewrite inject_Z_opp. field. discriminate. }
    rewrite Ex'.
    setoid_replace (- r' - - (inject_Z (Zpos a) / inject_Z (Zpos (Qden x))))
      with (- (r' - inject_Z (Zpos a) / inject_Z (Zpos (Qden x)))) by ring.
    setoid_replace (f - - (inject_Z (Zpos a) / inject_Z (Zpos (Qden x))))
      with (- (- f - inject_Z (Zpos a) / inject_Z (Zpos (Qden x)))) by ring.
    rewrite !Qabs_opp. exact H.
Qed.

(** Between two binary64 numbers [float(x)] raises nothing and stays
    between them. *)
Lemma float_of_fraction_between (lo hi x : Q) :
  is_binary64 lo -> is_binary64 hi -> lo <= x <= hi ->
  exists r, float_of_fraction x = Ok r /\ lo <= r <= hi.
Proof.
  intros Hlo Hhi [Lx Hx].
  assert (Hex : exists r, float_of_fraction x = Ok r).
  { unfold float_of_fraction. pose proof (Qmake_div x) as Ex.
    destruct (Qnum x) as [| a | a] eqn:En.
    - eexists; reflexivity.
    - destruct (true_divide_spec (Zpos a) (Zpos (Qden x)) eq_refl eq_refl)
        as [_ Ht].
      apply (Ht hi Hhi). rewrite <- Ex. exact Hx.
    - destruct (true_divide_spec (Zpos a) (Zpos (Qden x)) eq_refl eq_refl)
        as [_ Ht].
      destruct (Ht (- lo) (is_binary64_opp lo Hlo)) as [r' Er'].
      + assert (Ex' : x == - (inject_Z (Zpos a) / inject_Z (Zpos (Qden x)))).
        { apply (Qeq_trans _ _ _ Ex). change (Zneg a) with (- Zpos a)%Z.
          rewrite inject_Z_opp. field. discriminate. }
        lra.
      + rewrite Er'. eexists; reflexivity. }
  destruct Hex as [r Hr]. exists r. split; [exact Hr |].
  destruct (float_of_fraction_nearest x r Hr) as [_ Hn].
  split.
  - apply Qnot_lt_le. intro C. pose proof (Hn lo Hlo) as H.
    rewrite (Qabs_neg (r - x)), (Qabs_neg (lo - x)) in H by lra. lra.
  - apply Qnot_lt_le. intro C. pose proof (Hn hi Hhi) as H.
    rewrite (Qabs_pos (r - x)), (Qabs_pos (hi - x)) in H by lra. lra.
Qed.

(** A binary64 number is its own rounding. *)
Lemma float_of_fraction_exact (x : Q) :
  is_binary64 x -> exists r, float_of_fraction x = Ok r /\ r == x.
Proof.
  intro Hx.
  destruct (float_of_fraction_between x x x Hx Hx) as (r & Hr & H1 & H2);
    [split; apply Qle_refl |].
  exists r. split; [exact Hr | apply Qle_antisym; assumption].
Qed.

End Rounding.

(** ** Sorting *)

Section SortFacts.
Context {A : Type} (leb : A -> A -> bool).

Lemma insert_sorted_perm (x : A) (l : list A) :
  Permutation (insert_sorted leb x l) (x :: l).
Proof.
  induction l as [| y rest IH]; cbn [insert_sorted].
  - apply Permutation_refl.
  - destruct (leb x y).
    + apply Permutation_refl.
    + apply perm_trans with (y :: x :: rest).
      * apply perm_skip, IH.
      * apply perm_swap.
Qed.

Lemma sort_by_perm (l : list A) : Permutation (sort_by leb l) l.
Proof.
  induction l as [| x rest IH]; cbn [sort_by].
  - apply perm_nil.
  - apply perm_trans with (x :: sort_by leb rest).
    + apply insert_sorted_perm.
    + apply perm_skip, IH.
Qed.

Lemma sort_by_length (l : list A) :
  List.length (sort_by leb l) = List.length l.
Proof. apply Permutation_length, sort_by_perm. Qed.

Lemma sort_by_In (x : A) (l : list A) : In x (sort_by leb l) <-> In x l.
Proof.
  split; apply Permutation_in;
    [apply sort_by_perm | apply Permutation_sym, sort_by_perm].
Qed.

Hypothesis leb_total : forall x y, leb x y = true \/ leb y x = true.
Hypothesis leb_trans :
  forall x y z, leb x y = true -> leb y z = true -> leb x z = true.

Lemma insert_sorted_sorted (x : A) (l : list A) :
  StronglySorted (fun a b => leb a b = true) l ->
  StronglySorted (fun a b => leb a b = true) (insert_sorted leb x l).
Proof.
  induction 1 as [| y rest Hs IH Hall]; cbn [insert_sorted].
  - constructor; constructor.
  - destruct (leb x y) eqn:E.
    + constructor.
      * constructor; assumption.
      * constructor; [exact E |].
        apply Forall_impl with (P := fun z => leb y z = true); [| exact Hall].
        intros z Hz. exact (leb_trans x y z E Hz).
    + constructor; [exact IH |].
      assert (Hyx : leb y x = true) by (destruct (leb_total x y); [congruence | assumption]).
      apply Forall_forall. intros z Hz.
      apply (Permutation_in _ (insert_sorted_perm x rest)) in Hz.
      destruct Hz as [<- | Hz]; [exact Hyx |].
      rewrite Forall_forall in Hall. apply Hall, Hz.
Qed.

Lemma sort_by_sorted (l : list A) :
  StronglySorted (fun a b => leb a b = true) (sort_by leb l).
Proof.
  induction l as [| x rest IH]; cbn [sort_by].
  - constructor.
  - apply insert_sorted_sorted, IH.
Qed.
End SortFacts.

(** ** The order of the numbers *)

Lemma number_leb_Fin (p q : Q) :
  number_leb (Fin p) (Fin q) = true <-> (p <= q)%Q.
Proof.
  unfold number_leb, number_ltb. rewrite negb_involutive.
  apply Qle_bool_iff.
Qed.

Lemma number_leb_refl (x : number) : number_leb x x = true.
Proof.
  destruct x as [q | []]; [| reflexivity | reflexivity].
  apply number_leb_Fin, Qle_refl.
Qed.

Lemma number_leb_total (x y : number) :
  number_leb x y = true \/ number_leb y x = true.
Proof.
  destruct x as [p | [|]], y as [q | [|]]; try (cbn; auto; fail).
  rewrite !number_leb_Fin.
  destruct (Qlt_le_dec q p) as [L | L];
    [right; apply Qlt_le_weak, L | left; exact L].
Qed.

Lemma number_leb_trans (x y z : number) :
  number_leb x y = true -> number_leb y z = true -> number_leb x z = true.
Proof.
  destruct x as [p | [|]], y as [q | [|]], z as [r | [|]];
    try (cbn; try discriminate; auto; fail).
  rewrite !number_leb_Fin. apply Qle_trans.
Qed.

Lemma number_ltb_false (x y : number) :
  number_ltb x y = false <-> number_leb y x = true.
Proof. unfold number_leb. destruct (number_ltb x y); cbn; split; congruence. Qed.

Lemma number_ltb_true (x y : number) :
  number_ltb x y = true -> number_leb x y = true.
Proof.
  intro H. destruct (number_leb_total x y) as [L | L]; [exact L |].
  apply number_ltb_false in L. congruence.
Qed.

Lemma sort_numbers_ascending (xs : list number) :
  StronglySorted (fun x y => number_leb x y = true) (sort_by number_leb xs).
Proof.
  apply sort_by_sorted; [apply number_leb_total | apply number_leb_trans].
Qed.

(** ** Cells that hold numbers *)

Lemma numbers_Some (xs : list number) : numbers (map Some xs) = Some xs.
Proof.
  induction xs as [| x xs IH]; cbn [map numbers]; [reflexivity |].
  rewrite IH. reflexivity.
Qed.

Lemma numbers_inv (values : list (option number)) (xs : list number) :
  numbers values = Some xs -> values = map Some xs.
Proof.
  revert xs. induction values as [| [x |] rest IH]; intros xs H;
    cbn [numbers] in H.
  - injection H as <-. reflexivity.
  - destruct (numbers rest) as [ys |]; [| discriminate].
    injection H as <-. cbn [map]. rewrite (IH ys eq_refl). reflexivity.
  - discriminate.
Qed.

Lemma numbers_None (values : list (option number)) :
  numbers values = None <-> In None values.
Proof.
  induction values as [| [x |] rest IH]; cbn [numbers In].
  - split; [discriminate | intros []].
  - destruct (numbers rest) as [ys |].
    + split; [discriminate |]. intros [H | H]; [discriminate |].
      apply IH in H. discriminate.
    + split; [intros _; right; apply IH; reflexivity | reflexivity].
  - split; [intros _; left; reflexivity | reflexivity].
Qed.

(** [sorted] on numbers is the stable sort. *)
Lemma sorted_numbers (xs : list number) :
  sorted (map Some xs) = Ok (map Some (sort_by number_leb xs)).
Proof.
  destruct xs as [| x [| y rest]]; [reflexivity | reflexivity |].
  change (sorted (map Some (x :: y :: rest)))
    with (match numbers (map Some (x :: y :: rest)) with
          | Some xs => Ok (map Some (sort_by number_leb xs))
          | None => Raise TypeError
          end).
  rewrite numbers_Some. reflexivity.
Qed.

(** Two or more cells with a [None] among them cannot be sorted. *)
Lemma sorted_None (values : list (option number)) :
  In None values -> (2 <= List.length values)%nat ->
  sorted values = Raise TypeError.
Proof.
  intros Hin Hlen. apply numbers_None in Hin.
  destruct values as [| x [| y rest]]; cbn [List.length] in Hlen; try lia.
  change (sorted (x :: y :: rest))
    with (match numbers (x :: y :: rest) with
          | Some xs => Ok (map Some (sort_by number_leb xs))
          | None => Raise TypeError
          end).
  rewrite Hin. reflexivity.
Qed.

(** ** min, max and mean *)

Lemma min_from_spec (rest : list number) (x : number) :
  exists m,
    min_from (Some x) (map Some rest) = Ok (Some m)
    /\ In m (x :: rest) /\ number_leb m x = true
    /\ Forall (fun v => number_leb m v = true) rest.
Proof.
  revert x. induction rest as [| a rest IH]; intro x; cbn [map min_from].
  - exists x. split; [reflexivity |]. split; [left; reflexivity |].
    split; [apply number_leb_refl | constructor].
  - cbn [py_lt bind].
    set (x' := if number_ltb a x then a else x).
    assert (Hx' : (x' = x \/ x' = a) /\ number_leb x' x = true
                  /\ number_leb x' a = true).
    { unfold x'. destruct (number_ltb a x) eqn:E.
      - split; [right; reflexivity |].
        split; [apply number_ltb_true, E | apply number_leb_refl].
      - split; [left; reflexivity |].
        split; [apply number_leb_refl | apply number_ltb_false, E]. }
    destruct Hx' as (Hc & Hx & Ha).
    replace (if number_ltb a x then Some a else Some x) with (Some x')
      by (unfold x'; destruct (number_ltb a x); reflexivity).
    destruct (IH x') as (m & Em & Hin & Hle & Hall).
    exists m. split; [exact Em |]. split; [| split].
    + destruct Hin as [Hin | Hin].
      * rewrite <- Hin.
        destruct Hc as [-> | ->]; [left | right; left]; reflexivity.
      * right; right; exact Hin.
    + exact (number_leb_trans _ _ _ Hle Hx).
    + constructor; [exact (number_leb_trans _ _ _ Hle Ha) | exact Hall].
Qed.

Lemma max_from_spec (rest : list number) (x : number) :
  exists m,
    max_from (Some x) (map Some rest) = Ok (Some m)
    /\ In m (x :: rest) /\ number_leb x m = true
    /\ Forall (fun v => number_leb v m = true) rest.
Proof.
  revert x. induction rest as [| a rest IH]; intro x; cbn [map max_from].
  - exists x. split; [reflexivity |]. split; [left; reflexivity |].
    split; [apply number_leb_refl | constructor].
  - cbn [py_lt bind].
    set (x' := if number_ltb x a then a else x).
    assert (Hx' : (x' = x \/ x' = a) /\ number_leb x x' = true
                  /\ number_leb a x' = true).
    { unfold x'. destruct (number_ltb x a) eqn:E.
      - split; [right; reflexivity |].
        split; [apply number_ltb_true, E | apply number_leb_refl].
      - split; [left; reflexivity |].
        split; [apply number_leb_refl | apply number_ltb_false, E]. }
    destruct Hx' as (Hc & Hx & Ha).
    replace (if number_ltb x a then Some a else Some x) with (Some x')
      by (unfold x'; destruct (number_ltb x a); reflexivity).
    destruct (IH x') as (m & Em & Hin & Hle & Hall).
    exists m. split; [exact Em |]. split; [| split].
    + destruct Hin as [Hin | Hin].
      * rewrite <- Hin.
        destruct Hc as [-> | ->]; [left | right; left]; reflexivity.
      * right; right; exact Hin.
    + exact (number_leb_trans _ _ _ Hx Hle).
    + constructor; [exact (number_leb_trans _ _ _ Ha Hle) | exact Hall].
Qed.

Lemma py_min_spec (xs : list number) :
  xs <> [] ->
  exists m, py_min (map Some xs) = Ok (Some m) /\ In m xs
            /\ Forall (fun v => number_leb m v = true) xs.
Proof.
  destruct xs as [| x rest]; [congruence | intros _].
  destruct (min_from_spec rest x) as (m & Em & Hin & Hle & Hall).
  exists m. split; [exact Em |]. split; [exact Hin |].
  constructor; assumption.
Qed.

Lemma py_max_spec (xs : list number) :
  xs <> [] ->
  exists m, py_max (map Some xs) = Ok (Some m) /\ In m xs
            /\ Forall (fun v => number_leb v m = true) xs.
Proof.
  destruct xs as [| x rest]; [congruence | intros _].
  destruct (max_from_spec rest x) as (m & Em & Hin & Hle & Hall).
  exists m. split; [exact Em |]. split; [exact Hin |].
  constructor; assumption.
Qed.

Lemma Qsum_lower (m : Q) (values : list Q) :
  Forall (fun v => (m <= v)%Q) values ->
  (m * inject_Z (len values) <= Qsum values)%Q.
Proof.
  induction 1 as [| x rest Hx _ IH].
  - cbn. rewrite Qmult_0_r. apply Qle_refl.
  - unfold len in *. cbn [List.length Qsum fold_right].
    rewrite Nat2Z.inj_succ, <- Z.add_1_r, inject_Z_plus.
    rewrite Qmult_plus_distr_r, Qmult_1_r, Qplus_comm.
    apply Qplus_le_compat; assumption.
Qed.

Lemma Qsum_upper (m : Q) (values : list Q) :
  Forall (fun v => (v <= m)%Q) values ->
  (Qsum values <= m * inject_Z (len values))%Q.
Proof.
  induction 1 as [| x rest Hx _ IH].
  - cbn. rewrite Qmult_0_r. apply Qle_refl.
  - unfold len in *. cbn [List.length Qsum fold_right].
    rewrite Nat2Z.inj_succ, <- Z.add_1_r, inject_Z_plus.
    rewrite Qmult_plus_distr_r, Qmult_1_r, (Qplus_comm (m * _)).
    apply Qplus_le_compat; assumption.
Qed.

(** The exact mean lies between a lower and an upper bound of the
    values. *)
Lemma mean_between (lo hi : Q) (qs : list Q) :
  qs <> [] ->
  Forall (fun v => (lo <= v)%Q) qs -> Forall (fun v => (v <= hi)%Q) qs ->
  (lo <= Qsum qs / inject_Z (len qs) <= hi)%Q.
Proof.
  intros Hne Hlo Hhi.
  assert (Hn : (0 < inject_Z (len qs))%Q).
  { apply inject_Z_pos. unfold len.
    destruct qs; [congruence | cbn [List.length]; lia]. }
  pose proof (Qsum_lower lo qs Hlo) as L.
  pose proof (Qsum_upper hi qs Hhi) as U.
  set (n := inject_Z (len qs)) in *. set (t := Qsum qs) in *.
  assert (E : (t == t / n * n)%Q) by (field; lra).
  split; apply Qnot_lt_le; intro C.
  - assert ((t / n * n < lo * n)%Q) by (apply Qmult_lt_compat_r; lra). lra.
  - assert ((hi * n < t / n * n)%Q) by (apply Qmult_lt_compat_r; lra). lra.
Qed.

Lemma infinite_sum_Some (xs : list number) (v : pyfloat) :
  infinite_sum (Some v) xs <> None.
Proof.
  revert v. induction xs as [| [q | neg] rest IH]; intro v;
    cbn [infinite_sum]; [discriminate | apply IH | apply IH].
Qed.

Lemma infinite_sum_Fin (qs : list Q) : infinite_sum None (map Fin qs) = None.
Proof. induction qs as [| q qs IH]; cbn [map infinite_sum]; auto. Qed.

Lemma infinite_sum_None (xs : list number) :
  infinite_sum None xs = None -> xs = map Fin (finite_values xs).
Proof.
  induction xs as [| [q | neg] rest IH]; cbn [infinite_sum finite_values map].
  - reflexivity.
  - intro H. rewrite <- (IH H). reflexivity.
  - intro H. destruct (infinite_sum_Some _ _ H).
Qed.

Lemma finite_values_Fin (qs : list Q) : finite_values (map Fin qs) = qs.
Proof.
  induction qs as [| q qs IH]; cbn [map finite_values]; [reflexivity |].
  rewrite IH. reflexivity.
Qed.

Lemma statistics_mean_numbers (xs : list number) :
  xs <> [] ->
  statistics_mean (map Some xs)
  = match infinite_sum None xs with
    | Some v => Ok v
    | None =>
        (q <- float_of_fraction
                (Qsum (finite_values xs) / inject_Z (len xs))%Q ;;
         Ok (Num (Fin q)))%result
    end.
Proof.
  intro Hne. destruct xs as [| x rest]; [congruence |].
  change (statistics_mean (map Some (x :: rest)))
    with (match numbers (map Some (x :: rest)) with
          | None => Raise TypeError
          | Some xs =>
              match infinite_sum None xs with
              | Some v => Ok v
              | None =>
                  (q <- float_of_fraction
                          (Qsum (finite_values xs) / inject_Z (len xs))%Q ;;
                   Ok (Num (Fin q)))%result
              end
          end).
  rewrite numbers_Some. reflexivity.
Qed.

(** The mean of finite binary64 values: a binary64 number nearest to the
    exact mean, between the least and the greatest value. *)
Lemma statistics_mean_finite (qs : list Q) :
  qs <> [] -> Forall is_binary64 qs ->
  exists r,
    statistics_mean (map Some (map Fin qs)) = Ok (Num (Fin r))
    /\ is_binary64 r
    /\ (forall f, is_binary64 f ->
          (Qabs (r - Qsum qs / inject_Z (len qs))
           <= Qabs (f - Qsum qs / inject_Z (len qs)))%Q)
    /\ forall lo hi,
         In lo qs -> In hi qs ->
         Forall (fun v => (lo <= v)%Q) qs ->
         Forall (fun v => (v <= hi)%Q) qs ->
         (lo <= r <= hi)%Q.
Proof.
  intros Hne Hb.
  assert (Hne' : map Fin qs <> []) by (destruct qs; [congruence | discriminate]).
  rewrite (statistics_mean_numbers _ Hne'), infinite_sum_Fin,
    finite_values_Fin.
  replace (len (map Fin qs)) with (len qs)
    by (unfold len; rewrite length_map; reflexivity).
  set (mu := (Qsum qs / inject_Z (len qs))%Q).
  rewrite Forall_forall in Hb.
  assert (Hex : exists r, float_of_fraction mu = Ok r).
  { destruct (py_min_spec (map Fin qs) Hne') as (lo & _ & Hlo_in & Hlo).
    destruct (py_max_spec (map Fin qs) Hne') as (hi & _ & Hhi_in & Hhi).
    apply in_map_iff in Hlo_in as (ql & <- & Hql).
    apply in_map_iff in Hhi_in as (qh & <- & Hqh).
    destruct (float_of_fraction_between ql qh mu (Hb ql Hql) (Hb qh Hqh))
      as (r & Hr & _); [| exists r; exact Hr].
    apply mean_between; [exact Hne | |]; apply Forall_forall; intros v Hv.
    - rewrite Forall_forall in Hlo. apply number_leb_Fin, Hlo.
      apply in_map, Hv.
    - rewrite Forall_forall in Hhi. apply number_leb_Fin, Hhi.
      apply in_map, Hv. }
  destruct Hex as [r Hr]. exists r. rewrite Hr. cbn [bind].
  destruct (float_of_fraction_nearest mu r Hr) as [Hbr Hn].
  split; [reflexivity |]. split; [exact Hbr |]. split; [exact Hn |].
  intros lo hi Hlo_in Hhi_in Hlo Hhi.
  destruct (float_of_fraction_between lo hi mu (Hb lo Hlo_in) (Hb hi Hhi_in))
    as (r' & Hr' & Hbetween).
  - apply mean_between; assumption.
  - rewrite Hr in Hr'. injection Hr' as <-. exact Hbetween.
Qed.

(** [statistics.mean] returns a float whenever every value is a number,
    the finite ones binary64. *)
Lemma statistics_mean_total (xs : list number) :
  xs <> [] -> (forall q, In (Fin q) xs -> is_binary64 q) ->
  exists v, statistics_mean (map Some xs) = Ok v.
Proof.
  intros Hne Hb. rewrite (statistics_mean_numbers xs Hne).
  destruct (infinite_sum None xs) as [v |] eqn:Ei; [exists v; reflexivity |].
  pose proof (infinite_sum_None xs Ei) as E.
  assert (Hq : finite_values xs <> []).
  { intro E0. rewrite E0 in E. cbn in E. congruence. }
  destruct (statistics_mean_finite (finite_values xs) Hq)
    as (r & Hr & _).
  - apply Forall_forall. intros q Hq'. apply Hb. rewrite E.
    apply in_map, Hq'.
  - rewrite <- E in Hr. rewrite (statistics_mean_numbers xs Hne), Ei in Hr.
    destruct (float_of_fraction _) as [q |]; [| discriminate].
    eexists. reflexivity.
Qed.

(** The float sum of the infinities, by the signs that occur. *)
Lemma infinite_sum_signs (xs : list number) :
  (forall negative,
      In (Inf negative) xs -> ~ In (Inf (negb negative)) xs ->
      infinite_sum None xs = Some (Num (Inf negative)))
  /\ (In (Inf false) xs -> In (Inf true) xs ->
      infinite_sum None xs = Some NaN).
Proof.
  set (has := fun (b : bool) (l : list number) =>
                existsb (fun x => match x with
                                  | Inf b' => Bool.eqb b b'
                                  | Fin _ => false
                                  end) l).
  set (state_of := fun (p n : bool) =>
                     match p, n with
                     | false, false => None
                     | true, false => Some (Num (Inf false))
                     | false, true => Some (Num (Inf true))
                     | true, true => Some NaN
                     end).
  assert (Hsum : forall l p n,
            infinite_sum (state_of p n) l
            = state_of (p || has false l) (n || has true l)).
  { induction l as [| [q | negative] rest IH]; intros p n.
    - cbn [infinite_sum has existsb]. rewrite !orb_false_r. reflexivity.
    - cbn [infinite_sum]. rewrite IH. reflexivity.
    - cbn [infinite_sum].
      replace (Some _) with (state_of (p || negb negative) (n || negative))
        by (destruct p, n, negative; reflexivity).
      rewrite IH. unfold has. cbn [existsb].
      destruct p, n, negative; reflexivity. }
  assert (Hhas : forall b l, has b l = true <-> In (Inf b) l).
  { intros b l. unfold has. rewrite existsb_exists. split.
    - intros ([q | b'] & Hin & Hb); [discriminate |].
      apply Bool.eqb_prop in Hb. subst b'. exact Hin.
    - intro Hin. exists (Inf b). split; [exact Hin |].
      apply Bool.eqb_reflx. }
  specialize (Hsum xs false false). cbn [orb] in Hsum.
  change (state_of false false) with (@None pyfloat) in Hsum.
  split.
  - intros negative Hin Hnot. rewrite Hsum.
    apply Hhas in Hin.
    assert (Hn : has (negb negative) xs = false).
    { destruct (has (negb negative) xs) eqn:E; [| reflexivity].
      apply Hhas in E. contradiction. }
    destruct negative; cbn [negb] in Hn; rewrite Hin, Hn; reflexivity.
  - intros Hp Hn. rewrite Hsum.
    apply Hhas in Hp. apply Hhas in Hn. rewrite Hp, Hn. reflexivity.
Qed.

(** ** Statistics of a series *)

(** Without [to_ts] a query selects the series by name and labels only. *)
Lemma query_metrics_unbounded (s : store) (name : string)
    (labels : option labels_t) (from_ts : option datetime) (step : Z) :
  query_metrics s name labels from_ts None step
  = map (fun r => (m_timestamp r, m_value r))
      (order_by_timestamp
         (filter (series_match name (json_dumps_labels (or_empty labels)))
            (metrics s))).
Proof. unfold query_metrics. destruct from_ts; reflexivity. Qed.

(** The values [get_stats] works on are the cells of the stored rows of
    the series. *)
Lemma get_stats_values (s : store) (name : string)
    (labels : option labels_t) (from_ts : option datetime) :
  map snd (query_metrics s name labels from_ts None 60)
  = map m_value
      (order_by_timestamp
         (filter (series_match name (json_dumps_labels (or_empty labels)))
            (metrics s))).
Proof.
  rewrite query_metrics_unbounded, map_map. reflexivity.
Qed.

Lemma stats_of_nonempty (name : string) (labels : option labels_t)
    (metrics : list (string * option number)) :
  metrics <> [] ->
  stats_of name labels metrics =
    (let values := map snd metrics in
     sorted_values <- sorted values ;;
     p95_idx <- p95_index (len sorted_values) ;;
     v_min <- py_min values ;;
     v_max <- py_max values ;;
     v_avg <- statistics_mean values ;;
     v_p95 <- (if p95_idx <? len sorted_values
               then py_getitem sorted_values p95_idx
               else py_getitem sorted_values (-1)) ;;
     Ok [("name"%string, PStr name);
         ("labels"%string, PLabels (or_empty labels));
         ("min"%string, cell_value v_min);
         ("max"%string, cell_value v_max);
         ("avg"%string, PFloat v_avg);
         ("p95"%string, cell_value v_p95);
         ("count"%string, PInt (len values))])%result.
Proof. destruct metrics; [congruence | reflexivity]. Qed.

Lemma floor_95_percent (n : Z) :
  Qfloor ((95 # 100) * inject_Z n) = 19 * n / 20.
Proof.
  unfold Qfloor, Qmult, inject_Z. cbn [Qnum Qden].
  change (Zpos (100 * 1)) with (5 * 20).
  replace (95 * n) with (5 * (19 * n)) by lia.
  apply Z.div_mul_cancel_l; lia.
Qed.

Lemma py_getitem_in_range {A : Type} (l : list A) (i : Z) :
  0 <= i < len l ->
  exists v, py_getitem l i = Ok v /\ nth_error l (Z.to_nat i) = Some v.
Proof.
  intros [H0 H1]. unfold py_getitem.
  assert (E0 : (i <? 0) = false) by lia.
  assert (E1 : (len l <=? i) = false) by lia.
  rewrite E0. rewrite E0, E1. cbn [orb].
  destruct (nth_error l (Z.to_nat i)) as [v |] eqn:E.
  - exists v. split; reflexivity.
  - apply nth_error_None in E. unfold len in H1. lia.
Qed.

(** What [stats_of] computes on samples that all hold numbers. *)
Lemma stats_of_numbers (name : string) (labels : option labels_t)
    (metrics : list (string * option number)) (xs : list number) :
  map snd metrics = map Some xs ->
  xs <> [] ->
  (forall q, In (Fin q) xs -> is_binary64 q) ->
  len xs < 2 ^ 49 ->
  exists v_min v_max v_p95 v_avg,
    stats_of name labels metrics =
      Ok [("name"%string, PStr name);
          ("labels"%string, PLabels (or_empty labels));
          ("min"%string, PFloat (Num v_min));
          ("max"%string, PFloat (Num v_max));
          ("avg"%string, PFloat v_avg);
          ("p95"%string, PFloat (Num v_p95));
          ("count"%string, PInt (len xs))]
    /\ py_min (map Some xs) = Ok (Some v_min)
    /\ py_max (map Some xs) = Ok (Some v_max)
    /\ statistics_mean (map Some xs) = Ok v_avg
    /\ nth_error (sort_by number_leb xs) (Z.to_nat (19 * len xs / 20))
       = Some v_p95.
Proof.
  intros Ev Hne Hb Hn.
  set (n := len xs) in *.
  assert (Hn0 : 0 < n).
  { unfold n, len. destruct xs; [congruence | cbn [List.length]; lia]. }
  assert (Hm : metrics <> []).
  { intro E. rewrite E in Ev. destruct xs; [congruence | discriminate]. }
  rewrite (stats_of_nonempty _ _ _ Hm). cbv zeta. rewrite Ev.
  rewrite sorted_numbers. cbn [bind].
  assert (Hlen : len (map Some (sort_by number_leb xs)) = n).
  { unfold len. rewrite length_map, sort_by_length. reflexivity. }
  rewrite Hlen, (p95_index_floor n) by lia. cbn [bind].
  destruct (py_min_spec xs Hne) as (v_min & Emin & Hmin).
  destruct (py_max_spec xs Hne) as (v_max & Emax & Hmax).
  destruct (statistics_mean_total xs Hne Hb) as (v_avg & Eavg).
  assert (Hidx : 0 <= 19 * n / 20 < n).
  { split; [apply Z.div_pos; lia |]. apply Z.div_lt_upper_bound; lia. }
  destruct (py_getitem_in_range (map Some (sort_by number_leb xs))
              (19 * n / 20))
    as (c_p95 & Ep95 & Hnth); [rewrite Hlen; exact Hidx |].
  rewrite nth_error_map in Hnth.
  destruct (nth_error (sort_by number_leb xs) (Z.to_nat (19 * n / 20)))
    as [v_p95 |] eqn:En; [| discriminate].
  injection Hnth as <-.
  rewrite Emin, Emax, Eavg. cbn [bind].
  destruct (Z.ltb_spec (19 * n / 20) n) as [_ | Hge]; [| lia].
  rewrite Ep95. cbn [bind cell_value].
  replace (len (map Some xs)) with n
    by (unfold n, len; rewrite length_map; reflexivity).
  exists v_min, v_max, v_p95, v_avg.
  repeat split; reflexivity.
Qed.

(** A NULL among the samples makes [stats_of] raise. *)
Lemma stats_of_None (name : string) (labels : option labels_t)
    (metrics : list (string * option number)) :
  In None (map snd metrics) -> stats_of name labels metrics = Raise TypeError.
Proof.
  intro Hin.
  assert (Hm : metrics <> []) by (intro E; rewrite E in Hin; destruct Hin).
  rewrite (stats_of_nonempty _ _ _ Hm). cbv zeta.
  destruct (map snd metrics) as [| c [| c' rest]] eqn:Ev.
  - destruct Hin.
  - destruct Hin as [-> | []]. reflexivity.
  - rewrite sorted_None; [reflexivity | exact Hin |].
    cbn [List.length]. lia.
Qed.

(** C1, as it fails: a sample pushed as NaN is stored as NULL; the series
    then has one sample and [get_stats] raises [TypeError]. *)
Lemma get_stats_nan_sample :
  let s := fst (push_metric init_db "cpu" NaN None (tick 0) (tick 0)) in
  query_metrics s "cpu" None None None 60 = [(isoformat (tick 0), None)]
  /\ get_stats s "cpu" None None = Raise TypeError.
Proof. split; vm_compute; reflexivity. Qed.

(** C1, amended.  When the stored samples of the series hold the numbers
    [values], none of them NULL, fewer than [2^49] of them and the finite
    ones binary64, [get_stats] returns the dictionary whose [min] and [max]
    are the least and the greatest value, whose [count] is their number
    [n], and whose [p95] is the element of the ascending-sorted values at
    index [floor (0.95 * n)] clamped to [n - 1]; when all values are finite
    [avg] is a binary64 number nearest to their arithmetic mean, with
    infinities of one sign among them it is that infinity, and with both
    signs NaN.  Over the values 1 to 10 these are 1, 10, 10, 10 and 5.5.
    With a NULL among the samples [get_stats] raises [TypeError]. *)
Theorem get_stats_summary (s : store) (name : string)
    (labels : option labels_t) (from_ts : option datetime) :
  let rows :=
    order_by_timestamp
      (filter (series_match name (json_dumps_labels (or_empty labels)))
         (metrics s)) in
  (forall values : list number,
     let n := len values in
     map m_value rows = map Some values ->
     values <> [] ->
     (forall q, In (Fin q) values -> is_binary64 q) ->
     n < 2 ^ 49 ->
     exists (v_min v_max v_p95 : number) (v_avg : pyfloat),
       get_stats s name labels from_ts =
         Ok [("name"%string, PStr name);
             ("labels"%string, PLabels (or_empty labels));
             ("min"%string, PFloat (Num v_min));
             ("max"%string, PFloat (Num v_max));
             ("avg"%string, PFloat v_avg);
             ("p95"%string, PFloat (Num v_p95));
             ("count"%string, PInt n)]
       /\ (In v_min values
           /\ Forall (fun v => number_leb v_min v = true) values)
       /\ (In v_max values
           /\ Forall (fun v => number_leb v v_max = true) values)
       /\ (forall qs, values = map Fin qs ->
           exists r,
             v_avg = Num (Fin r) /\ is_binary64 r
             /\ forall f, is_binary64 f ->
                  (Qabs (r - Qsum qs / inject_Z n)
                   <= Qabs (f - Qsum qs / inject_Z n))%Q)
       /\ (forall negative,
             In (Inf negative) values -> ~ In (Inf (negb negative)) values ->
             v_avg = Num (Inf negative))
       /\ (In (Inf false) values -> In (Inf true) values -> v_avg = NaN)
       /\ (Permutation (sort_by number_leb values) values
           /\ StronglySorted (fun x y => number_leb x y = true)
                (sort_by number_leb values)
           /\ nth_error (sort_by number_leb values)
                (Z.to_nat (Z.min (Qfloor ((95 # 100) * inject_Z n)) (n - 1)))
              = Some v_p95)
       /\ (values = one_to_ten ->
           v_min = Fin 1 /\ v_max = Fin 10 /\ v_avg = Num (Fin (11 # 2))
           /\ v_p95 = Fin 10 /\ n = 10))
  /\ (In None (map m_value rows) ->
      get_stats s name labels from_ts = Raise TypeError).
Proof.
  intro rows. split.
  - intros values n Ev Hne Hb Hn.
    assert (Hn0 : 0 < n).
    { unfold n, len. destruct values; [congruence | cbn [List.length]; lia]. }
    unfold get_stats.
    destruct (stats_of_numbers name labels
                (query_metrics s name labels from_ts None 60) values)
      as (v_min & v_max & v_p95 & v_avg & Hs & Emin & Emax & Havg & Hp95);
      [rewrite get_stats_values; exact Ev | exact Hne | exact Hb | exact Hn |].
    fold n in Hs, Hp95.
    exists v_min, v_max, v_p95, v_avg.
    split; [exact Hs |].
    split.
    { destruct (py_min_spec values Hne) as (m & Em & Hm).
      rewrite Emin in Em. injection Em as <-. exact Hm. }
    split.
    { destruct (py_max_spec values Hne) as (m & Em & Hm).
      rewrite Emax in Em. injection Em as <-. exact Hm. }
    split; [| split; [| split; [| split]]].
    + intros qs Eq.
      assert (Hq : qs <> []).
      { intro E. apply Hne. rewrite Eq, E. reflexivity. }
      destruct (statistics_mean_finite qs Hq) as (r & Er & Hbr & Hnear & _).
      { apply Forall_forall. intros q Hin. apply Hb. rewrite Eq.
        apply in_map, Hin. }
      rewrite <- Eq, Havg in Er. injection Er as ->.
      exists r. split; [reflexivity |]. split; [exact Hbr |].
      replace n with (len qs)
        by (unfold n, len; rewrite Eq, length_map; reflexivity).
      exact Hnear.
    + intros negative Hin Hnot.
      rewrite (statistics_mean_numbers values Hne),
        (proj1 (infinite_sum_signs values) negative Hin Hnot) in Havg.
      injection Havg as <-. reflexivity.
    + intros Hpos Hneg.
      rewrite (statistics_mean_numbers values Hne),
        (proj2 (infinite_sum_signs values) Hpos Hneg) in Havg.
      injection Havg as <-. reflexivity.
    + split; [apply sort_by_perm |].
      split; [apply sort_numbers_ascending |].
      assert (Hidx : 19 * n / 20 < n) by (apply Z.div_lt_upper_bound; lia).
      rewrite floor_95_percent, Z.min_l by lia. exact Hp95.
    + intro E10.
      assert (En : n = 10) by (unfold n; rewrite E10; reflexivity).
      rewrite En in Hp95. rewrite E10 in Emin, Emax, Havg, Hp95.
      vm_compute in Emin. vm_compute in Emax. vm_compute in Havg.
      vm_compute in Hp95.
      injection Emin as <-. injection Emax as <-. injection Havg as <-.
      injection Hp95 as <-.
      repeat split; try reflexivity. exact En.
  - intro Hin. unfold get_stats. apply stats_of_None.
    rewrite get_stats_values. exact Hin.
Qed.

Lemma get_stats_summary_witness :
  get_stats store_ten "cpu" (Some host_a) None =
    Ok [("name"%string, PStr "cpu");
        ("labels"%string, PLabels host_a);
        ("min"%string, PFloat (Num (Fin 1)));
        ("max"%string, PFloat (Num (Fin 10)));
        ("avg"%string, PFloat (Num (Fin (11 # 2))));
        ("p95"%string, PFloat (Num (Fin 10)));
        ("count"%string, PInt 10)].
Proof.
  destruct (proj1 (get_stats_summary store_ten "cpu" (Some host_a) None)
              one_to_ten)
    as (v_min & v_max & v_p95 & v_avg & Hstats & _ & _ & _ & _ & _ & _
        & Hten).
  - vm_compute. reflexivity.
  - discriminate.
  - intros q Hin. cbn in Hin.
    repeat (destruct Hin as [E | Hin];
            [injection E as <-;
             match goal with
             | |- is_binary64 (?z # 1) =>
                 apply (is_binary64_inject_Z z); reflexivity
             end |]).
    destruct Hin.
  - vm_compute. reflexivity.
  - destruct (Hten eq_refl) as (-> & -> & -> & -> & _). exact Hstats.
Defined.

(** ** The metric table *)

Lemma same_key_iff (name labels ts : string) (r : metric_row) :
  same_key name labels ts r = true <-> metric_key r = (name, labels, ts).
Proof.
  unfold same_key, metric_key. rewrite !andb_true_iff, !String.eqb_eq.
  split.
  - intros [[-> ->] ->]. reflexivity.
  - intros E. injection E as -> -> ->. auto.
Qed.

Lemma existsb_same_key (name labels ts : string) (rows : list metric_row) :
  existsb (same_key name labels ts) rows = true
  <-> In (name, labels, ts) (map metric_key rows).
Proof.
  rewrite existsb_exists, in_map_iff. split.
  - intros (r & Hin & Hk). exists r. split; [apply same_key_iff, Hk | exact Hin].
  - intros (r & Hk & Hin). exists r. split; [exact Hin | apply same_key_iff, Hk].
Qed.

Lemma insert_or_ignore_has_key (rows : list metric_row)
    (name labels : string) (value : option number) (ts created : string) :
  existsb (same_key name labels ts)
    (insert_or_ignore rows name labels value ts created) = true.
Proof.
  unfold insert_or_ignore.
  destruct (existsb (same_key name labels ts) rows) eqn:E; [exact E |].
  rewrite existsb_app. cbn [existsb]. unfold same_key at 2.
  cbn [m_name m_labels m_timestamp].
  rewrite !String.eqb_refl. apply orb_true_r.
Qed.

Lemma insert_or_ignore_again (rows : list metric_row)
    (name labels : string) (v1 v2 : option number) (ts c1 c2 : string) :
  insert_or_ignore (insert_or_ignore rows name labels v1 ts c1)
    name labels v2 ts c2
  = insert_or_ignore rows name labels v1 ts c1.
Proof.
  unfold insert_or_ignore at 1.
  rewrite insert_or_ignore_has_key. reflexivity.
Qed.

Lemma insert_or_ignore_unique (rows : list metric_row)
    (name labels : string) (value : option number) (ts created : string) :
  NoDup (map metric_key rows) ->
  NoDup (map metric_key (insert_or_ignore rows name labels value ts created)).
Proof.
  intro Hnd. unfold insert_or_ignore.
  destruct (existsb (same_key name labels ts) rows) eqn:E; [exact Hnd |].
  rewrite map_app. apply NoDup_app; [exact Hnd | |].
  - constructor; [intros [] | constructor].
  - intros k Hk [<- | []].
    unfold metric_key at 1 in Hk. cbn [m_name m_labels m_timestamp] in Hk.
    apply existsb_same_key in Hk. congruence.
Qed.

(** The invariant holds of a new database and every push keeps it. *)
Lemma init_db_unique : metrics_unique init_db.
Proof. constructor. Qed.

Lemma push_metric_unique (s : store) (name : string) (value : pyfloat)
    (labels : option labels_t) (now1 now2 : datetime) :
  metrics_unique s ->
  metrics_unique (fst (push_metric s name value labels now1 now2)).
Proof. apply insert_or_ignore_unique. Qed.

(** Under the invariant a key selects exactly its row. *)
Lemma filter_same_key (rows : list metric_row) (r : metric_row) :
  NoDup (map metric_key rows) -> In r rows ->
  filter (same_key (m_name r) (m_labels r) (m_timestamp r)) rows = [r].
Proof.
  induction rows as [| x rest IH]; intros Hnd Hin; [destruct Hin |].
  cbn [map] in Hnd. apply NoDup_cons_iff in Hnd as [Hx Hnd].
  cbn [filter].
  destruct (same_key (m_name r) (m_labels r) (m_timestamp r) x) eqn:E.
  - apply same_key_iff in E.
    assert (Hxr : x = r).
    { destruct Hin as [-> | Hin]; [reflexivity |].
      exfalso. apply Hx. rewrite E. apply in_map_iff. exists r. auto. }
    subst x. f_equal.
    assert (Hnone : forall y, In y rest ->
              same_key (m_name r) (m_labels r) (m_timestamp r) y = false).
    { intros y Hy. destruct (same_key _ _ _ y) eqn:Ey; [| reflexivity].
      apply same_key_iff in Ey. exfalso. apply Hx.
      fold (metric_key r) in Ey. rewrite <- Ey. apply in_map, Hy. }
    clear - Hnone. induction rest as [| y rest IH]; [reflexivity |].
    cbn [filter]. rewrite (Hnone y) by (left; reflexivity).
    apply IH. intros z Hz. apply Hnone. right. exact Hz.
  - destruct Hin as [-> | Hin].
    + exfalso. unfold same_key in E. rewrite !String.eqb_refl in E. discriminate.
    + apply IH; assumption.
Qed.

Lemma between_point (t : string) (r : metric_row) :
  between t t r = String.eqb (m_timestamp r) t.
Proof.
  unfold between.
  destruct (String.eqb_spec (m_timestamp r) t) as [-> | Hne].
  - destruct (String.leb_total t t) as [H | H]; rewrite H; reflexivity.
  - destruct (String.leb t (m_timestamp r)) eqn:E1;
      destruct (String.leb (m_timestamp r) t) eqn:E2; try reflexivity.
    exfalso. apply Hne. apply String.leb_antisym; assumption.
Qed.

Lemma query_metrics_point (s : store) (name : string)
    (labels : option labels_t) (t : datetime) (step : Z) (r : metric_row) :
  metrics_unique s ->
  In r (metrics s) ->
  metric_key r = (name, json_dumps_labels (or_empty labels), isoformat t) ->
  query_metrics s name labels (Some t) (Some t) step
  = [(isoformat t, m_value r)].
Proof.
  intros Hu Hin Hk. unfold query_metrics.
  rewrite (filter_ext _ (same_key name (json_dumps_labels (or_empty labels))
                           (isoformat t))).
  - injection Hk as E1 E2 E3. rewrite <- E1, <- E2, <- E3.
    rewrite (filter_same_key _ r Hu Hin). reflexivity.
  - intro x. rewrite between_point. reflexivity.
Qed.

Lemma query_metrics_In (s : store) (name : string)
    (labels : option labels_t) (step : Z) (r : metric_row) :
  In r (metrics s) ->
  series_match name (json_dumps_labels (or_empty labels)) r = true ->
  In (m_timestamp r, m_value r)
     (query_metrics s name labels None None step).
Proof.
  intros Hin Hm. unfold query_metrics.
  apply (in_map (fun r => (m_timestamp r, m_value r))).
  apply sort_by_In. apply filter_In. split; assumption.
Qed.

Lemma sort_by_nil_inv {A : Type} (leb : A -> A -> bool) (l : list A) :
  sort_by leb l = [] -> l = [].
Proof.
  intro E. apply length_zero_iff_nil.
  rewrite <- (sort_by_length leb), E. reflexivity.
Qed.

(** A series with no sample yet holds, after a push, just that sample. *)
Lemma query_metrics_first_push (s : store) (name : string) (value : pyfloat)
    (labels : option labels_t) (now1 now2 : datetime) (step : Z) :
  query_metrics s name labels None None step = [] ->
  query_metrics (fst (push_metric s name value labels now1 now2))
    name labels None None step
  = [(isoformat now1, bind_real value)].
Proof.
  unfold query_metrics, order_by_timestamp. intro E.
  apply map_eq_nil, sort_by_nil_inv in E.
  set (lj := json_dumps_labels (or_empty labels)) in *.
  assert (Ex : existsb (same_key name lj (isoformat now1)) (metrics s)
               = false).
  { destruct (existsb _ (metrics s)) eqn:Ex; [| reflexivity].
    apply existsb_exists in Ex as (r & Hin & Hr).
    assert (Hf : In r (filter (series_match name lj) (metrics s))).
    { apply filter_In. split; [exact Hin |].
      unfold same_key in Hr. apply andb_true_iff in Hr as [Hr _]. exact Hr. }
    rewrite E in Hf. destruct Hf. }
  unfold push_metric. cbn [fst metrics metric_timestamp].
  unfold insert_or_ignore. fold lj. rewrite Ex, filter_app, E.
  cbn [filter app]. unfold series_match at 1. cbn [m_name m_labels].
  rewrite !String.eqb_refl. reflexivity.
Qed.

(** ** The label serialisation is one-to-one *)

Lemma string_app_assoc (a b c : string) :
  ((a ++ b) ++ c = a ++ (b ++ c))%string.
Proof. induction a as [| x a IH]; cbn; [reflexivity | rewrite IH; reflexivity]. Qed.

Lemma unesc1_esc_char (c : ascii) (rest : string) :
  unesc1 (esc_char c ++ rest) = Some (c, rest).
Proof.
  destruct c as [b0 b1 b2 b3 b4 b5 b6 b7].
  destruct b0, b1, b2, b3, b4, b5, b6, b7; reflexivity.
Qed.

Lemma unesc1_quote (rest : string) : unesc1 (String quote_char rest) = None.
Proof. reflexivity. Qed.

Lemma esc_string_inj (s1 s2 r1 r2 : string) :
  (esc_string s1 ++ String quote_char r1
   = esc_string s2 ++ String quote_char r2)%string ->
  s1 = s2 /\ r1 = r2.
Proof.
  revert s2. induction s1 as [| c1 s1 IH]; intros [| c2 s2] E; cbn [esc_string] in E.
  - cbn in E. injection E as E. auto.
  - cbn [append] in E. rewrite string_app_assoc in E.
    apply (f_equal unesc1) in E.
    rewrite unesc1_esc_char, unesc1_quote in E. discriminate.
  - cbn [append] in E. rewrite string_app_assoc in E.
    apply (f_equal unesc1) in E.
    rewrite unesc1_esc_char, unesc1_quote in E. discriminate.
  - rewrite !string_app_assoc in E.
    apply (f_equal unesc1) in E. rewrite !unesc1_esc_char in E.
    injection E as Ec E. apply IH in E as [-> ->]. subst. auto.
Qed.

Lemma json_str_inj (s1 s2 r1 r2 : string) :
  (json_str s1 ++ r1 = json_str s2 ++ r2)%string -> s1 = s2 /\ r1 = r2.
Proof.
  unfold json_str, str1. cbn [append]. intro E. injection E as E.
  rewrite !string_app_assoc in E. cbn [append] in E.
  apply esc_string_inj, E.
Qed.

Lemma json_pair_inj (p1 p2 : string * string) (r1 r2 : string) :
  (json_pair p1 ++ r1 = json_pair p2 ++ r2)%string -> p1 = p2 /\ r1 = r2.
Proof.
  destruct p1 as [k1 v1], p2 as [k2 v2]. unfold json_pair. cbn [fst snd].
  rewrite !string_app_assoc. intro E.
  apply json_str_inj in E as [-> E].
  cbn [append] in E. injection E as E.
  rewrite !string_app_assoc in E. unfold str1 in E. cbn [append] in E.
  apply esc_string_inj in E as [-> ->]. auto.
Qed.

Lemma join_pairs_inj (l1 l2 : list (string * string)) :
  (join ", " (map json_pair l1) ++ "}"
   = join ", " (map json_pair l2) ++ "}")%string ->
  l1 = l2.
Proof.
  revert l2. induction l1 as [| p1 t1 IH]; intros [| p2 t2] E.
  - reflexivity.
  - exfalso. cbn [map join] in E.
    destruct (map json_pair t2); cbn in E; discriminate.
  - exfalso. cbn [map join] in E.
    destruct (map json_pair t1); cbn in E; discriminate.
  - cbn [map join] in E.
    destruct t1 as [| q1 t1], t2 as [| q2 t2]; cbn [map] in E.
    + apply json_pair_inj in E as [-> _]. reflexivity.
    + exfalso. rewrite !string_app_assoc in E.
      apply json_pair_inj in E as [_ E]. cbn in E. discriminate.
    + exfalso. rewrite !string_app_assoc in E.
      apply json_pair_inj in E as [_ E]. cbn in E. discriminate.
    + rewrite !string_app_assoc in E.
      apply json_pair_inj in E as [-> E].
      cbn [append] in E. injection E as E.
      f_equal. apply IH. cbn [map]. exact E.
Qed.

(** Two label mappings have the same [json.dumps] text exactly when they
    hold the same pairs in the same order. *)
Lemma json_dumps_labels_inj (l1 l2 : labels_t) :
  json_dumps_labels l1 = json_dumps_labels l2 <-> l1 = l2.
Proof.
  split; [| intros ->; reflexivity].
  unfold json_dumps_labels. cbn [append]. intro E. injection E as E.
  apply join_pairs_inj, E.
Qed.

(** ** The metric store *)

(** C2.  [get_stats] hands [from_ts] to [query_metrics] without a [to_ts],
    and [query_metrics] filters on time only when both bounds are given:
    the statistics are those of the whole series whatever [from_ts] is.
    With a sample of value 1 at second 0 and one of value 100 at second 5,
    the statistics from second 5 still count both samples. *)
Theorem get_stats_from_ts_not_applied :
  (forall s name labels from_ts,
      get_stats s name labels from_ts = get_stats s name labels None)
  /\ String.ltb (isoformat (tick 0)) (isoformat (tick 5)) = true
  /\ query_metrics store_two "cpu" None None None 60
     = [(isoformat (tick 0), Some (Fin 1));
        (isoformat (tick 5), Some (Fin 100))]
  /\ get_stats store_two "cpu" None (Some (tick 5))
     = Ok [("name"%string, PStr "cpu");
           ("labels"%string, PLabels []);
           ("min"%string, PFloat (Num (Fin 1)));
           ("max"%string, PFloat (Num (Fin 100)));
           ("avg"%string, PFloat (Num (Fin (101 # 2))));
           ("p95"%string, PFloat (Num (Fin 100)));
           ("count"%string, PInt 2)].
Proof.
  split; [| split; [| split]].
  - intros s name labels [t |]; reflexivity.
  - vm_compute. reflexivity.
  - vm_compute. reflexivity.
  - vm_compute. reflexivity.
Qed.

(** C3, as it fails: a push under [{"b":"2","a":"1"}] is not found by a
    query under [{"a":"1","b":"2"}], though the two mappings hold the same
    pairs; the query under the pushed order finds it. *)
Lemma labels_order_not_canonical :
  let s := fst (push_metric init_db "m" (Num (Fin 1)) (Some labels_ba)
                  (tick 0) (tick 0)) in
  Permutation labels_ab labels_ba
  /\ query_metrics s "m" (Some labels_ab) None None 60 = []
  /\ query_metrics s "m" (Some labels_ba) None None 60
     = [(isoformat (tick 0), Some (Fin 1))].
Proof.
  split; [apply perm_swap |].
  split; vm_compute; reflexivity.
Qed.

(** C3, amended.  A pushed sample belongs to the series a query names
    exactly when the two label mappings hold the same pairs in the same
    insertion order: then the query returns a sample at the pushed
    timestamp, and otherwise the push does not change the query's result. *)
Theorem labels_same_series_same_order (s : store) (name : string)
    (value : pyfloat) (l1 l2 : option labels_t) (now1 now2 : datetime)
    (step : Z) :
  let s' := fst (push_metric s name value l1 now1 now2) in
  (or_empty l1 = or_empty l2 ->
   exists v, In (isoformat now1, v)
               (query_metrics s' name l2 None None step))
  /\ (or_empty l1 <> or_empty l2 ->
      query_metrics s' name l2 None None step
      = query_metrics s name l2 None None step).
Proof.
  intro s'. split.
  - intro El.
    pose proof (insert_or_ignore_has_key (metrics s) name
                  (json_dumps_labels (or_empty l1)) (bind_real value)
                  (isoformat now1) (isoformat now2)) as Hk.
    apply existsb_exists in Hk as (r & Hin & Hr).
    apply same_key_iff in Hr. injection Hr as En Elab Ets.
    exists (m_value r). rewrite <- Ets.
    apply query_metrics_In; [exact Hin |].
    unfold series_match. rewrite En, Elab, El, !String.eqb_refl. reflexivity.
  - intro Hne. unfold s', push_metric, query_metrics. cbn [fst metrics].
    unfold insert_or_ignore.
    destruct (existsb _ (metrics s)); [reflexivity |].
    rewrite filter_app. cbn [filter]. unfold series_match at 2.
    cbn [m_name m_labels].
    assert (E : String.eqb (json_dumps_labels (or_empty l1))
                  (json_dumps_labels (or_empty l2)) = false).
    { apply String.eqb_neq. intro E. apply Hne, json_dumps_labels_inj, E. }
    rewrite E, andb_false_r, app_nil_r. reflexivity.
Qed.

Lemma labels_same_series_same_order_witness :
  (exists v, In (isoformat (tick 0), v)
               (query_metrics
                  (fst (push_metric init_db "m" (Num (Fin 1)) (Some labels_ba)
                          (tick 0) (tick 0)))
                  "m" (Some labels_ba) None None 60))
  /\ query_metrics
       (fst (push_metric init_db "m" (Num (Fin 1)) (Some labels_ba)
               (tick 0) (tick 0)))
       "m" (Some labels_ab) None None 60
     = query_metrics init_db "m" (Some labels_ab) None None 60.
Proof.
  split.
  - apply (labels_same_series_same_order init_db "m" (Num (Fin 1))
             (Some labels_ba)
             (Some labels_ba) (tick 0) (tick 0) 60).
    reflexivity.
  - apply (labels_same_series_same_order init_db "m" (Num (Fin 1))
             (Some labels_ba)
             (Some labels_ab) (tick 0) (tick 0) 60).
    vm_compute. discriminate.
Defined.

(** C4.  A second push under the same name, labels and timestamp is
    dropped: it raises nothing, leaves the store as the first push made it,
    and the range query at that timestamp returns exactly one sample, the
    one written first. *)
Theorem push_metric_idempotent (s : store) (name : string)
    (v1 v2 : pyfloat)
    (labels : option labels_t) (now c1 c2 : datetime) :
  metrics_unique s ->
  let s1 := fst (push_metric s name v1 labels now c1) in
  let second := push_metric s1 name v2 labels now c2 in
  fst second = s1
  /\ snd second = mk_Metric name (or_empty labels) v2 now
  /\ exists v,
       query_metrics (fst second) name labels (Some now) (Some now) 60
       = [(isoformat now, v)]
       /\ (query_metrics s name labels (Some now) (Some now) 60 = []
           -> v = bind_real v1)
       /\ (query_metrics s name labels None None 60 = []
           -> query_metrics (fst second) name labels None None 60
              = [(isoformat now, bind_real v1)]).
Proof.
  intros Hu s1 second.
  assert (E21 : fst second = s1).
  { unfold second, s1, push_metric. cbn [fst metrics dashboards metric_timestamp].
    rewrite insert_or_ignore_again. reflexivity. }
  split; [exact E21 |]. split; [reflexivity |].
  rewrite E21.
  assert (Hu1 : metrics_unique s1) by (apply push_metric_unique, Hu).
  set (lj := json_dumps_labels (or_empty labels)).
  destruct (existsb (same_key name lj (isoformat now)) (metrics s)) eqn:Ex.
  - (* the key was stored before the first push *)
    assert (Es1 : metrics s1 = metrics s).
    { unfold s1, push_metric. cbn [fst metrics metric_timestamp].
      unfold insert_or_ignore. fold lj. rewrite Ex. reflexivity. }
    apply existsb_exists in Ex as (r & Hin & Hr). apply same_key_iff in Hr.
    exists (m_value r). split; [| split].
    + apply query_metrics_point; [exact Hu1 | rewrite Es1; exact Hin | exact Hr].
    + intro Hempty.
      rewrite (query_metrics_point s name labels now 60 r Hu Hin Hr) in Hempty.
      discriminate.
    + intro Hempty. apply (query_metrics_first_push s name v1 labels now c1).
      exact Hempty.
  - (* the first push wrote the row *)
    set (r := mk_metric_row name lj (bind_real v1)
                (isoformat now) (isoformat c1)).
    assert (Es1 : metrics s1 = metrics s ++ [r]).
    { unfold s1, push_metric. cbn [fst metrics metric_timestamp].
      unfold insert_or_ignore. fold lj. rewrite Ex. reflexivity. }
    exists (bind_real v1). split; [| split; [reflexivity |]].
    + apply (query_metrics_point s1 name labels now 60 r Hu1).
      * rewrite Es1. apply in_or_app. right. left. reflexivity.
      * reflexivity.
    + intro Hempty. apply (query_metrics_first_push s name v1 labels now c1).
      exact Hempty.
Qed.

Lemma push_metric_idempotent_witness :
  let s1 := fst (push_metric init_db "cpu" (Num (Fin 42)) (Some host_a)
                   (tick 7) (tick 7)) in
  let second :=
    push_metric s1 "cpu" (Num (Fin 43)) (Some host_a) (tick 7) (tick 8) in
  fst second = s1
  /\ query_metrics (fst second) "cpu" (Some host_a)
       (Some (tick 7)) (Some (tick 7)) 60
     = [(isoformat (tick 7), Some (Fin 42))]
  /\ query_metrics (fst second) "cpu" (Some host_a) None None 60
     = [(isoformat (tick 7), Some (Fin 42))].
Proof.
  destruct (push_metric_idempotent init_db "cpu" (Num (Fin 42))
              (Num (Fin 43)) (Some host_a)
              (tick 7) (tick 7) (tick 8) init_db_unique)
    as (E & _ & v & Hq & Hv & Hall).
  split; [exact E |]. split.
  - rewrite Hq, (Hv eq_refl). reflexivity.
  - exact (Hall eq_refl).
Defined.

Lemma filter_none {A : Type} (f : A -> bool) (l : list A) :
  (forall x, In x l -> f x = false) -> filter f l = [].
Proof.
  induction l as [| x rest IH]; intro H; cbn [filter]; [reflexivity |].
  rewrite (H x (or_introl eq_refl)). apply IH.
  intros y Hy. apply H. right. exact Hy.
Qed.

(** C5.  When no stored sample has the name and the label text,
    [get_stats] returns the dictionary that holds only the key [error]; it
    has none of the statistics' keys.  When a stored sample has them,
    [get_stats] never returns that dictionary: a dictionary it returns has
    no key [error], and its [count] is the number of stored samples of the
    series, which is positive. *)
Theorem get_stats_no_data (s : store) (name : string)
    (labels : option labels_t) (from_ts : option datetime) :
  let labels_json := json_dumps_labels (or_empty labels) in
  ((forall r, In r (metrics s) -> series_match name labels_json r = false) ->
   get_stats s name labels from_ts
     = Ok [("error"%string, PStr "No data found")]
   /\ forall d, get_stats s name labels from_ts = Ok d ->
        py_lookup "min" d = None /\ py_lookup "max" d = None
        /\ py_lookup "avg" d = None /\ py_lookup "p95" d = None
        /\ py_lookup "count" d = None)
  /\ (forall r, In r (metrics s) -> series_match name labels_json r = true ->
      get_stats s name labels from_ts
        <> Ok [("error"%string, PStr "No data found")]
      /\ forall d, get_stats s name labels from_ts = Ok d ->
           py_lookup "error" d = None
           /\ py_lookup "count" d
              = Some (PInt (len (filter (series_match name labels_json)
                                   (metrics s))))
           /\ 0 < len (filter (series_match name labels_json) (metrics s))).
Proof.
  intro lj. split.
  - intro Hnone.
    assert (E : get_stats s name labels from_ts
                = Ok [("error"%string, PStr "No data found")]).
    { unfold get_stats. rewrite query_metrics_unbounded. fold lj.
      rewrite (filter_none _ _ Hnone). reflexivity. }
    split; [exact E |].
    intros d Hd. rewrite E in Hd. injection Hd as <-.
    repeat split; reflexivity.
  - intros r Hin Hm.
    set (rows := filter (series_match name lj) (metrics s)).
    assert (Hr : In r rows) by (apply filter_In; split; assumption).
    assert (Hpos : 0 < len rows).
    { unfold len. destruct rows; [destruct Hr | cbn [List.length]; lia]. }
    assert (Hd : forall d, get_stats s name labels from_ts = Ok d ->
              py_lookup "error" d = None
              /\ py_lookup "count" d = Some (PInt (len rows))).
    { intro d. unfold get_stats. rewrite stats_of_nonempty.
      - cbv zeta. rewrite get_stats_values. fold lj. fold rows.
        set (values := map m_value (order_by_timestamp rows)).
        assert (Elen : len values = len rows).
        { unfold values, len, order_by_timestamp.
          rewrite length_map, sort_by_length. reflexivity. }
        destruct (sorted values) as [sv | e]; cbn [bind]; [| discriminate].
        destruct (p95_index _) as [idx | e]; cbn [bind]; [| discriminate].
        destruct (py_min values) as [v_min | e]; cbn [bind];
          [| discriminate].
        destruct (py_max values) as [v_max | e]; cbn [bind];
          [| discriminate].
        destruct (statistics_mean values) as [v_avg | e]; cbn [bind];
          [| discriminate].
        destruct (if idx <? len sv then _ else _) as [v_p95 | e];
          cbn [bind]; [| discriminate].
        intro E. injection E as <-. rewrite Elen.
        split; reflexivity.
      - rewrite query_metrics_unbounded. fold lj. fold rows.
        intro E. apply map_eq_nil in E.
        unfold order_by_timestamp in E. apply sort_by_nil_inv in E.
        rewrite E in Hr. destruct Hr. }
    split.
    + intro E. destruct (Hd _ E) as [He _]. discriminate.
    + intros d E. destruct (Hd d E) as [He Hc]. repeat split; assumption.
Qed.

Lemma get_stats_no_data_witness :
  get_stats store_ten "never_pushed" None None
  = Ok [("error"%string, PStr "No data found")]
  /\ get_stats store_ten "cpu" (Some host_a) None
     <> Ok [("error"%string, PStr "No data found")].
Proof.
  split.
  - apply (proj1 (get_stats_no_data store_ten "never_pushed" None None)).
    intros r Hin. vm_compute in Hin.
    repeat (destruct Hin as [<- | Hin]; [reflexivity |]). destruct Hin.
  - apply (proj2 (get_stats_no_data store_ten "cpu" (Some host_a) None)
             (mk_metric_row "cpu" (json_dumps_labels host_a) (Some (Fin 1))
                (isoformat (tick 1)) (isoformat (tick 1)))).
    + vm_compute. left. reflexivity.
    + reflexivity.
Defined.

(** C8.  [query_metrics] never uses [step_s]: any two values give the same
    result. *)
Theorem query_metrics_ignores_step (s : store) (name : string)
    (labels : option labels_t) (from_ts to_ts : option datetime)
    (step1 step2 : Z) :
  query_metrics s name labels from_ts to_ts step1
  = query_metrics s name labels from_ts to_ts step2.
Proof. reflexivity. Qed.

(** ** The dashboard store *)

Lemma find_after_replace (s : store) (new : dash_row) :
  find_dashboard (insert_or_replace s new) (r_id new) = Some new.
Proof.
  unfold find_dashboard, insert_or_replace. cbn [dashboards].
  induction (dashboards s) as [| r rest IH]; cbn [filter app find].
  - rewrite String.eqb_refl. reflexivity.
  - destruct (conflicts new r) eqn:E; cbn [negb]; [exact IH |].
    cbn [app find]. unfold conflicts in E. apply orb_false_elim in E as [E _].
    rewrite E. exact IH.
Qed.

Lemma insert_dashboard_ok (s s' : store) (new : dash_row) :
  insert_dashboard s new = Ok s' ->
  dashboards s' = dashboards s ++ [new] /\ metrics s' = metrics s.
Proof.
  unfold insert_dashboard.
  destruct (existsb (conflicts new) (dashboards s)); [discriminate |].
  intro E. injection E as <-. split; reflexivity.
Qed.

Lemma bind_text_value (c : option string) :
  bind_text (text_value c) = Some (Ok c).
Proof. destruct c; reflexivity. Qed.

(** The document exported for a row with a time range, and what the
    import of that document stores and returns. *)
Lemma import_exported_row (s : store) (row : dash_row) (dashboard_id : string)
    (time_range : string) (now : datetime) :
  find_dashboard s dashboard_id = Some row ->
  r_time_range row = Some time_range ->
  exists doc,
    export_json s dashboard_id = Ok doc
    /\ json_field "time" doc
       = Some (JDict [("from"%string, JStr ("now-" ++ time_range));
                      ("to"%string, JStr "now")])
    /\ import_json s doc now
       = Some (Ok (insert_or_replace s
                     (mk_dash_row (md5_8 (r_title row)) (r_uid row)
                        (r_title row) (r_description row) (r_tags row)
                        (r_panels row) (r_variables row)
                        (r_refresh_interval row)
                        (Some ("now-" ++ time_range)%string)
                        (isoformat now)),
                   mk_Dashboard (md5_8 (r_title row))
                     (text_value (r_uid row)) (r_title row)
                     (text_value (r_description row)) (r_tags row) [] []
                     (text_value (r_refresh_interval row))
                     (JStr ("now-" ++ time_range)) now)).
Proof.
  intros Hf Ht. unfold export_json. rewrite Hf, Ht.
  eexists. split; [reflexivity |]. split; [reflexivity |].
  unfold import_json, dict_get.
  cbn [dict_lookup String.eqb Ascii.eqb Bool.eqb
         d_uid d_description d_refresh_interval d_time_range d_tags].
  rewrite !bind_text_value. cbn [obind bind_text]. reflexivity.
Qed.

(** What a successful import has read, stored and returned. *)
Lemma import_json_inv (s s' : store) (doc : json) (now : datetime)
    (d : Dashboard) :
  import_json s doc now = Some (Ok (s', d)) ->
  exists data title time uid description refresh time_range,
    doc = JDict data
    /\ dict_get data "title" (JStr EmptyString) = JStr title
    /\ dict_get data "time" (JDict []) = JDict time
    /\ bind_text (dict_get data "uid" (JStr (md5_8 title))) = Some (Ok uid)
    /\ bind_text (dict_get data "description" (JStr EmptyString))
       = Some (Ok description)
    /\ bind_text (dict_get data "refresh" (JStr "30s")) = Some (Ok refresh)
    /\ bind_text (dict_get time "from" (JStr "1h")) = Some (Ok time_range)
    /\ s' = insert_or_replace s
              (mk_dash_row (md5_8 title) uid title description
                 (dict_get data "tags" (JList []))
                 (dict_get data "panels" (JList []))
                 (dict_get data "variables" (JList []))
                 refresh time_range (isoformat now))
    /\ d = mk_Dashboard (md5_8 title)
             (dict_get data "uid" (JStr (md5_8 title))) title
             (dict_get data "description" (JStr EmptyString))
             (dict_get data "tags" (JList [])) [] []
             (dict_get data "refresh" (JStr "30s"))
             (dict_get time "from" (JStr "1h")) now.
Proof.
  unfold import_json.
  destruct doc as [| | | | | | data]; try discriminate.
  destruct (dict_get data "title" (JStr EmptyString))
    as [| | | | title | |] eqn:Et; try discriminate.
  destruct (dict_get data "time" (JDict []))
    as [| | | | | | time] eqn:Etime; try discriminate.
  cbn [d_uid d_description d_refresh_interval d_time_range d_tags].
  destruct (bind_text (dict_get data "uid" (JStr (md5_8 title))))
    as [[uid | e] |] eqn:Eu; cbn [obind]; try discriminate.
  destruct (bind_text (dict_get data "description" (JStr EmptyString)))
    as [[description | e] |] eqn:Ed; cbn [obind]; try discriminate.
  destruct (bind_text (dict_get data "refresh" (JStr "30s")))
    as [[refresh | e] |] eqn:Er; cbn [obind]; try discriminate.
  destruct (bind_text (dict_get time "from" (JStr "1h")))
    as [[time_range | e] |] eqn:Ef; cbn [obind]; try discriminate.
  intro H. injection H as <- <-.
  exists data, title, time, uid, description, refresh, time_range.
  repeat split; try assumption; reflexivity.
Qed.

(** [store_dash] is what the two calls build. *)
Lemma store_dash_built :
  (r <- create_dashboard init_db "Test Dashboard" "Test Desc"
          (Some ["ops"%string]) "30s" "1h" (tick 1) (tick 1) ;;
   add_panel (fst r) (d_id (snd r)) "CPU" "timeseries" "rate(cpu[5m])"
     "prometheus" None None)%result
  = Ok (store_dash,
        new_panel sample_id "CPU" "timeseries" "rate(cpu[5m])" "prometheus"
          None None).
Proof. vm_compute. reflexivity. Qed.

(** C6, as it fails: the import of a document whose [time.from] is
    [null] stores a dashboard whose time range is NULL, and on that stored
    dashboard [export_json] raises [TypeError]. *)
Lemma export_raises_on_null_time_range :
  exists s d row,
    import_json init_db
      (JDict [("title"%string, JStr "T");
              ("time"%string, JDict [("from"%string, JNull)])])
      (tick 1)
    = Some (Ok (s, d))
    /\ find_dashboard s (d_id d) = Some row
    /\ r_title row = "T"%string
    /\ r_time_range row = None
    /\ export_json s (d_id d) = Raise TypeError.
Proof.
  eexists; eexists; eexists.
  split; [vm_compute; reflexivity |].
  split; [vm_compute; reflexivity |].
  split; [reflexivity |]. split; [reflexivity |].
  vm_compute. reflexivity.
Qed.

(** C6, amended.  For a stored dashboard whose time range is not NULL,
    [export_json] returns a document whose [time.to] is [now], and
    [import_json] of that document stores, under the id
    [md5(title)[:8]] that it returns, a row with the title, tags, panels
    and variables of the exported one (and its uid, description and
    refresh interval), stamped with the instant of the import. *)
Theorem export_import_round_trip (s : store) (dashboard_id : string)
    (row : dash_row) (time_range : string) (now : datetime) :
  find_dashboard s dashboard_id = Some row ->
  r_time_range row = Some time_range ->
  exists doc time s' d row',
    export_json s dashboard_id = Ok doc
    /\ json_field "time" doc = Some time
    /\ json_field "to" time = Some (JStr "now")
    /\ import_json s doc now = Some (Ok (s', d))
    /\ d_id d = md5_8 (r_title row)
    /\ d_title d = r_title row
    /\ d_tags d = r_tags row
    /\ find_dashboard s' (md5_8 (r_title row)) = Some row'
    /\ r_id row' = md5_8 (r_title row)
    /\ r_title row' = r_title row
    /\ r_tags row' = r_tags row
    /\ r_panels row' = r_panels row
    /\ r_variables row' = r_variables row
    /\ r_uid row' = r_uid row
    /\ r_description row' = r_description row
    /\ r_refresh_interval row' = r_refresh_interval row
    /\ r_created_at row' = isoformat now.
Proof.
  intros Hf Ht.
  destruct (import_exported_row s row dashboard_id time_range now Hf Ht)
    as (doc & He & Htime & Hi).
  set (new := mk_dash_row (md5_8 (r_title row)) (r_uid row) (r_title row)
                (r_description row) (r_tags row) (r_panels row)
                (r_variables row) (r_refresh_interval row)
                (Some ("now-" ++ time_range)%string) (isoformat now)) in *.
  exists doc. eexists. exists (insert_or_replace s new). eexists. exists new.
  split; [exact He |]. split; [exact Htime |]. split; [reflexivity |].
  split; [exact Hi |].
  split; [reflexivity |]. split; [reflexivity |]. split; [reflexivity |].
  split; [exact (find_after_replace s new) |].
  repeat split; reflexivity.
Qed.

Lemma export_import_round_trip_witness :
  exists doc s' d row',
    export_json store_dash sample_id = Ok doc
    /\ import_json store_dash doc (tick 9) = Some (Ok (s', d))
    /\ find_dashboard s' (md5_8 "Test Dashboard") = Some row'
    /\ r_title row' = "Test Dashboard"%string
    /\ r_tags row' = JList [JStr "ops"]
    /\ r_panels row' = r_panels sample_row
    /\ r_variables row' = JList []
    /\ r_created_at row' = isoformat (tick 9).
Proof.
  assert (Hf : find_dashboard store_dash sample_id = Some sample_row)
    by (vm_compute; reflexivity).
  destruct (export_import_round_trip store_dash sample_id sample_row
              "1h" (tick 9) Hf eq_refl)
    as (doc & time & s' & d & row' & He & _ & _ & Hi & _ & _ & _ & Hfind
        & _ & Ht & Htags & Hp & Hv & _ & _ & _ & Hc).
  exists doc, s', d, row'. repeat split; assumption.
Defined.

(** C10.  The import stores the document's whole [time.from], prefix
    included: after one export and import of a dashboard whose time range
    is [R], the stored time range is [now-R] and the next export has
    [time.from] equal to [now-now-R]. *)
Theorem import_keeps_now_prefix (s : store) (dashboard_id : string)
    (row : dash_row) (time_range : string) (now : datetime) :
  find_dashboard s dashboard_id = Some row ->
  r_time_range row = Some time_range ->
  exists doc s' d,
    export_json s dashboard_id = Ok doc
    /\ import_json s doc now = Some (Ok (s', d))
    /\ d_time_range d = JStr ("now-" ++ time_range)
    /\ (exists row', find_dashboard s' (d_id d) = Some row'
                     /\ r_time_range row'
                        = Some ("now-" ++ time_range)%string)
    /\ exists doc' time,
         export_json s' (d_id d) = Ok doc'
         /\ json_field "time" doc' = Some time
         /\ json_field "from" time
            = Some (JStr ("now-now-" ++ time_range)).
Proof.
  intros Hf Ht.
  destruct (import_exported_row s row dashboard_id time_range now Hf Ht)
    as (doc & He & _ & Hi).
  set (new := mk_dash_row (md5_8 (r_title row)) (r_uid row) (r_title row)
                (r_description row) (r_tags row) (r_panels row)
                (r_variables row) (r_refresh_interval row)
                (Some ("now-" ++ time_range)%string) (isoformat now)) in *.
  exists doc. eexists; eexists. split; [exact He |]. split; [exact Hi |].
  cbn [d_time_range d_id]. split; [reflexivity |].
  pose proof (find_after_replace s new) as Hn.
  change (r_id new) with (md5_8 (r_title row)) in Hn.
  split.
  - exists new. split; [exact Hn | reflexivity].
  - unfold export_json. rewrite Hn. cbn [r_time_range new].
    eexists; eexists. split; [reflexivity |]. split; reflexivity.
Qed.

Lemma import_keeps_now_prefix_witness :
  exists doc s' d doc' time,
    export_json store_dash sample_id = Ok doc
    /\ import_json store_dash doc (tick 9) = Some (Ok (s', d))
    /\ export_json s' (d_id d) = Ok doc'
    /\ json_field "time" doc' = Some time
    /\ json_field "from" time = Some (JStr "now-now-1h").
Proof.
  assert (Hf : find_dashboard store_dash sample_id = Some sample_row)
    by (vm_compute; reflexivity).
  destruct (import_keeps_now_prefix store_dash sample_id sample_row "1h"
              (tick 9) Hf eq_refl)
    as (doc & s' & d & He & Hi & _ & _ & doc' & time & He' & Ht & Hfrom).
  exists doc, s', d, doc', time. repeat split; assumption.
Defined.

(** C9.  For an id that is not stored, [add_panel] and [add_variable]
    raise nothing, leave the store as it is, and return the value they
    built; that value is the one a successful add returns too. *)
Theorem add_to_missing_dashboard (s : store)
    (dashboard_id title panel_type query datasource : string)
    (position : option Position) (options : option (list (string * json)))
    (name vquery var_type : string) :
  find_dashboard s dashboard_id = None ->
  add_panel s dashboard_id title panel_type query datasource position
    options
  = Ok (s, new_panel dashboard_id title panel_type query datasource
             position options)
  /\ add_variable s dashboard_id name vquery var_type
     = Ok (s, mk_Variable name var_type vquery EmptyString)
  /\ (forall s0 s0' p,
        add_panel s0 dashboard_id title panel_type query datasource
          position options = Ok (s0', p) ->
        p = new_panel dashboard_id title panel_type query datasource
              position options)
  /\ (forall s0 s0' v,
        add_variable s0 dashboard_id name vquery var_type = Ok (s0', v) ->
        v = mk_Variable name var_type vquery EmptyString).
Proof.
  intro Hf. unfold add_panel, add_variable. rewrite Hf.
  split; [reflexivity |]. split; [reflexivity |]. split.
  - intros s0 s0' p.
    destruct (find_dashboard s0 dashboard_id) as [r |].
    + destruct (r_panels r); try discriminate. intro E. injection E as _ <-.
      reflexivity.
    + intro E. injection E as _ <-. reflexivity.
  - intros s0 s0' v.
    destruct (find_dashboard s0 dashboard_id) as [r |].
    + destruct (r_variables r); try discriminate. intro E.
      injection E as _ <-. reflexivity.
    + intro E. injection E as _ <-. reflexivity.
Qed.

Lemma add_to_missing_dashboard_witness :
  add_panel store_dash "ffffffff" "CPU" "gauge" "up" "prometheus" None None
  = Ok (store_dash,
        new_panel "ffffffff" "CPU" "gauge" "up" "prometheus" None None)
  /\ add_variable store_dash "ffffffff" "env" "label_values(env)" "query"
     = Ok (store_dash,
           mk_Variable "env" "query" "label_values(env)" EmptyString).
Proof.
  assert (Hf : find_dashboard store_dash "ffffffff" = None)
    by (vm_compute; reflexivity).
  destruct (add_to_missing_dashboard store_dash "ffffffff" "CPU" "gauge"
              "up" "prometheus" None None "env" "label_values(env)" "query"
              Hf)
    as (Hp & Hv & _).
  split; assumption.
Defined.

(** C7, as it fails: two calls with the title [Test Dashboard] at two
    different instants compute the same id; the first call stores the
    dashboard and the second raises. *)
Lemma create_dashboard_same_id :
  isoformat instant_a <> isoformat instant_b
  /\ exists s1 d1,
       create_dashboard init_db "Test Dashboard" EmptyString None "30s" "1h"
         instant_a instant_a = Ok (s1, d1)
       /\ create_dashboard s1 "Test Dashboard" EmptyString None "30s" "1h"
            instant_b instant_b = Raise IntegrityError
       /\ d_id (new_dashboard "Test Dashboard" EmptyString None "30s" "1h"
                  instant_b instant_b) = d_id d1
       /\ d_id d1 = "fb957f6b"%string.
Proof.
  split; [vm_compute; discriminate |].
  eexists; eexists.
  split; [vm_compute; reflexivity |].
  split; [vm_compute; reflexivity |].
  split; vm_compute; reflexivity.
Qed.

(** C7, amended.  After a successful [create_dashboard], a second call
    with the same title raises [IntegrityError] on the uid and stores
    nothing; both calls compute the uid [md5(title)[:8]]; each call's id is
    the fingerprint of the title followed by the instant it read, so the
    ids are equal whenever the two instants print alike. *)
Theorem create_dashboard_same_title (s s1 : store) (d1 : Dashboard)
    (title : string)
    (desc1 : string) (tags1 : option (list string)) (ri1 tr1 : string)
    (t1 t1' : datetime)
    (desc2 : string) (tags2 : option (list string)) (ri2 tr2 : string)
    (t2 t2' : datetime) :
  create_dashboard s title desc1 tags1 ri1 tr1 t1 t1' = Ok (s1, d1) ->
  let d2 := new_dashboard title desc2 tags2 ri2 tr2 t2 t2' in
  create_dashboard s1 title desc2 tags2 ri2 tr2 t2 t2' = Raise IntegrityError
  /\ d_uid d1 = JStr (md5_8 title)
  /\ d_uid d2 = d_uid d1
  /\ d_id d1 = md5_8 (title ++ isoformat t1)
  /\ d_id d2 = md5_8 (title ++ isoformat t2)
  /\ (isoformat t2 = isoformat t1 -> d_id d2 = d_id d1).
Proof.
  intros H1 d2. unfold create_dashboard in H1 |- *.
  destruct (insert_dashboard s _) as [s1' | e] eqn:Ei; cbn [bind] in H1;
    [| discriminate].
  injection H1 as -> <-.
  apply insert_dashboard_ok in Ei as [Ed _].
  split; [| split; [| split; [| split; [| split]]]];
    try reflexivity.
  - unfold insert_dashboard. rewrite Ed, existsb_app. cbn [existsb].
    unfold conflicts at 2. cbn [r_uid new_row].
    rewrite String.eqb_refl, !orb_true_r. reflexivity.
  - intro Et. unfold d2. cbn [d_id new_dashboard]. rewrite Et. reflexivity.
Qed.

Lemma create_dashboard_same_title_witness :
  create_dashboard
    (mk_store
       [new_row "Test Dashboard" "Test Desc" None "30s" "1h"
          (tick 1) (tick 1)] [])
    "Test Dashboard" "again" None "30s" "1h" (tick 2) (tick 2)
  = Raise IntegrityError.
Proof.
  apply (create_dashboard_same_title init_db _ 
           (new_dashboard "Test Dashboard" "Test Desc" None "30s" "1h"
              (tick 1) (tick 1))
           "Test Dashboard" "Test Desc" None "30s" "1h" (tick 1) (tick 1)
           "again" None "30s" "1h" (tick 2) (tick 2)).
  reflexivity.
Defined.

(** ** The repository's tests *)

(** [test_create_dashboard] *)
Example test_create_dashboard :
  exists s dashboard,
    create_dashboard init_db "Test Dashboard" "Test Desc" None "30s" "1h"
      (tick 1) (tick 1) = Ok (s, dashboard)
    /\ d_title dashboard = "Test Dashboard"%string.
Proof. eexists; eexists. split; reflexivity. Qed.

(** [test_push_metric] *)
Example test_push_metric :
  let metric :=
    snd (push_metric init_db "test_metric" (Num (Fin 100)) None
           (tick 1) (tick 1)) in
  metric_name metric = "test_metric"%string
  /\ metric_value metric = Num (Fin 100).
Proof. split; reflexivity. Qed.

(** * Further properties *)

(** ** The order of TEXT cells *)

Lemma string_leb_trans (s1 s2 s3 : string) :
  String.leb s1 s2 = true -> String.leb s2 s3 = true ->
  String.leb s1 s3 = true.
Proof.
  unfold String.leb. revert s2 s3.
  induction s1 as [| c1 s1 IH]; intros [| c2 s2] [| c3 s3];
    cbn [String.compare]; try reflexivity; try discriminate.
  unfold Ascii.compare.
  destruct (N.compare_spec (N_of_ascii c1) (N_of_ascii c2)) as [E12 | L12 | G12];
    destruct (N.compare_spec (N_of_ascii c2) (N_of_ascii c3)) as [E23 | L23 | G23];
    destruct (N.compare_spec (N_of_ascii c1) (N_of_ascii c3)) as [E13 | L13 | G13];
    try discriminate; try reflexivity; try lia.
  apply IH.
Qed.

Lemma string_leb_refl (s : string) : String.leb s s = true.
Proof. destruct (String.leb_total s s); assumption. Qed.

(** ** Sorting and filtering *)

Section SortFilter.
Context {A : Type} (leb : A -> A -> bool) (keep : A -> bool).
Hypothesis leb_trans :
  forall x y z, leb x y = true -> leb y z = true -> leb x z = true.

Lemma insert_sorted_skip (x : A) (l : list A) :
  keep x = false ->
  filter keep (insert_sorted leb x l) = filter keep l.
Proof.
  intro Hx. induction l as [| y rest IH]; cbn [insert_sorted filter].
  - rewrite Hx. reflexivity.
  - destruct (leb x y); cbn [filter]; rewrite ?Hx; [reflexivity |].
    rewrite IH. reflexivity.
Qed.

Lemma insert_sorted_above (x : A) (l : list A) :
  Forall (fun y => leb x y = true) l ->
  insert_sorted leb x l = x :: l.
Proof.
  intro H. destruct l as [| y rest]; [reflexivity |].
  cbn [insert_sorted]. inversion H as [| ? ? Hy _]; subst.
  rewrite Hy. reflexivity.
Qed.

Lemma insert_sorted_keep (x : A) (l : list A) :
  StronglySorted (fun a b => leb a b = true) l ->
  keep x = true ->
  filter keep (insert_sorted leb x l)
  = insert_sorted leb x (filter keep l).
Proof.
  intros Hs Hx. induction Hs as [| y rest Hs IH Hall]; cbn [insert_sorted].
  - cbn [filter insert_sorted]. rewrite Hx. reflexivity.
  - destruct (leb x y) eqn:Exy.
    + rewrite insert_sorted_above.
      * cbn [filter]. rewrite Hx. reflexivity.
      * apply Forall_forall. intros z Hz. apply filter_In in Hz as [Hz _].
        destruct Hz as [<- | Hz]; [exact Exy |].
        rewrite Forall_forall in Hall.
        exact (leb_trans x y z Exy (Hall z Hz)).
    + cbn [filter]. destruct (keep y).
      * cbn [insert_sorted]. rewrite Exy, IH. reflexivity.
      * exact IH.
Qed.

Hypothesis leb_total : forall x y, leb x y = true \/ leb y x = true.

(** Filtering a sorted result is sorting the filtered rows. *)
Lemma filter_sort_by (l : list A) :
  filter keep (sort_by leb l) = sort_by leb (filter keep l).
Proof.
  induction l as [| x rest IH]; cbn [sort_by filter]; [reflexivity |].
  destruct (keep x) eqn:Ex.
  - cbn [sort_by]. rewrite <- IH.
    apply insert_sorted_keep; [| exact Ex].
    apply sort_by_sorted; assumption.
  - rewrite insert_sorted_skip by exact Ex. exact IH.
Qed.
End SortFilter.

Lemma StronglySorted_map {A B : Type} (f : A -> B) (R : B -> B -> Prop)
    (l : list A) :
  StronglySorted (fun a b => R (f a) (f b)) l -> StronglySorted R (map f l).
Proof.
  induction 1 as [| x rest Hs IH Hall]; cbn [map]; constructor.
  - exact IH.
  - apply Forall_map. exact Hall.
Qed.

Lemma order_by_timestamp_sorted (rows : list metric_row) :
  StronglySorted
    (fun r1 r2 => String.leb (m_timestamp r1) (m_timestamp r2) = true)
    (order_by_timestamp rows).
Proof.
  apply (sort_by_sorted
           (fun r1 r2 => String.leb (m_timestamp r1) (m_timestamp r2))).
  - intros x y. apply String.leb_total.
  - intros x y z. apply string_leb_trans.
Qed.

(** The rows a query selects, before they are ordered. *)
Lemma query_metrics_rows (s : store) (name : string)
    (labels : option labels_t) (from_ts to_ts : option datetime) (step : Z) :
  query_metrics s name labels from_ts to_ts step
  = map (fun r => (m_timestamp r, m_value r))
      (order_by_timestamp
         (filter
            (fun r =>
               series_match name (json_dumps_labels (or_empty labels)) r
               && match from_ts, to_ts with
                  | Some f, Some t => between (isoformat f) (isoformat t) r
                  | _, _ => true
                  end)
            (metrics s))).
Proof.
  unfold query_metrics.
  destruct from_ts as [f |], to_ts as [t |]; try reflexivity;
    f_equal; f_equal; apply filter_ext; intro r; rewrite andb_true_r;
    reflexivity.
Qed.

(** X1.  The result of [query_metrics] is in ascending order of timestamp
    text, and it holds exactly the stored samples of that name and label
    text, restricted to the closed interval when both bounds are given;
    a single bound restricts nothing. *)
Theorem query_metrics_ordered_and_exact (s : store) (name : string)
    (labels : option labels_t) (from_ts to_ts : option datetime) (step : Z) :
  StronglySorted (fun a b => String.leb (fst a) (fst b) = true)
    (query_metrics s name labels from_ts to_ts step)
  /\ forall ts v,
       In (ts, v) (query_metrics s name labels from_ts to_ts step)
       <-> exists r,
             In r (metrics s)
             /\ m_name r = name
             /\ m_labels r = json_dumps_labels (or_empty labels)
             /\ m_timestamp r = ts
             /\ m_value r = v
             /\ match from_ts, to_ts with
                | Some f, Some t =>
                    String.leb (isoformat f) ts = true
                    /\ String.leb ts (isoformat t) = true
                | _, _ => True
                end.
Proof.
  rewrite query_metrics_rows. split.
  - apply StronglySorted_map. cbn [fst]. apply order_by_timestamp_sorted.
  - intros ts v. rewrite in_map_iff. split.
    + intros (r & Er & Hin). injection Er as <- <-.
      apply sort_by_In, filter_In in Hin as [Hin Hsel].
      apply andb_true_iff in Hsel as [Hm Hb].
      unfold series_match in Hm. apply andb_true_iff in Hm as [Hn Hl].
      apply String.eqb_eq in Hn, Hl.
      exists r. repeat split; try assumption.
      destruct from_ts as [f |], to_ts as [t |]; try exact I.
      unfold between in Hb. apply andb_true_iff in Hb. exact Hb.
    + intros (r & Hin & Hn & Hl & Hts & Hv & Hb).
      exists r. split; [rewrite Hts, Hv; reflexivity |].
      apply sort_by_In, filter_In. split; [exact Hin |].
      apply andb_true_iff. split.
      * unfold series_match. rewrite Hn, Hl, !String.eqb_refl. reflexivity.
      * destruct from_ts as [f |], to_ts as [t |]; try reflexivity.
        unfold between. rewrite Hts. apply andb_true_iff. exact Hb.
Qed.

(** X2.  A query with both bounds returns the samples of the unbounded
    query whose timestamp lies in the closed interval, in the same order. *)
Theorem query_metrics_window (s : store) (name : string)
    (labels : option labels_t) (f t : datetime) (step : Z) :
  query_metrics s name labels (Some f) (Some t) step
  = filter
      (fun p => String.leb (isoformat f) (fst p)
                && String.leb (fst p) (isoformat t))
      (query_metrics s name labels None None step).
Proof.
  unfold query_metrics, order_by_timestamp.
  set (sel := series_match name (json_dumps_labels (or_empty labels))).
  set (leb := fun r1 r2 => String.leb (m_timestamp r1) (m_timestamp r2)).
  set (pair := fun r => (m_timestamp r, m_value r)).
  assert (Hmap : forall l,
            filter (fun p => String.leb (isoformat f) (fst p)
                             && String.leb (fst p) (isoformat t))
              (map pair l)
            = map pair (filter (between (isoformat f) (isoformat t)) l)).
  { induction l as [| r l IH]; [reflexivity |].
    cbn [map filter]. rewrite IH.
    change (fst (pair r)) with (m_timestamp r).
    change (between (isoformat f) (isoformat t) r)
      with (String.leb (isoformat f) (m_timestamp r)
            && String.leb (m_timestamp r) (isoformat t)).
    destruct (String.leb (isoformat f) (m_timestamp r)
              && String.leb (m_timestamp r) (isoformat t)); reflexivity. }
  rewrite Hmap. f_equal.
  rewrite (filter_sort_by leb (between (isoformat f) (isoformat t))).
  - f_equal. clear. induction (metrics s) as [| r l IH]; [reflexivity |].
    cbn [filter]. destruct (sel r); cbn [andb filter].
    + destruct (between (isoformat f) (isoformat t) r); rewrite IH;
        reflexivity.
    + exact IH.
  - intros x y z. apply string_leb_trans.
  - intros x y. apply String.leb_total.
Qed.

(** X3.  When no stored sample has the name and the label text,
    [get_current_value] returns [None].  Otherwise it returns the value
    cell of a stored sample of the series whose timestamp text no other
    sample of the series exceeds; that cell is [None] when it is NULL, as
    for a sample pushed as NaN. *)
Theorem get_current_value_latest (s : store) (name : string)
    (labels : option labels_t) :
  let labels_json := json_dumps_labels (or_empty labels) in
  ((forall r, In r (metrics s) -> series_match name labels_json r = false) ->
   get_current_value s name labels = None)
  /\ (forall r0,
        In r0 (metrics s) -> series_match name labels_json r0 = true ->
        exists r,
          In r (metrics s) /\ series_match name labels_json r = true
          /\ get_current_value s name labels = m_value r
          /\ forall r',
               In r' (metrics s) ->
               series_match name labels_json r' = true ->
               String.leb (m_timestamp r') (m_timestamp r) = true).
Proof.
  intro lj. unfold get_current_value. fold lj.
  set (rows := filter (series_match name lj) (metrics s)).
  set (desc := fun r1 r2 => String.leb (m_timestamp r2) (m_timestamp r1)).
  split.
  - intro Hnone. unfold rows. rewrite (filter_none _ _ Hnone). reflexivity.
  - intros r0 Hin0 Hm0.
    assert (Hsorted : StronglySorted (fun a b => desc a b = true)
                        (sort_by desc rows)).
    { apply sort_by_sorted.
      - intros x y. unfold desc. apply String.leb_total.
      - intros x y z H1 H2. unfold desc in *.
        exact (string_leb_trans _ _ _ H2 H1). }
    assert (Hr0 : In r0 (sort_by desc rows)).
    { apply sort_by_In, filter_In. split; assumption. }
    destruct (sort_by desc rows) as [| r l] eqn:E; [destruct Hr0 |].
    assert (Hr : In r rows).
    { apply (sort_by_In desc). rewrite E. left. reflexivity. }
    apply filter_In in Hr as [Hin Hm].
    exists r. split; [exact Hin |]. split; [exact Hm |].
    split; [reflexivity |].
    intros r' Hin' Hm'.
    assert (Hr' : In r' (r :: l)).
    { rewrite <- E. apply sort_by_In, filter_In. split; assumption. }
    destruct Hr' as [<- | Hr'].
    + apply string_leb_refl.
    + inversion Hsorted as [| ? ? _ Hall]; subst.
      rewrite Forall_forall in Hall. exact (Hall r' Hr').
Qed.

Lemma query_metrics_ordered_and_exact_witness :
  exists r,
    In r (metrics store_two)
    /\ m_name r = "cpu"%string
    /\ m_timestamp r = isoformat (tick 5)
    /\ m_value r = Some (Fin 100).
Proof.
  destruct (proj1 (proj2 (query_metrics_ordered_and_exact store_two "cpu"
                            None None None 60)
                     (isoformat (tick 5)) (Some (Fin 100))))
    as (r & Hin & Hn & _ & Hts & Hv & _).
  - vm_compute. right. left. reflexivity.
  - exists r. repeat split; assumption.
Defined.

Lemma get_current_value_latest_witness :
  exists r,
    In r (metrics store_two)
    /\ get_current_value store_two "cpu" None = m_value r
    /\ String.leb (isoformat (tick 0)) (m_timestamp r) = true.
Proof.
  destruct (proj2 (get_current_value_latest store_two "cpu" None)
              (mk_metric_row "cpu" (json_dumps_labels []) (Some (Fin 1))
                 (isoformat (tick 0)) (isoformat (tick 0))))
    as (r & Hin & _ & Hv & Hmax).
  - vm_compute. left. reflexivity.
  - reflexivity.
  - exists r. split; [exact Hin |]. split; [exact Hv |].
    apply (Hmax (mk_metric_row "cpu" (json_dumps_labels []) (Some (Fin 1))
                   (isoformat (tick 0)) (isoformat (tick 0)))).
    + vm_compute. left. reflexivity.
    + reflexivity.
Defined.

(** ** Bounds on the statistics *)

Lemma Forall_Fin_leb_lower (m : Q) (qs : list Q) :
  Forall (fun v => number_leb (Fin m) v = true) (map Fin qs) ->
  Forall (fun v => (m <= v)%Q) qs.
Proof.
  rewrite !Forall_forall. intros H v Hv.
  apply number_leb_Fin, H, in_map, Hv.
Qed.

Lemma Forall_Fin_leb_upper (m : Q) (qs : list Q) :
  Forall (fun v => number_leb v (Fin m) = true) (map Fin qs) ->
  Forall (fun v => (v <= m)%Q) qs.
Proof.
  rewrite !Forall_forall. intros H v Hv.
  apply number_leb_Fin, H, in_map, Hv.
Qed.

(** X4.  When the stored samples of a series hold finite binary64 numbers,
    none of them NULL and fewer than [2^49] of them, the values [get_stats]
    returns are ordered as statistics should be: the minimum is at most the
    mean and the 95th percentile, each of which is at most the maximum, and
    the percentile is one of the sample values. *)
Theorem get_stats_bounds (s : store) (name : string)
    (labels : option labels_t) (from_ts : option datetime) (qs : list Q) :
  map m_value
    (order_by_timestamp
       (filter (series_match name (json_dumps_labels (or_empty labels)))
          (metrics s)))
  = map Some (map Fin qs) ->
  qs <> [] ->
  Forall is_binary64 qs ->
  len qs < 2 ^ 49 ->
  exists d (v_min v_max v_avg v_p95 : Q),
    get_stats s name labels from_ts = Ok d
    /\ py_lookup "min" d = Some (PFloat (Num (Fin v_min)))
    /\ py_lookup "max" d = Some (PFloat (Num (Fin v_max)))
    /\ py_lookup "avg" d = Some (PFloat (Num (Fin v_avg)))
    /\ py_lookup "p95" d = Some (PFloat (Num (Fin v_p95)))
    /\ (v_min <= v_avg)%Q /\ (v_avg <= v_max)%Q
    /\ (v_min <= v_p95)%Q /\ (v_p95 <= v_max)%Q
    /\ In v_p95 qs.
Proof.
  intros Ev Hne Hb Hn.
  assert (Hne' : map Fin qs <> [])
    by (destruct qs; [congruence | discriminate]).
  assert (Hlen : len (map Fin qs) = len qs)
    by (unfold len; rewrite length_map; reflexivity).
  destruct (stats_of_numbers name labels
              (query_metrics s name labels from_ts None 60) (map Fin qs))
    as (x_min & x_max & x_p95 & v_avg & Hs & Emin & Emax & Eavg & Hp95).
  { rewrite get_stats_values. exact Ev. }
  { exact Hne'. }
  { intros q Hin. rewrite Forall_forall in Hb. apply Hb.
    apply in_map_iff in Hin as (q' & E & Hin). injection E as <-. exact Hin. }
  { rewrite Hlen. exact Hn. }
  destruct (py_min_spec (map Fin qs) Hne') as (m1 & Em1 & Hmin_in & Hmin).
  rewrite Emin in Em1. injection Em1 as <-.
  destruct (py_max_spec (map Fin qs) Hne') as (m2 & Em2 & Hmax_in & Hmax).
  rewrite Emax in Em2. injection Em2 as <-.
  apply in_map_iff in Hmin_in as (q_min & <- & Hmin_in).
  apply in_map_iff in Hmax_in as (q_max & <- & Hmax_in).
  apply Forall_Fin_leb_lower in Hmin. apply Forall_Fin_leb_upper in Hmax.
  apply nth_error_In in Hp95.
  apply (proj1 (sort_by_In number_leb _ _)) in Hp95.
  apply in_map_iff in Hp95 as (q_p95 & <- & Hp95).
  destruct (statistics_mean_finite qs Hne Hb) as (r & Er & _ & _ & Hbetween).
  rewrite Eavg in Er. injection Er as ->.
  destruct (Hbetween q_min q_max Hmin_in Hmax_in Hmin Hmax) as [Hlo Hhi].
  eexists. exists q_min, q_max, r, q_p95.
  split; [exact Hs |].
  repeat (split; [reflexivity |]).
  split; [exact Hlo |]. split; [exact Hhi |].
  rewrite Forall_forall in Hmin, Hmax.
  split; [apply Hmin, Hp95 |]. split; [apply Hmax, Hp95 | exact Hp95].
Qed.

Lemma get_stats_bounds_witness :
  exists d (v_min v_max v_avg v_p95 : Q),
    get_stats store_ten "cpu" (Some host_a) None = Ok d
    /\ py_lookup "min" d = Some (PFloat (Num (Fin v_min)))
    /\ py_lookup "max" d = Some (PFloat (Num (Fin v_max)))
    /\ py_lookup "avg" d = Some (PFloat (Num (Fin v_avg)))
    /\ py_lookup "p95" d = Some (PFloat (Num (Fin v_p95)))
    /\ (v_min <= v_avg)%Q /\ (v_avg <= v_max)%Q
    /\ (v_min <= v_p95)%Q /\ (v_p95 <= v_max)%Q.
Proof.
  destruct (get_stats_bounds store_ten "cpu" (Some host_a) None
              [1; 2; 3; 4; 5; 6; 7; 8; 9; 10]%Q)
    as (d & v_min & v_max & v_avg & v_p95 & H).
  - vm_compute. reflexivity.
  - discriminate.
  - repeat (constructor;
            [match goal with
             | |- is_binary64 (?z # 1) =>
                 apply (is_binary64_inject_Z z); reflexivity
             end |]).
    constructor.
  - vm_compute. reflexivity.
  - exists d, v_min, v_max, v_avg, v_p95.
    destruct H as (H1 & H2 & H3 & H4 & H5 & H6 & H7 & H8 & H9 & _).
    repeat split; assumption.
Defined.

(** ** What a call leaves alone *)

(** X5.  [push_metric] only ever appends: the dashboards are untouched,
    the metric table is the old one or the old one followed by one row
    holding the pushed name, label text, value and timestamp, and every
    sample a query returned before the push it returns after it. *)
Theorem push_metric_append_only (s : store) (name : string)
    (value : pyfloat)
    (labels : option labels_t) (now1 now2 : datetime) :
  let s' := fst (push_metric s name value labels now1 now2) in
  dashboards s' = dashboards s
  /\ (metrics s' = metrics s
      \/ exists r,
           metrics s' = metrics s ++ [r]
           /\ metric_key r
              = (name, json_dumps_labels (or_empty labels), isoformat now1)
           /\ m_value r = bind_real value)
  /\ forall name' labels' from_ts to_ts step p,
       In p (query_metrics s name' labels' from_ts to_ts step) ->
       In p (query_metrics s' name' labels' from_ts to_ts step).
Proof.
  intro s'. split; [reflexivity |].
  assert (Hrows : metrics s' = metrics s
                  \/ exists r,
                       metrics s' = metrics s ++ [r]
                       /\ metric_key r
                          = (name, json_dumps_labels (or_empty labels),
                             isoformat now1)
                       /\ m_value r = bind_real value).
  { unfold s', push_metric. cbn [fst metrics metric_timestamp].
    unfold insert_or_ignore.
    destruct (existsb _ (metrics s)); [left; reflexivity |].
    right. eexists. split; [reflexivity |]. split; reflexivity. }
  split; [exact Hrows |].
  intros name' labels' from_ts to_ts step p.
  rewrite !query_metrics_rows, !in_map_iff.
  intros (r & Er & Hin). exists r. split; [exact Er |].
  apply sort_by_In. apply sort_by_In in Hin.
  apply filter_In in Hin as [Hin Hsel]. apply filter_In.
  split; [| exact Hsel].
  destruct Hrows as [-> | (r' & -> & _)]; [exact Hin |].
  apply in_or_app. left. exact Hin.
Qed.

Lemma push_metric_append_only_witness :
  In (isoformat (tick 0), Some (Fin 1))
     (query_metrics
        (fst (push_metric
                (fst (push_metric init_db "cpu" (Num (Fin 1)) None
                        (tick 0) (tick 0)))
                "cpu" (Num (Fin 100)) None (tick 5) (tick 5)))
        "cpu" None None None 60).
Proof.
  apply (push_metric_append_only
           (fst (push_metric init_db "cpu" (Num (Fin 1)) None
                   (tick 0) (tick 0)))
           "cpu" (Num (Fin 100)) None (tick 5) (tick 5)).
  vm_compute. left. reflexivity.
Defined.

Lemma insert_dashboard_metrics (s s' : store) (new : dash_row) :
  insert_dashboard s new = Ok s' -> metrics s' = metrics s.
Proof. intro H. apply insert_dashboard_ok in H as [_ H]. exact H. Qed.

(** X6.  The dashboard methods never write to the metric table: after a
    successful [create_dashboard], [add_panel], [add_variable] or
    [import_json] every metric row is as before, so every query, latest
    value and statistic is unchanged. *)
Theorem dashboard_calls_keep_metrics (s s' : store) :
  (exists title description tags refresh_interval time_range now1 now2 d,
      create_dashboard s title description tags refresh_interval time_range
        now1 now2 = Ok (s', d))
  \/ (exists dashboard_id title panel_type query datasource position options
             p,
         add_panel s dashboard_id title panel_type query datasource position
           options = Ok (s', p))
  \/ (exists dashboard_id name query var_type v,
         add_variable s dashboard_id name query var_type = Ok (s', v))
  \/ (exists doc now d, import_json s doc now = Some (Ok (s', d))) ->
  metrics s' = metrics s
  /\ (forall name labels from_ts to_ts step,
        query_metrics s' name labels from_ts to_ts step
        = query_metrics s name labels from_ts to_ts step)
  /\ (forall name labels,
        get_current_value s' name labels = get_current_value s name labels)
  /\ (forall name labels from_ts,
        get_stats s' name labels from_ts = get_stats s name labels from_ts).
Proof.
  intro H.
  assert (Hm : metrics s' = metrics s).
  { destruct H as [H | [H | [H | H]]].
    - destruct H as (title & description & tags & ri & tr & now1 & now2 & d
                     & H).
      unfold create_dashboard in H.
      destruct (insert_dashboard s _) as [s1 |] eqn:Ei; cbn [bind] in H;
        [| discriminate].
      injection H as <- _. exact (insert_dashboard_metrics _ _ _ Ei).
    - destruct H as (id & title & ty & q & ds & pos & opts & p & H).
      unfold add_panel in H. destruct (find_dashboard s id) as [row |].
      + destruct (r_panels row); try discriminate.
        injection H as <- _. reflexivity.
      + injection H as <- _. reflexivity.
    - destruct H as (id & name & q & vt & v & H).
      unfold add_variable in H. destruct (find_dashboard s id) as [row |].
      + destruct (r_variables row); try discriminate.
        injection H as <- _. reflexivity.
      + injection H as <- _. reflexivity.
    - destruct H as (doc & now & d & H).
      apply import_json_inv in H
        as (data & title & time & uid & description & refresh & time_range
            & _ & _ & _ & _ & _ & _ & _ & -> & _).
      reflexivity. }
  split; [exact Hm |].
  split; [| split].
  - intros. unfold query_metrics. rewrite Hm. reflexivity.
  - intros. unfold get_current_value. rewrite Hm. reflexivity.
  - intros. unfold get_stats, query_metrics. rewrite Hm. reflexivity.
Qed.

Lemma dashboard_calls_keep_metrics_witness :
  get_current_value
    (mk_store
       [new_row "Test Dashboard" "Test Desc" None "30s" "1h"
          (tick 1) (tick 1)]
       (metrics store_two))
    "cpu" None
  = get_current_value store_two "cpu" None.
Proof.
  destruct (dashboard_calls_keep_metrics store_two
              (mk_store
                 [new_row "Test Dashboard" "Test Desc" None "30s" "1h"
                    (tick 1) (tick 1)]
                 (metrics store_two)))
    as (_ & _ & Hc & _).
  - left. do 8 eexists. reflexivity.
  - apply Hc.
Defined.

(** ** The uniqueness constraints *)

Lemma NoDup_map_filter {A B : Type} (f : A -> B) (keep : A -> bool)
    (l : list A) :
  NoDup (map f l) -> NoDup (map f (filter keep l)).
Proof.
  induction l as [| x rest IH]; cbn [map filter]; intro H; [exact H |].
  apply NoDup_cons_iff in H as [Hx Hnd].
  destruct (keep x); cbn [map]; [| apply IH, Hnd].
  constructor; [| apply IH, Hnd].
  intro Hin. apply Hx. apply in_map_iff in Hin as (y & Ey & Hy).
  apply filter_In in Hy as [Hy _]. rewrite <- Ey. apply in_map, Hy.
Qed.

Lemma non_null_app {A : Type} (l1 l2 : list (option A)) :
  non_null (l1 ++ l2) = non_null l1 ++ non_null l2.
Proof.
  induction l1 as [| [a |] rest IH]; cbn [app non_null];
    [reflexivity | rewrite IH; reflexivity | exact IH].
Qed.

Lemma in_non_null {A : Type} (a : A) (l : list (option A)) :
  In a (non_null l) <-> In (Some a) l.
Proof.
  induction l as [| [b |] rest IH]; cbn [non_null In].
  - reflexivity.
  - rewrite IH. split; intros [H | H]; auto; [left | left]; congruence.
  - rewrite IH. split; [auto | intros [H | H]; [discriminate | exact H]].
Qed.

Lemma NoDup_non_null_filter {A B : Type} (f : A -> option B)
    (keep : A -> bool) (l : list A) :
  NoDup (non_null (map f l)) -> NoDup (non_null (map f (filter keep l))).
Proof.
  induction l as [| x rest IH]; cbn [map filter non_null]; intro H;
    [exact H |].
  assert (Hrest : NoDup (non_null (map f rest))).
  { destruct (f x); [apply NoDup_cons_iff in H as [_ H] |]; exact H. }
  destruct (keep x); cbn [map non_null]; [| apply IH, Hrest].
  destruct (f x) as [b |]; [| apply IH, Hrest].
  apply NoDup_cons_iff in H as [Hx _].
  constructor; [| apply IH, Hrest].
  intro Hin. apply Hx. apply in_non_null. apply in_non_null in Hin.
  apply in_map_iff in Hin as (y & Ey & Hy).
  apply filter_In in Hy as [Hy _]. rewrite <- Ey. apply in_map, Hy.
Qed.

Lemma no_conflict_fresh (new : dash_row) (rows : list dash_row) :
  existsb (conflicts new) rows = false ->
  ~ In (r_id new) (map r_id rows)
  /\ forall u, r_uid new = Some u -> ~ In u (non_null (map r_uid rows)).
Proof.
  intro H.
  assert (Hall : forall r, In r rows -> conflicts new r = false).
  { intros r Hr. destruct (conflicts new r) eqn:E; [| reflexivity].
    assert (existsb (conflicts new) rows = true)
      by (apply existsb_exists; exists r; auto).
    congruence. }
  split.
  - intro Hin. apply in_map_iff in Hin as (r & Er & Hr).
    specialize (Hall r Hr). unfold conflicts in Hall.
    apply orb_false_elim in Hall as [H1 _].
    rewrite Er, String.eqb_refl in H1. discriminate.
  - intros u Eu Hin. apply in_non_null, in_map_iff in Hin as (r & Er & Hr).
    specialize (Hall r Hr). unfold conflicts in Hall.
    apply orb_false_elim in Hall as [_ H2].
    rewrite Er, Eu, String.eqb_refl in H2. discriminate.
Qed.

Lemma NoDup_snoc {A : Type} (l : list A) (x : A) :
  NoDup l -> ~ In x l -> NoDup (l ++ [x]).
Proof.
  intros Hl Hx. apply NoDup_app; [exact Hl | |].
  - constructor; [intros [] | constructor].
  - intros a Ha [<- | []]. exact (Hx Ha).
Qed.

(** Adding a row whose uid, if any, is not in use keeps the uids apart. *)
Lemma NoDup_uids_snoc (rows : list dash_row) (new : dash_row) :
  NoDup (non_null (map r_uid rows)) ->
  (forall u, r_uid new = Some u -> ~ In u (non_null (map r_uid rows))) ->
  NoDup (non_null (map r_uid (rows ++ [new]))).
Proof.
  intros Hnd Hfresh. rewrite map_app, non_null_app. cbn [map non_null].
  destruct (r_uid new) as [u |]; cbn [non_null].
  - apply NoDup_snoc; [exact Hnd | apply Hfresh; reflexivity].
  - rewrite app_nil_r. exact Hnd.
Qed.

Lemma insert_dashboard_unique (s s' : store) (new : dash_row) :
  dashboards_unique s -> insert_dashboard s new = Ok s' ->
  dashboards_unique s'.
Proof.
  intros [Hid Huid] H. unfold insert_dashboard in H.
  destruct (existsb (conflicts new) (dashboards s)) eqn:E; [discriminate |].
  injection H as <-. apply no_conflict_fresh in E as [Fid Fuid].
  unfold dashboards_unique. cbn [dashboards]. split.
  - rewrite map_app. cbn [map]. apply NoDup_snoc; assumption.
  - apply NoDup_uids_snoc; assumption.
Qed.

Lemma insert_or_replace_unique (s : store) (new : dash_row) :
  dashboards_unique s -> dashboards_unique (insert_or_replace s new).
Proof.
  intros [Hid Huid]. unfold dashboards_unique, insert_or_replace.
  cbn [dashboards].
  assert (Hkept : forall r,
            In r (filter (fun r => negb (conflicts new r)) (dashboards s)) ->
            r_id r <> r_id new
            /\ forall u, r_uid new = Some u -> r_uid r <> Some u).
  { intros r Hr. apply filter_In in Hr as [_ Hr].
    apply negb_true_iff in Hr. unfold conflicts in Hr.
    apply orb_false_elim in Hr as [H1 H2].
    apply String.eqb_neq in H1. split; [exact H1 |].
    intros u Eu Er. rewrite Er, Eu, String.eqb_refl in H2. discriminate. }
  split.
  - rewrite map_app. cbn [map].
    apply NoDup_snoc; [apply NoDup_map_filter; assumption |].
    intro Hin. apply in_map_iff in Hin as (r & Er & Hr).
    destruct (Hkept r Hr) as [H1 _]. congruence.
  - apply NoDup_uids_snoc; [apply NoDup_non_null_filter; assumption |].
    intros u Eu Hin. apply in_non_null, in_map_iff in Hin as (r & Er & Hr).
    destruct (Hkept r Hr) as [_ H2]. exact (H2 u Eu Er).
Qed.

Lemma update_panels_keys (s : store) (dashboard_id : string) (panels : json) :
  map r_id (dashboards (update_panels s dashboard_id panels))
  = map r_id (dashboards s)
  /\ map r_uid (dashboards (update_panels s dashboard_id panels))
     = map r_uid (dashboards s).
Proof.
  unfold update_panels. cbn [dashboards]. rewrite !map_map.
  split; apply map_ext; intro r;
    destruct (String.eqb (r_id r) dashboard_id); reflexivity.
Qed.

Lemma update_variables_keys (s : store) (dashboard_id : string)
    (variables : json) :
  map r_id (dashboards (update_variables s dashboard_id variables))
  = map r_id (dashboards s)
  /\ map r_uid (dashboards (update_variables s dashboard_id variables))
     = map r_uid (dashboards s).
Proof.
  unfold update_variables. cbn [dashboards]. rewrite !map_map.
  split; apply map_ext; intro r;
    destruct (String.eqb (r_id r) dashboard_id); reflexivity.
Qed.

Lemma import_json_ok (s s' : store) (doc : json) (now : datetime)
    (d : Dashboard) :
  import_json s doc now = Some (Ok (s', d)) ->
  exists new, s' = insert_or_replace s new /\ r_id new = d_id d.
Proof.
  intro H.
  apply import_json_inv in H
    as (data & title & time & uid & description & refresh & time_range
        & _ & _ & _ & _ & _ & _ & _ & -> & ->).
  eexists. split; reflexivity.
Qed.

(** X7.  Every store that calls of the public methods build from a new
    database satisfies the three uniqueness constraints of the schema: no
    two metric rows share name, label text and timestamp, no two dashboards
    share an id, and no two share a uid that is not NULL. *)
Theorem reachable_unique (s : store) :
  reachable s -> metrics_unique s /\ dashboards_unique s.
Proof.
  induction 1 as [| s name value labels now1 now2 Hr [IHm IHd]
                  | s title description tags ri tr now1 now2 s' d Hr
                      [IHm IHd] H
                  | s id title ty q ds pos opts s' p Hr [IHm IHd] H
                  | s id name q vt s' v Hr [IHm IHd] H
                  | s doc now s' d Hr [IHm IHd] H].
  - split; [constructor | split; constructor].
  - split; [apply push_metric_unique, IHm | exact IHd].
  - unfold create_dashboard in H.
    destruct (insert_dashboard s _) as [s1 |] eqn:Ei; cbn [bind] in H;
      [| discriminate].
    injection H as <- _. split.
    + unfold metrics_unique.
      rewrite (insert_dashboard_metrics _ _ _ Ei). exact IHm.
    + exact (insert_dashboard_unique _ _ _ IHd Ei).
  - unfold add_panel in H. destruct (find_dashboard s id) as [row |].
    + destruct (r_panels row) as [| | | | | l |]; try discriminate.
      injection H as <- _. split; [exact IHm |].
      destruct IHd as [Hid Huid].
      destruct (update_panels_keys s id (JList (l ++ [asdict_Panel
                  (new_panel id title ty q ds pos opts)]))) as [E1 E2].
      split; [rewrite E1 | rewrite E2]; assumption.
    + injection H as <- _. split; assumption.
  - unfold add_variable in H. destruct (find_dashboard s id) as [row |].
    + destruct (r_variables row) as [| | | | | l |]; try discriminate.
      injection H as <- _. split; [exact IHm |].
      destruct IHd as [Hid Huid].
      destruct (update_variables_keys s id (JList (l ++ [asdict_Variable
                  (mk_Variable name vt q EmptyString)]))) as [E1 E2].
      split; [rewrite E1 | rewrite E2]; assumption.
    + injection H as <- _. split; assumption.
  - apply import_json_ok in H as (new & -> & _). split.
    + exact IHm.
    + apply insert_or_replace_unique, IHd.
Qed.

Lemma reachable_unique_witness :
  metrics_unique store_two /\ dashboards_unique store_two.
Proof.
  apply (reachable_unique store_two).
  apply reach_push_metric. apply reach_push_metric. apply reach_init.
Defined.

(** ** Creating a dashboard *)

Lemma find_app_none (rows : list dash_row) (new : dash_row) (id : string) :
  ~ In id (map r_id rows) ->
  find (fun r => String.eqb (r_id r) id) (rows ++ [new])
  = if String.eqb (r_id new) id then Some new else None.
Proof.
  induction rows as [| r rest IH]; cbn [app find map]; intro H.
  - reflexivity.
  - destruct (String.eqb_spec (r_id r) id) as [E | _].
    + exfalso. apply H. left. exact E.
    + apply IH. intro Hin. apply H. right. exact Hin.
Qed.

Lemma find_app_other (rows : list dash_row) (new : dash_row) (id : string) :
  r_id new <> id ->
  find (fun r => String.eqb (r_id r) id) (rows ++ [new])
  = find (fun r => String.eqb (r_id r) id) rows.
Proof.
  intro H. induction rows as [| r rest IH]; cbn [app find].
  - apply String.eqb_neq in H. rewrite H. reflexivity.
  - destruct (String.eqb (r_id r) id); [reflexivity | exact IH].
Qed.

(** X8.  [create_dashboard] raises [IntegrityError] exactly when a stored
    dashboard has the id or the uid it computes, and it raises nothing
    else; otherwise it returns the dashboard it built and stores it with
    empty panels and variables under its id, and every other id resolves
    as before. *)
Theorem create_dashboard_outcome (s : store) (title description : string)
    (tags : option (list string)) (refresh_interval time_range : string)
    (now1 now2 : datetime) :
  let d := new_dashboard title description tags refresh_interval time_range
             now1 now2 in
  let clash :=
    exists r, In r (dashboards s)
              /\ (r_id r = md5_8 (title ++ isoformat now1)
                  \/ r_uid r = Some (md5_8 title)) in
  (clash ->
   create_dashboard s title description tags refresh_interval time_range
     now1 now2 = Raise IntegrityError)
  /\ (~ clash ->
      exists s',
        create_dashboard s title description tags refresh_interval
          time_range now1 now2 = Ok (s', d)
        /\ find_dashboard s' (d_id d)
           = Some (new_row title description tags refresh_interval
                     time_range now1 now2)
        /\ find_dashboard s (d_id d) = None
        /\ forall id, id <> d_id d ->
             find_dashboard s' id = find_dashboard s id).
Proof.
  intros d clash. unfold create_dashboard. fold d.
  set (new := new_row title description tags refresh_interval time_range
                now1 now2).
  unfold insert_dashboard. split.
  - intros (r & Hr & Hc).
    assert (E : existsb (conflicts new) (dashboards s) = true).
    { apply existsb_exists. exists r. split; [exact Hr |].
      unfold conflicts. apply orb_true_iff.
      destruct Hc as [Hc | Hc]; [left | right]; rewrite Hc;
        apply String.eqb_refl. }
    rewrite E. reflexivity.
  - intro Hno.
    assert (E : existsb (conflicts new) (dashboards s) = false).
    { destruct (existsb (conflicts new) (dashboards s)) eqn:E;
        [| reflexivity].
      exfalso. apply Hno. apply existsb_exists in E as (r & Hr & Hc).
      exists r. split; [exact Hr |]. unfold conflicts in Hc.
      apply orb_true_iff in Hc as [Hc | Hc].
      - left. apply String.eqb_eq, Hc.
      - right. cbn [new new_row r_uid] in Hc.
        destruct (r_uid r) as [u |]; [| discriminate].
        apply String.eqb_eq in Hc. rewrite Hc. reflexivity. }
    rewrite E. cbn [bind]. eexists. split; [reflexivity |].
    apply no_conflict_fresh in E as [Fid _].
    change (r_id new) with (d_id d) in Fid.
    split; [| split].
    + change (find (fun r => String.eqb (r_id r) (d_id d))
                (dashboards s ++ [new]) = Some new).
      rewrite (find_app_none _ new (d_id d) Fid).
      change (r_id new) with (d_id d). rewrite String.eqb_refl. reflexivity.
    + unfold find_dashboard.
      destruct (find _ (dashboards s)) as [r |] eqn:Ef; [| reflexivity].
      exfalso. apply find_some in Ef as [Hr Hid].
      apply String.eqb_eq in Hid. apply Fid. rewrite <- Hid.
      apply in_map, Hr.
    + intros id Hid.
      change (find (fun r => String.eqb (r_id r) id) (dashboards s ++ [new])
              = find_dashboard s id).
      apply find_app_other. intro E. apply Hid.
      rewrite <- E. reflexivity.
Qed.

Lemma create_dashboard_outcome_witness :
  create_dashboard store_dash "Test Dashboard" "again" None "30s" "1h"
    (tick 2) (tick 2) = Raise IntegrityError
  /\ exists s',
       create_dashboard store_dash "Other" "first" None "30s" "1h"
         (tick 2) (tick 2)
       = Ok (s', new_dashboard "Other" "first" None "30s" "1h"
                   (tick 2) (tick 2))
       /\ find_dashboard s' sample_id = find_dashboard store_dash sample_id.
Proof.
  split.
  - apply (create_dashboard_outcome store_dash "Test Dashboard" "again" None
             "30s" "1h" (tick 2) (tick 2)).
    exists sample_row. split; [left; reflexivity |].
    right. reflexivity.
  - destruct (proj2 (create_dashboard_outcome store_dash "Other" "first"
                       None "30s" "1h" (tick 2) (tick 2)))
      as (s' & Hc & _ & _ & Hother).
    + intros (r & [<- | []] & [Hc | Hc]); vm_compute in Hc; discriminate.
    + exists s'. split; [exact Hc |].
      apply Hother. vm_compute. discriminate.
Defined.

(** ** Adding panels and variables *)

Lemma find_update_panels (s : store) (dashboard_id id : string)
    (panels : json) :
  find_dashboard (update_panels s dashboard_id panels) id
  = match find_dashboard s id with
    | Some r =>
        Some (if String.eqb (r_id r) dashboard_id then
                mk_dash_row (r_id r) (r_uid r) (r_title r) (r_description r)
                  (r_tags r) panels (r_variables r) (r_refresh_interval r)
                  (r_time_range r) (r_created_at r)
              else r)
    | None => None
    end.
Proof.
  unfold find_dashboard, update_panels. cbn [dashboards].
  induction (dashboards s) as [| r rest IH]; cbn [map find]; [reflexivity |].
  destruct (String.eqb (r_id r) dashboard_id) eqn:Ed; cbn [r_id];
    destruct (String.eqb (r_id r) id) eqn:Ei; try exact IH;
    rewrite ?Ed; reflexivity.
Qed.

Lemma find_update_variables (s : store) (dashboard_id id : string)
    (variables : json) :
  find_dashboard (update_variables s dashboard_id variables) id
  = match find_dashboard s id with
    | Some r =>
        Some (if String.eqb (r_id r) dashboard_id then
                mk_dash_row (r_id r) (r_uid r) (r_title r) (r_description r)
                  (r_tags r) (r_panels r) variables (r_refresh_interval r)
                  (r_time_range r) (r_created_at r)
              else r)
    | None => None
    end.
Proof.
  unfold find_dashboard, update_variables. cbn [dashboards].
  induction (dashboards s) as [| r rest IH]; cbn [map find]; [reflexivity |].
  destruct (String.eqb (r_id r) dashboard_id) eqn:Ed; cbn [r_id];
    destruct (String.eqb (r_id r) id) eqn:Ei; try exact IH;
    rewrite ?Ed; reflexivity.
Qed.

Lemma find_dashboard_id (s : store) (id : string) (row : dash_row) :
  find_dashboard s id = Some row -> r_id row = id.
Proof.
  intro H. apply find_some in H as [_ H]. apply String.eqb_eq, H.
Qed.

(** X9.  On a stored dashboard whose panels are a list, [add_panel]
    appends the new panel at the end of that list and changes nothing else
    of the row; every other dashboard is as before, and a second
    [add_panel] puts its panel after the first: the export then lists both
    after the old panels, or raises [TypeError] when the time range of the
    row is NULL. *)
Theorem add_panel_appends (s : store) (row : dash_row)
    (panels : list json)
    (dashboard_id title panel_type query datasource : string)
    (position : option Position) (options : option (list (string * json)))
    (title2 panel_type2 query2 datasource2 : string)
    (position2 : option Position)
    (options2 : option (list (string * json))) :
  find_dashboard s dashboard_id = Some row ->
  r_panels row = JList panels ->
  let p := new_panel dashboard_id title panel_type query datasource position
             options in
  let p2 := new_panel dashboard_id title2 panel_type2 query2 datasource2
              position2 options2 in
  exists s',
    add_panel s dashboard_id title panel_type query datasource position
      options = Ok (s', p)
    /\ find_dashboard s' dashboard_id
       = Some (mk_dash_row (r_id row) (r_uid row) (r_title row)
                 (r_description row) (r_tags row)
                 (JList (panels ++ [asdict_Panel p])) (r_variables row)
                 (r_refresh_interval row) (r_time_range row)
                 (r_created_at row))
    /\ (forall id, id <> dashboard_id ->
          find_dashboard s' id = find_dashboard s id)
    /\ exists s'',
         add_panel s' dashboard_id title2 panel_type2 query2 datasource2
           position2 options2 = Ok (s'', p2)
         /\ match r_time_range row with
            | Some _ =>
                exists doc,
                  export_json s'' dashboard_id = Ok doc
                  /\ json_field "panels" doc
                     = Some (JList
                               (panels ++ [asdict_Panel p; asdict_Panel p2]))
            | None => export_json s'' dashboard_id = Raise TypeError
            end.
Proof.
  intros Hf Hp p p2.
  pose proof (find_dashboard_id _ _ _ Hf) as Hid.
  unfold add_panel at 1. rewrite Hf, Hp. fold p.
  eexists. split; [reflexivity |].
  set (s' := update_panels s dashboard_id (JList (panels ++ [asdict_Panel p]))).
  assert (Hf' : find_dashboard s' dashboard_id
                = Some (mk_dash_row (r_id row) (r_uid row) (r_title row)
                          (r_description row) (r_tags row)
                          (JList (panels ++ [asdict_Panel p]))
                          (r_variables row) (r_refresh_interval row)
                          (r_time_range row) (r_created_at row))).
  { unfold s'. rewrite find_update_panels, Hf, Hid, String.eqb_refl.
    reflexivity. }
  split; [exact Hf' |]. split.
  - intros id Hne. unfold s'. rewrite find_update_panels.
    destruct (find_dashboard s id) as [r |] eqn:Er; [| reflexivity].
    rewrite (find_dashboard_id _ _ _ Er).
    apply String.eqb_neq in Hne. rewrite Hne. reflexivity.
  - unfold add_panel. rewrite Hf'. cbn [r_panels]. fold p2.
    eexists. split; [reflexivity |].
    unfold export_json. rewrite find_update_panels, Hf'. cbn [r_id].
    rewrite Hid, String.eqb_refl. cbn [r_time_range].
    destruct (r_time_range row) as [time_range |]; [| reflexivity].
    eexists. split; [reflexivity |].
    cbn [json_field dict_lookup String.eqb Ascii.eqb Bool.eqb r_panels].
    rewrite <- app_assoc. reflexivity.
Qed.

Lemma add_panel_appends_witness :
  exists s' s'' p p2 doc,
    add_panel store_dash sample_id "Memory" "gauge" "mem_used" "prometheus"
      None None = Ok (s', p)
    /\ add_panel s' sample_id "Disk" "stat" "disk_free" "prometheus"
         None None = Ok (s'', p2)
    /\ export_json s'' sample_id = Ok doc
    /\ json_field "panels" doc
       = Some (JList
                 [asdict_Panel
                    (new_panel sample_id "CPU" "timeseries" "rate(cpu[5m])"
                       "prometheus" None None);
                  asdict_Panel p; asdict_Panel p2]).
Proof.
  assert (Hf : find_dashboard store_dash sample_id = Some sample_row)
    by (vm_compute; reflexivity).
  destruct (add_panel_appends store_dash sample_row
              [asdict_Panel
                 (new_panel sample_id "CPU" "timeseries" "rate(cpu[5m])"
                    "prometheus" None None)]
              sample_id "Memory" "gauge" "mem_used" "prometheus" None None
              "Disk" "stat" "disk_free" "prometheus" None None Hf eq_refl)
    as (s' & H1 & _ & _ & s'' & H2 & doc & H3 & H4).
  exists s', s''. do 2 eexists. exists doc.
  split; [exact H1 |]. split; [exact H2 |]. split; [exact H3 | exact H4].
Defined.

(** X10.  On a stored dashboard whose variables are a list,
    [add_variable] appends the new variable, with an empty current value,
    at the end of that list and changes nothing else of the row; the
    export then ends its variables with the new one, or raises [TypeError]
    when the time range of the row is NULL; every other dashboard is as
    before. *)
Theorem add_variable_appends (s : store) (row : dash_row)
    (variables : list json) (dashboard_id name query var_type : string) :
  find_dashboard s dashboard_id = Some row ->
  r_variables row = JList variables ->
  let v := mk_Variable name var_type query EmptyString in
  exists s',
    add_variable s dashboard_id name query var_type = Ok (s', v)
    /\ find_dashboard s' dashboard_id
       = Some (mk_dash_row (r_id row) (r_uid row) (r_title row)
                 (r_description row) (r_tags row) (r_panels row)
                 (JList (variables ++ [asdict_Variable v]))
                 (r_refresh_interval row) (r_time_range row)
                 (r_created_at row))
    /\ match r_time_range row with
       | Some _ =>
           exists doc,
             export_json s' dashboard_id = Ok doc
             /\ json_field "variables" doc
                = Some (JList
                          (variables
                           ++ [JDict
                                 [("name"%string, JStr name);
                                  ("type"%string, JStr var_type);
                                  ("query"%string, JStr query);
                                  ("current_value"%string,
                                    JStr EmptyString)]]))
       | None => export_json s' dashboard_id = Raise TypeError
       end
    /\ forall id, id <> dashboard_id ->
         find_dashboard s' id = find_dashboard s id.
Proof.
  intros Hf Hv v.
  pose proof (find_dashboard_id _ _ _ Hf) as Hid.
  unfold add_variable. rewrite Hf, Hv. fold v.
  eexists. split; [reflexivity |].
  assert (Hf' : find_dashboard
                  (update_variables s dashboard_id
                     (JList (variables ++ [asdict_Variable v])))
                  dashboard_id
                = Some (mk_dash_row (r_id row) (r_uid row) (r_title row)
                          (r_description row) (r_tags row) (r_panels row)
                          (JList (variables ++ [asdict_Variable v]))
                          (r_refresh_interval row) (r_time_range row)
                          (r_created_at row))).
  { rewrite find_update_variables, Hf, Hid, String.eqb_refl. reflexivity. }
  split; [exact Hf' |]. split.
  - unfold export_json. rewrite Hf'. cbn [r_time_range].
    destruct (r_time_range row) as [time_range |]; [| reflexivity].
    eexists. split; reflexivity.
  - intros id Hne. rewrite find_update_variables.
    destruct (find_dashboard s id) as [r |] eqn:Er; [| reflexivity].
    rewrite (find_dashboard_id _ _ _ Er).
    apply String.eqb_neq in Hne. rewrite Hne. reflexivity.
Qed.

Lemma add_variable_appends_witness :
  exists s' doc,
    add_variable store_dash sample_id "env" "label_values(env)" "query"
    = Ok (s', mk_Variable "env" "query" "label_values(env)" EmptyString)
    /\ export_json s' sample_id = Ok doc
    /\ json_field "variables" doc
       = Some (JList
                 [JDict [("name"%string, JStr "env");
                         ("type"%string, JStr "query");
                         ("query"%string, JStr "label_values(env)");
                         ("current_value"%string, JStr EmptyString)]]).
Proof.
  assert (Hf : find_dashboard store_dash sample_id = Some sample_row)
    by (vm_compute; reflexivity).
  destruct (add_variable_appends store_dash sample_row [] sample_id "env"
              "label_values(env)" "query" Hf eq_refl)
    as (s' & H1 & _ & (doc & H2 & H3) & _).
  exists s', doc. split; [exact H1 |]. split; [exact H2 | exact H3].
Defined.

(** X11.  [add_panel] and [add_variable] raise only [AttributeError], and
    they raise it exactly when the dashboard is stored and its panels
    (respectively variables) are not a JSON list, as [import_json] can
    leave them. *)
Theorem add_raises_on_non_list (s : store)
    (dashboard_id title panel_type query datasource : string)
    (position : option Position) (options : option (list (string * json)))
    (name vquery var_type : string) (e : exn) :
  (add_panel s dashboard_id title panel_type query datasource position
     options = Raise e
   <-> e = AttributeError
       /\ exists row, find_dashboard s dashboard_id = Some row
                      /\ forall l, r_panels row <> JList l)
  /\ (add_variable s dashboard_id name vquery var_type = Raise e
      <-> e = AttributeError
          /\ exists row, find_dashboard s dashboard_id = Some row
                         /\ forall l, r_variables row <> JList l).
Proof.
  unfold add_panel, add_variable.
  destruct (find_dashboard s dashboard_id) as [row |].
  - split; split.
    + destruct (r_panels row) eqn:Ep; try discriminate;
        intro H; injection H as <-;
        (split; [reflexivity |]); exists row;
        (split; [reflexivity |]); intros l; rewrite Ep; discriminate.
    + intros (-> & row' & Er & Hn). injection Er as <-.
      destruct (r_panels row) as [| | | | | l |]; try reflexivity.
      exfalso. exact (Hn l eq_refl).
    + destruct (r_variables row) eqn:Ep; try discriminate;
        intro H; injection H as <-;
        (split; [reflexivity |]); exists row;
        (split; [reflexivity |]); intros l; rewrite Ep; discriminate.
    + intros (-> & row' & Er & Hn). injection Er as <-.
      destruct (r_variables row) as [| | | | | l |]; try reflexivity.
      exfalso. exact (Hn l eq_refl).
  - split; split; try discriminate;
      intros (_ & row & Er & _); discriminate.
Qed.

Lemma add_raises_on_non_list_witness :
  add_panel
    (mk_store
       [mk_dash_row "a" (Some "u"%string) "t" (Some EmptyString) (JList [])
          (JDict []) JNull (Some "30s"%string) (Some "1h"%string)
          "2024-01-01T00:00:01"] [])
    "a" "CPU" "gauge" "up" "prometheus" None None
  = Raise AttributeError
  /\ add_variable
       (mk_store
          [mk_dash_row "a" (Some "u"%string) "t" (Some EmptyString) (JList [])
             (JDict []) JNull (Some "30s"%string) (Some "1h"%string)
             "2024-01-01T00:00:01"] [])
       "a" "env" "label_values(env)" "query"
     = Raise AttributeError.
Proof.
  split.
  - apply (add_raises_on_non_list _ "a" "CPU" "gauge" "up" "prometheus" None
             None "env" "label_values(env)" "query" AttributeError).
    split; [reflexivity |]. eexists. split; [reflexivity |].
    intro l. discriminate.
  - apply (add_raises_on_non_list _ "a" "CPU" "gauge" "up" "prometheus" None
             None "env" "label_values(env)" "query" AttributeError).
    split; [reflexivity |]. eexists. split; [reflexivity |].
    intro l. discriminate.
Defined.

(** ** Importing a document *)

(** X12.  A document that has none of the keys [uid], [description],
    [tags], [panels], [variables], [refresh] and [time] is imported with
    the defaults: the uid is the id [md5(title)[:8]], the description is
    empty, tags, panels and variables are empty lists, the refresh interval
    is [30s] and the time range [1h]; a missing title counts as the empty
    title. *)
Theorem import_json_defaults (s : store) (data : list (string * json))
    (title : string) (now : datetime) :
  dict_lookup "title" data = Some (JStr title)
  \/ (dict_lookup "title" data = None /\ title = EmptyString) ->
  dict_lookup "uid" data = None ->
  dict_lookup "description" data = None ->
  dict_lookup "tags" data = None ->
  dict_lookup "panels" data = None ->
  dict_lookup "variables" data = None ->
  dict_lookup "refresh" data = None ->
  dict_lookup "time" data = None ->
  let d := mk_Dashboard (md5_8 title) (JStr (md5_8 title)) title
             (JStr EmptyString) (JList []) [] [] (JStr "30s") (JStr "1h")
             now in
  let row := mk_dash_row (md5_8 title) (Some (md5_8 title)) title
               (Some EmptyString) (JList []) (JList []) (JList [])
               (Some "30s"%string) (Some "1h"%string) (isoformat now) in
  import_json s (JDict data) now = Some (Ok (insert_or_replace s row, d))
  /\ find_dashboard (insert_or_replace s row) (md5_8 title) = Some row.
Proof.
  intros Ht Hu Hd Htags Hp Hv Hr Htime d row.
  split.
  - unfold import_json, dict_get.
    rewrite Hu, Hd, Htags, Hp, Hv, Hr, Htime.
    destruct Ht as [Ht | [Ht ->]]; rewrite Ht; reflexivity.
  - apply (find_after_replace s row).
Qed.

Lemma import_json_defaults_witness :
  let d := mk_Dashboard (md5_8 EmptyString) (JStr (md5_8 EmptyString))
             EmptyString (JStr EmptyString) (JList []) [] [] (JStr "30s")
             (JStr "1h") (tick 9) in
  let row := mk_dash_row (md5_8 EmptyString) (Some (md5_8 EmptyString))
               EmptyString (Some EmptyString) (JList []) (JList [])
               (JList []) (Some "30s"%string) (Some "1h"%string)
               (isoformat (tick 9)) in
  import_json store_dash (JDict []) (tick 9)
  = Some (Ok (insert_or_replace store_dash row, d)).
Proof.
  exact (proj1 (import_json_defaults store_dash [] EmptyString (tick 9)
                  (or_intror (conj eq_refl eq_refl))
                  eq_refl eq_refl eq_refl eq_refl eq_refl eq_refl eq_refl)).
Defined.

(** X13.  [import_json] reads eight keys of the document and nothing
    else: two documents that agree on [title], [uid], [description],
    [tags], [panels], [variables], [refresh] and [time] are imported alike,
    whatever their [id], [created_at] or other keys hold. *)
Theorem import_json_reads_eight_keys (s : store)
    (data1 data2 : list (string * json)) (now : datetime) :
  (forall k,
      In k ["title"; "uid"; "description"; "tags"; "panels"; "variables";
            "refresh"; "time"]%string ->
      dict_lookup k data1 = dict_lookup k data2) ->
  import_json s (JDict data1) now = import_json s (JDict data2) now.
Proof.
  intro H. unfold import_json, dict_get.
  rewrite (H "title"%string), (H "uid"%string), (H "description"%string),
    (H "tags"%string), (H "panels"%string), (H "variables"%string),
    (H "refresh"%string), (H "time"%string);
    [reflexivity | cbn; tauto ..].
Qed.

Lemma import_json_reads_eight_keys_witness :
  import_json store_dash
    (JDict [("id"%string, JStr "ffffffff"); ("title"%string, JStr "T");
            ("created_at"%string, JStr "1999-12-31T23:59:59")]) (tick 9)
  = import_json store_dash (JDict [("title"%string, JStr "T")]) (tick 9).
Proof.
  apply (import_json_reads_eight_keys store_dash).
  intros k Hk. cbn in Hk.
  repeat (destruct Hk as [<- | Hk]; [reflexivity |]). destruct Hk.
Defined.

Ltac bound :=
  repeat first
    [ reflexivity | assumption | apply Forall_nil | apply Forall_cons
    | eexists; eassumption | split ].

(** The steps of an import that bind a TEXT parameter: the first cell
    that cannot be bound raises, the cells before it having been bound. *)
Lemma bind_chain_raises {A : Type} (c1 c2 c3 c4 : json)
    (k : option string -> option string -> option string -> option string
         -> A) (e : exn) :
  (u <-- bind_text c1 ;; d <-- bind_text c2 ;; r <-- bind_text c3 ;;
   t <-- bind_text c4 ;; Some (Ok (k u d r t)))%result = Some (Raise e)
  <-> exists before v after,
        [c1; c2; c3; c4] = before ++ v :: after
        /\ Forall (fun c => exists t, bind_text c = Some (Ok t)) before
        /\ bind_text v = Some (Raise e).
Proof.
  split.
  - intro H.
    destruct (bind_text c1) as [[u | e1] |] eqn:E1; cbn [obind] in H;
      [| injection H as ->; exists [], c1, [c2; c3; c4]; bound
       | discriminate].
    destruct (bind_text c2) as [[d | e2] |] eqn:E2; cbn [obind] in H;
      [| injection H as ->; exists [c1], c2, [c3; c4]; bound
       | discriminate].
    destruct (bind_text c3) as [[r | e3] |] eqn:E3; cbn [obind] in H;
      [| injection H as ->; exists [c1; c2], c3, [c4]; bound
       | discriminate].
    destruct (bind_text c4) as [[t | e4] |] eqn:E4; cbn [obind] in H;
      [discriminate | | discriminate].
    injection H as ->. exists [c1; c2; c3], c4, []. bound.
  - intros (before & v & after & E & Hb & Hv).
    destruct before as [| b1 before]; cbn [app] in E.
    { injection E as <- _. rewrite Hv. reflexivity. }
    apply Forall_cons_iff in Hb as [[t1 H1] Hb]. injection E as <- E.
    rewrite H1. cbn [obind].
    destruct before as [| b2 before]; cbn [app] in E.
    { injection E as <- _. rewrite Hv. reflexivity. }
    apply Forall_cons_iff in Hb as [[t2 H2] Hb]. injection E as <- E.
    rewrite H2. cbn [obind].
    destruct before as [| b3 before]; cbn [app] in E.
    { injection E as <- _. rewrite Hv. reflexivity. }
    apply Forall_cons_iff in Hb as [[t3 H3] Hb]. injection E as <- E.
    rewrite H3. cbn [obind].
    destruct before as [| b4 before]; cbn [app] in E.
    { injection E as <- _. rewrite Hv. reflexivity. }
    destruct before; discriminate.
Qed.

Lemma bind_text_raises (v : json) (e : exn) :
  bind_text v = Some (Raise e)
  <-> (e = ProgrammingError
       /\ ((exists l, v = JList l) \/ exists d, v = JDict d))
      \/ (e = OverflowError
          /\ exists n, v = JInt n /\ (n < - 2 ^ 63 \/ 2 ^ 63 <= n)).
Proof.
  split.
  - destruct v as [| b | n | [[q | negative] |] | t | l | d];
      cbn [bind_text]; intro H; try discriminate.
    + destruct (_ <=? n) eqn:E1; cbn [andb] in H;
        [destruct (n <? _) eqn:E2; [discriminate |] |];
        injection H as <-; right; (split; [reflexivity |]); exists n;
        (split; [reflexivity |]); lia.
    + injection H as <-. left. eauto.
    + injection H as <-. left. eauto.
  - intros [[-> [[l ->] | [d ->]]] | [-> (n & -> & Hn)]];
      cbn [bind_text]; try reflexivity.
    destruct (_ <=? n) eqn:E1; cbn [andb];
      [destruct (n <? _) eqn:E2; [lia |] |]; reflexivity.
Qed.

(** X14.  [import_json] raises [AttributeError] exactly when the document
    is not a mapping, or its title is present and not a string, or its
    [time] is present and not a mapping.  Any other exception comes from
    binding the TEXT parameters [uid], [description], [refresh] and
    [time.from] in this order: the first of them that is a list or a
    mapping raises [ProgrammingError], or that is an integer outside 64
    bits raises [OverflowError].  The store plays no part: a conflict on
    id or uid never makes the import fail. *)
Theorem import_json_raises (s : store) (doc : json) (now : datetime)
    (e : exn) :
  let shape_error :=
    (forall data, doc <> JDict data)
    \/ exists data,
         doc = JDict data
         /\ ((exists v, dict_lookup "title" data = Some v
                        /\ forall t, v <> JStr t)
             \/ (exists v, dict_lookup "time" data = Some v
                           /\ forall t, v <> JDict t)) in
  let bind_error :=
    exists data title time before v after,
      doc = JDict data
      /\ dict_get data "title" (JStr EmptyString) = JStr title
      /\ dict_get data "time" (JDict []) = JDict time
      /\ [dict_get data "uid" (JStr (md5_8 title));
          dict_get data "description" (JStr EmptyString);
          dict_get data "refresh" (JStr "30s");
          dict_get time "from" (JStr "1h")] = before ++ v :: after
      /\ Forall (fun c => exists t, bind_text c = Some (Ok t)) before
      /\ ((e = ProgrammingError
           /\ ((exists l, v = JList l) \/ exists d, v = JDict d))
          \/ (e = OverflowError
              /\ exists n, v = JInt n /\ (n < - 2 ^ 63 \/ 2 ^ 63 <= n))) in
  (import_json s doc now = Some (Raise e)
   <-> (e = AttributeError /\ shape_error) \/ bind_error)
  /\ (import_json s doc now = Some (Raise AttributeError) <-> shape_error)
  /\ (import_json s doc now = Some (Raise e)
      <-> import_json init_db doc now = Some (Raise e)).
Proof.
  intros shape_error bind_error.
  assert (Hshape : forall s0 e0,
            import_json s0 doc now = Some (Raise e0) ->
            (e0 = AttributeError /\ shape_error)
            \/ exists data title time,
                 doc = JDict data
                 /\ dict_get data "title" (JStr EmptyString) = JStr title
                 /\ dict_get data "time" (JDict []) = JDict time
                 /\ exists before v after,
                      [dict_get data "uid" (JStr (md5_8 title));
                       dict_get data "description" (JStr EmptyString);
                       dict_get data "refresh" (JStr "30s");
                       dict_get time "from" (JStr "1h")]
                      = before ++ v :: after
                      /\ Forall (fun c => exists t, bind_text c = Some (Ok t))
                           before
                      /\ bind_text v = Some (Raise e0)).
  { intros s0 e0 H. unfold import_json in H. unfold shape_error.
    destruct doc as [| | | | | | data];
      try (injection H as <-; left; split; [reflexivity |]; left; intro;
           discriminate).
    destruct (dict_get data "title" (JStr EmptyString))
      as [| | | | title | |] eqn:Et;
      try (injection H as <-; left; split; [reflexivity |]; right;
           exists data; split; [reflexivity |]; left; unfold dict_get in Et;
           destruct (dict_lookup "title" data) as [v |];
           [| discriminate]; exists v; split; [reflexivity |];
           intros t ->; discriminate).
    destruct (dict_get data "time" (JDict []))
      as [| | | | | | time] eqn:Etime;
      try (injection H as <-; left; split; [reflexivity |]; right;
           exists data; split; [reflexivity |]; right;
           unfold dict_get in Etime;
           destruct (dict_lookup "time" data) as [v |];
           [| discriminate]; exists v; split; [reflexivity |];
           intros t ->; discriminate).
    right. exists data, title, time. repeat split; try assumption.
    cbn [d_uid d_description d_refresh_interval d_time_range d_tags] in H.
    apply bind_chain_raises in H. exact H. }
  assert (Hback_shape : forall s0,
            shape_error -> import_json s0 doc now = Some (Raise AttributeError)).
  { intros s0 [Hnd | (data & -> & Hbad)]; unfold import_json.
    - destruct doc as [| | | | | | data]; try reflexivity.
      exfalso. exact (Hnd data eq_refl).
    - unfold dict_get.
      destruct Hbad as [(v & Ev & Hv) | (v & Ev & Hv)]; rewrite Ev.
      + destruct v as [| | | | title | |]; try reflexivity.
        exfalso. exact (Hv title eq_refl).
      + destruct (dict_lookup "title" data) as [w |].
        * destruct w as [| | | | title | |]; try reflexivity.
          destruct v as [| | | | | | time]; try reflexivity.
          exfalso. exact (Hv time eq_refl).
        * destruct v as [| | | | | | time]; try reflexivity.
          exfalso. exact (Hv time eq_refl). }
  assert (Hback_bind : forall s0,
            bind_error -> import_json s0 doc now = Some (Raise e)).
  { intros s0 (data & title & time & before & v & after & -> & Et & Etime
               & Ecells & Hb & Hv).
    unfold import_json. rewrite Et, Etime.
    cbn [d_uid d_description d_refresh_interval d_time_range d_tags].
    apply bind_chain_raises. exists before, v, after.
    split; [exact Ecells |]. split; [exact Hb |].
    apply bind_text_raises, Hv. }
  assert (Hmain : forall s0,
            import_json s0 doc now = Some (Raise e)
            <-> (e = AttributeError /\ shape_error) \/ bind_error).
  { intro s0. split.
    - intro H. apply Hshape in H as [H | H]; [left; exact H |].
      right. destruct H as (data & title & time & Ed & Et & Etime & before
                            & v & after & Ecells & Hb & Hv).
      exists data, title, time, before, v, after.
      repeat (split; [assumption |]). apply bind_text_raises, Hv.
    - intros [[-> Hs] | Hb]; [apply Hback_shape, Hs | apply Hback_bind, Hb]. }
  split; [apply Hmain |]. split.
  - split; [| apply Hback_shape].
    intro H. apply Hshape in H as [[_ H] | H]; [exact H |].
    destruct H as (_ & _ & _ & _ & _ & _ & _ & v & _ & _ & _ & Hv).
    apply bind_text_raises in Hv as [[Hv _] | [Hv _]]; discriminate.
  - rewrite (Hmain s), (Hmain init_db). reflexivity.
Qed.

Lemma import_json_raises_witness :
  import_json store_dash (JList []) (tick 9) = Some (Raise AttributeError)
  /\ import_json store_dash (JDict [("title"%string, JInt 5)]) (tick 9)
     = Some (Raise AttributeError)
  /\ import_json store_dash
       (JDict [("title"%string, JStr "T"); ("uid"%string, JList [])])
       (tick 9)
     = Some (Raise ProgrammingError).
Proof.
  split; [| split].
  - apply (proj1 (proj2 (import_json_raises store_dash (JList []) (tick 9)
                           AttributeError))).
    left. intro data. discriminate.
  - apply (proj1 (proj2 (import_json_raises store_dash _ (tick 9)
                           AttributeError))).
    right. eexists. split; [reflexivity |].
    left. eexists. split; [reflexivity |]. intro t. discriminate.
  - apply (proj1 (import_json_raises store_dash _ (tick 9) ProgrammingError)).
    right.
    exists [("title"%string, JStr "T"); ("uid"%string, JList [])],
      "T"%string, [], [], (JList []),
      [JStr EmptyString; JStr "30s"; JStr "1h"].
    split; [reflexivity |]. split; [reflexivity |]. split; [reflexivity |].
    split; [reflexivity |]. split; [constructor |].
    left. split; [reflexivity |]. left. exists []. reflexivity.
Defined.

Lemma filter_idem {A : Type} (keep : A -> bool) (l : list A) :
  filter keep (filter keep l) = filter keep l.
Proof.
  induction l as [| x rest IH]; cbn [filter]; [reflexivity |].
  destruct (keep x) eqn:E; [| exact IH].
  cbn [filter]. rewrite E, IH. reflexivity.
Qed.

Lemma insert_or_replace_twice (s : store) (new new' : dash_row) :
  r_id new' = r_id new -> r_uid new' = r_uid new ->
  insert_or_replace (insert_or_replace s new) new'
  = insert_or_replace s new'.
Proof.
  intros Eid Euid. unfold insert_or_replace. cbn [dashboards metrics].
  f_equal. rewrite filter_app. cbn [filter].
  assert (Hnew : negb (conflicts new' new) = false).
  { unfold conflicts. rewrite Eid, String.eqb_refl. reflexivity. }
  rewrite Hnew, app_nil_r. f_equal.
  rewrite (filter_ext (fun r => negb (conflicts new r))
             (fun r => negb (conflicts new' r))).
  - apply filter_idem.
  - intro r. unfold conflicts. rewrite Eid, Euid. reflexivity.
Qed.

(** X15.  Importing a document a second time is the same as importing it
    once at the later instant: the dashboard is replaced, not duplicated,
    and with the same instant the second import changes nothing. *)
Theorem import_json_twice (s s1 : store) (d1 : Dashboard) (doc : json)
    (now now' : datetime) :
  import_json s doc now = Some (Ok (s1, d1)) ->
  import_json s1 doc now' = import_json s doc now'
  /\ (exists s2 d2,
        import_json s1 doc now' = Some (Ok (s2, d2))
        /\ d_id d2 = d_id d1
        /\ List.length (dashboards s2) = List.length (dashboards s1))
  /\ import_json s1 doc now = Some (Ok (s1, d1)).
Proof.
  unfold import_json. intro H.
  destruct doc as [| | | | | | data]; try discriminate.
  destruct (dict_get data "title" _) as [| | | | title | |];
    try discriminate.
  destruct (dict_get data "time" _) as [| | | | | | time]; try discriminate.
  cbn [d_uid d_description d_refresh_interval d_time_range d_tags] in *.
  destruct (bind_text (dict_get data "uid" _)) as [[uid | ?] |];
    try discriminate.
  destruct (bind_text (dict_get data "description" _)) as [[desc | ?] |];
    try discriminate.
  destruct (bind_text (dict_get data "refresh" _)) as [[refresh | ?] |];
    try discriminate.
  destruct (bind_text (dict_get time "from" _)) as [[tr | ?] |];
    try discriminate.
  cbn [obind] in *. injection H as <- <-.
  assert (Hk : forall t t',
            insert_or_replace
              (insert_or_replace s
                 (mk_dash_row (md5_8 title) uid title desc
                    (dict_get data "tags" (JList []))
                    (dict_get data "panels" (JList []))
                    (dict_get data "variables" (JList []))
                    refresh tr t))
              (mk_dash_row (md5_8 title) uid title desc
                 (dict_get data "tags" (JList []))
                 (dict_get data "panels" (JList []))
                 (dict_get data "variables" (JList []))
                 refresh tr t')
            = insert_or_replace s
                (mk_dash_row (md5_8 title) uid title desc
                   (dict_get data "tags" (JList []))
                   (dict_get data "panels" (JList []))
                   (dict_get data "variables" (JList []))
                   refresh tr t')).
  { intros t t'. apply insert_or_replace_twice; reflexivity. }
  split; [| split].
  - rewrite (Hk (isoformat now) (isoformat now')). reflexivity.
  - eexists; eexists. split; [reflexivity |]. split; [reflexivity |].
    rewrite (Hk (isoformat now) (isoformat now')).
    unfold insert_or_replace. cbn [dashboards]. rewrite !length_app.
    reflexivity.
  - rewrite (Hk (isoformat now) (isoformat now)). reflexivity.
Qed.

Lemma import_json_twice_witness :
  let doc := JDict [("title"%string, JStr "T")] in
  let d1 := mk_Dashboard (md5_8 "T") (JStr (md5_8 "T")) "T"
              (JStr EmptyString) (JList []) [] [] (JStr "30s") (JStr "1h")
              (tick 8) in
  let s1 := insert_or_replace store_dash
              (mk_dash_row (md5_8 "T") (Some (md5_8 "T")) "T"
                 (Some EmptyString) (JList []) (JList []) (JList [])
                 (Some "30s"%string) (Some "1h"%string)
                 (isoformat (tick 8))) in
  import_json s1 doc (tick 8) = Some (Ok (s1, d1)).
Proof.
  intros doc d1 s1.
  exact (proj2 (proj2 (import_json_twice store_dash s1 d1 doc (tick 8)
                         (tick 8) eq_refl))).
Defined.

Lemma NoDup_map_inj_on {A B : Type} (f : A -> B) (l : list A) (a b : A) :
  NoDup (map f l) -> In a l -> In b l -> f a = f b -> a = b.
Proof.
  induction l as [| x rest IH]; intros Hnd Ha Hb E; [destruct Ha |].
  cbn [map] in Hnd. apply NoDup_cons_iff in Hnd as [Hx Hnd].
  destruct Ha as [-> | Ha], Hb as [-> | Hb].
  - reflexivity.
  - exfalso. apply Hx. rewrite E. apply in_map, Hb.
  - exfalso. apply Hx. rewrite <- E. apply in_map, Ha.
  - apply IH; assumption.
Qed.

Lemma filter_length_lt {A : Type} (keep : A -> bool) (l : list A) (x : A) :
  In x l -> keep x = false ->
  (List.length (filter keep l) < List.length l)%nat.
Proof.
  induction l as [| y rest IH]; intros Hin Hx; [destruct Hin |].
  cbn [filter List.length].
  pose proof (filter_length_le keep rest) as Hle.
  destruct Hin as [-> | Hin].
  - rewrite Hx. lia.
  - specialize (IH Hin Hx). destruct (keep y); cbn [List.length]; lia.
Qed.

Lemma find_kept (rows : list dash_row) (new row : dash_row) (id : string) :
  find (fun r => String.eqb (r_id r) id) rows = Some row ->
  conflicts new row = false ->
  find (fun r => String.eqb (r_id r) id)
    (filter (fun r => negb (conflicts new r)) rows ++ [new])
  = Some row.
Proof.
  intros Hf Hc. induction rows as [| r rest IH]; [discriminate |].
  cbn [find] in Hf. cbn [filter].
  destruct (String.eqb (r_id r) id) eqn:Er.
  - injection Hf as ->. rewrite Hc. cbn [negb app find]. rewrite Er.
    reflexivity.
  - destruct (conflicts new r); cbn [negb app find]; [apply IH, Hf |].
    rewrite Er. apply IH, Hf.
Qed.

(** X16.  Exporting a stored dashboard that has a time range and importing
    the document stores the dashboard again under the id [md5(title)[:8]]:
    that id then resolves to a row with the exported columns, the time
    range prefixed with [now-] and the instant of the import.  When the
    exported row has a uid it is deleted through the uid conflict, so
    unless the old id already was that fingerprint it no longer resolves
    and the table does not grow; when its uid is NULL nothing conflicts
    and the old id still resolves to the old row. *)
Theorem round_trip_moves_id (s : store) (dashboard_id : string)
    (row : dash_row) (time_range : string) (now : datetime) :
  NoDup (map r_id (dashboards s)) ->
  find_dashboard s dashboard_id = Some row ->
  r_time_range row = Some time_range ->
  exists doc s' d,
    export_json s dashboard_id = Ok doc
    /\ import_json s doc now = Some (Ok (s', d))
    /\ d_id d = md5_8 (r_title row)
    /\ find_dashboard s' (md5_8 (r_title row))
       = Some (mk_dash_row (md5_8 (r_title row)) (r_uid row) (r_title row)
                 (r_description row) (r_tags row) (r_panels row)
                 (r_variables row) (r_refresh_interval row)
                 (Some ("now-" ++ time_range)%string) (isoformat now))
    /\ (dashboard_id <> md5_8 (r_title row) ->
        find_dashboard s' dashboard_id
        = match r_uid row with Some _ => None | None => Some row end)
    /\ (List.length (dashboards s')
        <= match r_uid row with
           | Some _ => List.length (dashboards s)
           | None => S (List.length (dashboards s))
           end)%nat.
Proof.
  intros Hnd Hf Ht.
  destruct (import_exported_row s row dashboard_id time_range now Hf Ht)
    as (doc & Hexp & _ & Himp).
  set (new := mk_dash_row (md5_8 (r_title row)) (r_uid row) (r_title row)
                (r_description row) (r_tags row) (r_panels row)
                (r_variables row) (r_refresh_interval row)
                (Some ("now-" ++ time_range)%string) (isoformat now)) in *.
  exists doc. eexists; eexists. split; [exact Hexp |].
  split; [exact Himp |]. split; [reflexivity |].
  split; [exact (find_after_replace s new) |].
  pose proof (find_dashboard_id _ _ _ Hf) as Hid.
  assert (Hin : In row (dashboards s)).
  { unfold find_dashboard in Hf. apply find_some in Hf as [Hin _].
    exact Hin. }
  split.
  - intro Hne. destruct (r_uid row) as [uid |] eqn:Eu.
    + assert (Hc : conflicts new row = true).
      { unfold conflicts. cbn [r_uid new]. rewrite Eu, String.eqb_refl.
        apply orb_true_r. }
      unfold find_dashboard, insert_or_replace. cbn [dashboards].
      destruct (find _ _) as [r |] eqn:Ef; [| reflexivity].
      exfalso. apply find_some in Ef as [Hr Er]. apply String.eqb_eq in Er.
      apply in_app_or in Hr as [Hr | [<- | []]].
      * apply filter_In in Hr as [Hr Hk].
        assert (r = row).
        { apply (NoDup_map_inj_on r_id (dashboards s)); try assumption.
          congruence. }
        subst r. rewrite Hc in Hk. discriminate.
      * cbn [r_id new] in Er. congruence.
    + assert (Hc : conflicts new row = false).
      { unfold conflicts. cbn [r_uid r_id new]. rewrite Eu, Hid.
        apply String.eqb_neq in Hne. rewrite Hne. reflexivity. }
      unfold find_dashboard, insert_or_replace. cbn [dashboards].
      apply find_kept; assumption.
  - unfold insert_or_replace. cbn [dashboards]. rewrite length_app.
    cbn [List.length].
    destruct (r_uid row) as [uid |] eqn:Eu.
    + assert (Hc : conflicts new row = true).
      { unfold conflicts. cbn [r_uid new]. rewrite Eu, String.eqb_refl.
        apply orb_true_r. }
      pose proof (filter_length_lt (fun r => negb (conflicts new r))
                    (dashboards s) row Hin) as Hlt.
      cbv beta in Hlt. rewrite Hc in Hlt. specialize (Hlt eq_refl). lia.
    + pose proof (filter_length_le (fun r => negb (conflicts new r))
                    (dashboards s)) as Hle.
      lia.
Qed.

Lemma round_trip_moves_id_witness :
  exists doc s' d row',
    export_json store_dash sample_id = Ok doc
    /\ import_json store_dash doc (tick 9) = Some (Ok (s', d))
    /\ d_id d = md5_8 "Test Dashboard"
    /\ find_dashboard s' (md5_8 "Test Dashboard") = Some row'
    /\ r_title row' = "Test Dashboard"%string
    /\ r_time_range row' = Some "now-1h"%string
    /\ find_dashboard s' sample_id = None.
Proof.
  assert (Hf : find_dashboard store_dash sample_id = Some sample_row)
    by (vm_compute; reflexivity).
  assert (Hnd : NoDup (map r_id (dashboards store_dash)))
    by (constructor; [intros [] | constructor]).
  destruct (round_trip_moves_id store_dash sample_id sample_row "1h"
              (tick 9) Hnd Hf eq_refl)
    as (doc & s' & d & He & Hi & Hd & Hnew & Hgone & _).
  exists doc, s', d. eexists.
  split; [exact He |]. split; [exact Hi |]. split; [exact Hd |].
  split; [exact Hnew |]. split; [reflexivity |]. split; [reflexivity |].
  apply Hgone. vm_compute. discriminate.
Defined.

(** ** Timestamp text and chronological order *)

Lemma lex_assoc (c1 c2 c3 : comparison) :
  lex (lex c1 c2) c3 = lex c1 (lex c2 c3).
Proof. destruct c1; reflexivity. Qed.

Lemma digit_cons_value (k : N) (d : Decimal.uint) :
  (k < 10)%N ->
  DecimalPos.Unsigned.of_lu (digit_cons k d)
  = (k + 10 * DecimalPos.Unsigned.of_lu d)%N.
Proof.
  intro Hk.
  assert (H : (k = 0 \/ k = 1 \/ k = 2 \/ k = 3 \/ k = 4 \/ k = 5 \/ k = 6
               \/ k = 7 \/ k = 8 \/ k = 9)%N) by lia.
  repeat (destruct H as [-> | H]; [reflexivity |]). subst k. reflexivity.
Qed.

Lemma digit_cons_string (k : N) (d : Decimal.uint) :
  (k < 10)%N ->
  NilEmpty.string_of_uint (digit_cons k d)
  = String (digit_char k) (NilEmpty.string_of_uint d).
Proof.
  intro Hk.
  assert (H : (k = 0 \/ k = 1 \/ k = 2 \/ k = 3 \/ k = 4 \/ k = 5 \/ k = 6
               \/ k = 7 \/ k = 8 \/ k = 9)%N) by lia.
  repeat (destruct H as [-> | H]; [reflexivity |]). subst k. reflexivity.
Qed.

Lemma low_digits_value (w : nat) (n : N) :
  (n < 10 ^ N.of_nat w)%N ->
  DecimalPos.Unsigned.of_lu (low_digits w n) = n.
Proof.
  revert n. induction w as [| w IH]; intros n Hn; cbn [low_digits].
  - cbn in Hn. cbn. lia.
  - rewrite Nat2N.inj_succ, N.pow_succ_r' in Hn.
    rewrite digit_cons_value by (apply N.mod_lt; lia).
    rewrite IH.
    + pose proof (N.div_mod n 10 ltac:(lia)). lia.
    + apply N.Div0.div_lt_upper_bound. exact Hn.
Qed.

Lemma string_of_revapp (l acc : Decimal.uint) :
  NilEmpty.string_of_uint (Decimal.revapp l acc)
  = (NilEmpty.string_of_uint (Decimal.rev l)
     ++ NilEmpty.string_of_uint acc)%string.
Proof.
  unfold Decimal.rev. revert acc.
  induction l as [| l IH | l IH | l IH | l IH | l IH | l IH | l IH | l IH
                  | l IH | l IH]; intro acc; cbn [Decimal.revapp];
    [reflexivity | ..];
    rewrite IH, (IH (_ Decimal.Nil)), string_app_assoc; reflexivity.
Qed.

Lemma fixed_low_digits (w : nat) (n : N) :
  fixed w n = NilEmpty.string_of_uint (Decimal.rev (low_digits w n)).
Proof.
  revert n. induction w as [| w IH]; intro n; cbn [fixed low_digits].
  - reflexivity.
  - rewrite IH.
    assert (Hk : (n mod 10 < 10)%N) by (apply N.mod_lt; lia).
    set (k := (n mod 10)%N) in *. set (l := low_digits w (n / 10)%N).
    assert (E : Decimal.rev (digit_cons k l)
                = Decimal.revapp l (digit_cons k Decimal.Nil)).
    { assert (H : (k = 0 \/ k = 1 \/ k = 2 \/ k = 3 \/ k = 4 \/ k = 5
                   \/ k = 6 \/ k = 7 \/ k = 8 \/ k = 9)%N) by lia.
      repeat (destruct H as [-> | H]; [reflexivity |]).
      subst k. rewrite H. reflexivity. }
    rewrite E, string_of_revapp, digit_cons_string by exact Hk.
    reflexivity.
Qed.

Lemma string_length_app (a b : string) :
  String.length (a ++ b) = (String.length a + String.length b)%nat.
Proof.
  induction a as [| c a IH]; cbn [append String.length]; [reflexivity |].
  rewrite IH. reflexivity.
Qed.

Lemma string_app_nil_r (a : string) : (a ++ EmptyString)%string = a.
Proof.
  induction a as [| c a IH]; cbn [append]; [reflexivity |].
  rewrite IH. reflexivity.
Qed.

Lemma fixed_length (w : nat) (n : N) : String.length (fixed w n) = w.
Proof.
  revert n. induction w as [| w IH]; intro n; cbn [fixed]; [reflexivity |].
  rewrite string_length_app, IH. cbn. lia.
Qed.

Lemma zeros_succ (k : nat) (s : string) :
  (zeros (S k) ++ s)%string = String "0"%char (zeros k ++ s).
Proof. reflexivity. Qed.

(** Stripping the leading zeros and padding back gives the digits. *)
Lemma pad_unorm (d : Decimal.uint) :
  d <> Decimal.Nil ->
  (String.length (NilEmpty.string_of_uint (Decimal.unorm d))
   <= String.length (NilEmpty.string_of_uint d))%nat
  /\ (zeros (String.length (NilEmpty.string_of_uint d)
             - String.length (NilEmpty.string_of_uint (Decimal.unorm d)))
      ++ NilEmpty.string_of_uint (Decimal.unorm d))%string
     = NilEmpty.string_of_uint d.
Proof.
  induction d as [| d IH | d _ | d _ | d _ | d _ | d _ | d _ | d _ | d _
                  | d _]; intro Hne; [congruence | ..];
    try (unfold Decimal.unorm; cbn [Decimal.nzhead];
         split; [lia | rewrite Nat.sub_diag; reflexivity]).
  change (Decimal.unorm (Decimal.D0 d)) with (Decimal.unorm d).
  cbn [NilEmpty.string_of_uint String.length].
  destruct d as [| d' | d' | d' | d' | d' | d' | d' | d' | d' | d'] eqn:Ed;
    [split; [cbn; lia | reflexivity] | ..];
    rewrite <- Ed in *;
    (destruct IH as [Hle Hpad]; [rewrite Ed; discriminate |]);
    (split; [lia |]);
    (replace (S (String.length (NilEmpty.string_of_uint d))
              - String.length (NilEmpty.string_of_uint (Decimal.unorm d)))%nat
       with (S (String.length (NilEmpty.string_of_uint d)
                - String.length
                    (NilEmpty.string_of_uint (Decimal.unorm d))))%nat
       by lia);
    rewrite zeros_succ, Hpad; reflexivity.
Qed.

(** [fmt_d] writes exactly [w] digits when the number has no more. *)
Lemma fmt_d_fixed (w : nat) (n : N) :
  (0 < w)%nat -> (n < 10 ^ N.of_nat w)%N -> fmt_d w n = fixed w n.
Proof.
  intros Hw Hn. unfold fmt_d.
  set (d := Decimal.rev (low_digits w n)).
  assert (Hstr : NilEmpty.string_of_uint d = fixed w n)
    by (symmetry; apply fixed_low_digits).
  assert (Hlen : String.length (NilEmpty.string_of_uint d) = w)
    by (rewrite Hstr; apply fixed_length).
  assert (Hd : d <> Decimal.Nil).
  { intro E. rewrite E in Hlen. cbn in Hlen. lia. }
  assert (Hto : N.to_uint n = Decimal.unorm d).
  { rewrite <- (DecimalN.Unsigned.to_of d). f_equal.
    unfold N.of_uint, d. rewrite DecimalPos.Unsigned.of_lu_rev.
    symmetry. apply low_digits_value, Hn. }
  rewrite Hto. destruct (pad_unorm d Hd) as [_ Hpad].
  rewrite Hlen in Hpad. rewrite Hpad. exact Hstr.
Qed.

Lemma digit_char_compare (a b : N) :
  (a < 10)%N -> (b < 10)%N ->
  Ascii.compare (digit_char a) (digit_char b) = N.compare a b.
Proof.
  intros Ha Hb. unfold Ascii.compare, digit_char.
  rewrite !N_ascii_embedding by lia.
  destruct (N.compare_spec a b) as [E | L | G];
    [apply N.compare_eq_iff | apply N.compare_lt_iff
     | apply N.compare_gt_iff]; lia.
Qed.

Lemma compare_div_mod (a b : N) :
  N.compare a b
  = lex (N.compare (a / 10) (b / 10)) (N.compare (a mod 10) (b mod 10)).
Proof.
  pose proof (N.div_mod a 10 ltac:(lia)) as Ea.
  pose proof (N.div_mod b 10 ltac:(lia)) as Eb.
  pose proof (N.mod_lt a 10 ltac:(lia)) as Ha.
  pose proof (N.mod_lt b 10 ltac:(lia)) as Hb.
  unfold lex.
  generalize dependent (a / 10)%N. generalize dependent (a mod 10)%N.
  generalize dependent (b / 10)%N. generalize dependent (b mod 10)%N.
  intros rb Hb qb Eb ra Ha qa Ea.
  destruct (N.compare_spec qa qb) as [E | L | G];
    destruct (N.compare_spec ra rb) as [E' | L' | G'];
    try (apply N.compare_eq_iff; lia);
    try (apply N.compare_lt_iff; lia);
    try (apply N.compare_gt_iff; lia).
Qed.

(** Fixed-width decimal text compares as the numbers do. *)
Lemma fixed_compare (w : nat) (a b : N) (x y : string) :
  (a < 10 ^ N.of_nat w)%N -> (b < 10 ^ N.of_nat w)%N ->
  String.compare (fixed w a ++ x) (fixed w b ++ y)
  = lex (N.compare a b) (String.compare x y).
Proof.
  revert a b x y. induction w as [| w IH]; intros a b x y Ha Hb;
    cbn [fixed].
  - cbn in Ha, Hb. assert (a = 0%N) by lia. assert (b = 0%N) by lia.
    subst. reflexivity.
  - rewrite Nat2N.inj_succ, N.pow_succ_r' in Ha, Hb.
    rewrite !string_app_assoc. unfold str1. cbn [append].
    rewrite IH by (apply N.Div0.div_lt_upper_bound; assumption).
    cbn [String.compare].
    rewrite digit_char_compare by (apply N.mod_lt; lia).
    rewrite (compare_div_mod a b), lex_assoc.
    f_equal. unfold lex. destruct (N.compare (a mod 10) (b mod 10));
      reflexivity.
Qed.

Lemma compare_same_head (c : ascii) (x y : string) :
  String.compare (String c x) (String c y) = String.compare x y.
Proof.
  cbn [String.compare]. unfold Ascii.compare. rewrite N.compare_refl.
  reflexivity.
Qed.

Lemma isoformat_fixed (d : datetime) :
  datetime_valid d ->
  isoformat d
  = (fixed 4 (year d) ++ "-" ++ fixed 2 (month d) ++ "-" ++ fixed 2 (day d)
     ++ "T" ++ fixed 2 (hour d) ++ ":" ++ fixed 2 (minute d) ++ ":"
     ++ fixed 2 (second d)
     ++ (if N.eqb (microsecond d) 0 then EmptyString
         else "." ++ fixed 6 (microsecond d)))%string.
Proof.
  intros (Hy & Hm & Hd & Hh & Hmi & Hs & Hus). unfold isoformat.
  rewrite (fmt_d_fixed 4 (year d)), (fmt_d_fixed 2 (month d)),
    (fmt_d_fixed 2 (day d)), (fmt_d_fixed 2 (hour d)),
    (fmt_d_fixed 2 (minute d)), (fmt_d_fixed 2 (second d)),
    (fmt_d_fixed 6 (microsecond d));
    try reflexivity; try (cbn; lia).
Qed.

(** The order of the [isoformat] texts is the order of the instants. *)
Lemma isoformat_compare (d1 d2 : datetime) :
  datetime_valid d1 -> datetime_valid d2 ->
  String.compare (isoformat d1) (isoformat d2) = datetime_compare d1 d2.
Proof.
  intros H1 H2.
  rewrite (isoformat_fixed d1 H1), (isoformat_fixed d2 H2).
  destruct H1 as (Hy1 & Hm1 & Hd1 & Hh1 & Hmi1 & Hs1 & Hus1).
  destruct H2 as (Hy2 & Hm2 & Hd2 & Hh2 & Hmi2 & Hs2 & Hus2).
  unfold datetime_compare.
  rewrite fixed_compare by (cbn; lia). f_equal.
  cbn [append]. rewrite compare_same_head.
  rewrite fixed_compare by (cbn; lia). f_equal.
  cbn [append]. rewrite compare_same_head.
  rewrite fixed_compare by (cbn; lia). f_equal.
  cbn [append]. rewrite compare_same_head.
  rewrite fixed_compare by (cbn; lia). f_equal.
  cbn [append]. rewrite compare_same_head.
  rewrite fixed_compare by (cbn; lia). f_equal.
  cbn [append]. rewrite compare_same_head.
  rewrite fixed_compare by (cbn; lia). f_equal.
  destruct (N.eqb_spec (microsecond d1) 0) as [E1 | N1];
    destruct (N.eqb_spec (microsecond d2) 0) as [E2 | N2].
  - rewrite E1, E2. reflexivity.
  - rewrite E1. cbn [append String.compare].
    symmetry. apply N.compare_lt_iff. lia.
  - rewrite E2. cbn [append String.compare].
    symmetry. apply N.compare_gt_iff. lia.
  - cbn [append]. rewrite compare_same_head.
    rewrite <- (string_app_nil_r (fixed 6 (microsecond d1))),
      <- (string_app_nil_r (fixed 6 (microsecond d2))).
    rewrite fixed_compare by (cbn; lia).
    cbn [String.compare]. unfold lex.
    destruct (N.compare (microsecond d1) (microsecond d2)); reflexivity.
Qed.

Lemma string_compare_refl (s : string) : String.compare s s = Eq.
Proof.
  destruct (String.compare s s) eqn:Ec; [reflexivity | |];
    pose proof (String.compare_antisym s s) as Ha;
    rewrite Ec in Ha; discriminate.
Qed.

Lemma datetime_compare_eq (d1 d2 : datetime) :
  datetime_compare d1 d2 = Eq -> d1 = d2.
Proof.
  unfold datetime_compare, lex.
  destruct d1 as [y1 m1 dd1 h1 mi1 s1 us1], d2 as [y2 m2 dd2 h2 mi2 s2 us2].
  cbn [year month day hour minute second microsecond]. intro Hc.
  destruct (N.compare_spec y1 y2); try discriminate.
  destruct (N.compare_spec m1 m2); try discriminate.
  destruct (N.compare_spec dd1 dd2); try discriminate.
  destruct (N.compare_spec h1 h2); try discriminate.
  destruct (N.compare_spec mi1 mi2); try discriminate.
  destruct (N.compare_spec s1 s2); try discriminate.
  destruct (N.compare_spec us1 us2); try discriminate.
  subst. reflexivity.
Qed.

Lemma isoformat_leb (d1 d2 : datetime) :
  datetime_valid d1 -> datetime_valid d2 ->
  String.leb (isoformat d1) (isoformat d2) = true
  <-> datetime_compare d1 d2 <> Gt.
Proof.
  intros H1 H2. unfold String.leb. rewrite (isoformat_compare d1 d2 H1 H2).
  destruct (datetime_compare d1 d2); split; congruence.
Qed.

Lemma isoformat_earlier (d1 d2 : datetime) :
  datetime_valid d1 -> datetime_valid d2 -> datetime_compare d1 d2 = Lt ->
  String.leb (isoformat d1) (isoformat d2) = true
  /\ String.leb (isoformat d2) (isoformat d1) = false
  /\ isoformat d1 <> isoformat d2.
Proof.
  intros H1 H2 Hlt.
  pose proof (isoformat_compare d1 d2 H1 H2) as Hc. rewrite Hlt in Hc.
  pose proof (String.compare_antisym (isoformat d2) (isoformat d1)) as Ha.
  rewrite Hc in Ha. unfold String.leb. rewrite Hc, Ha.
  split; [reflexivity |]. split; [reflexivity |].
  intro E. rewrite E, string_compare_refl in Hc. discriminate.
Qed.

(** X17.  On datetimes within the field ranges, the order of the
    [isoformat] texts, by which the timestamp column is sorted and
    compared, is the chronological order, whether or not the microsecond
    part is printed, and two instants print alike only when they are the
    same instant. *)
Theorem isoformat_order (d1 d2 : datetime) :
  datetime_valid d1 -> datetime_valid d2 ->
  String.compare (isoformat d1) (isoformat d2) = datetime_compare d1 d2
  /\ (isoformat d1 = isoformat d2 -> d1 = d2).
Proof.
  intros H1 H2. split; [exact (isoformat_compare d1 d2 H1 H2) |].
  intro E. apply datetime_compare_eq.
  rewrite <- (isoformat_compare d1 d2 H1 H2), E. apply string_compare_refl.
Qed.

Lemma isoformat_order_witness :
  String.compare (isoformat (tick 5)) (isoformat instant_b)
  = datetime_compare (tick 5) instant_b
  /\ (isoformat (tick 5) = isoformat instant_b -> tick 5 = instant_b).
Proof.
  apply (isoformat_order (tick 5) instant_b);
    unfold datetime_valid; cbn; lia.
Defined.

(** ** Pushes and queries in chronological terms *)

Section SortTail.
Context {A : Type} (leb : A -> A -> bool).

Lemma insert_sorted_before_last (y x : A) (l : list A) :
  leb y x = true ->
  insert_sorted leb y (l ++ [x]) = insert_sorted leb y l ++ [x].
Proof.
  intro Hyx. induction l as [| z l IH]; cbn [app insert_sorted].
  - rewrite Hyx. reflexivity.
  - destruct (leb y z); [reflexivity |]. rewrite IH. reflexivity.
Qed.

(** An element appended last that no other exceeds stays last. *)
Lemma sort_by_snoc_last (l : list A) (x : A) :
  (forall y, In y l -> leb y x = true) ->
  sort_by leb (l ++ [x]) = sort_by leb l ++ [x].
Proof.
  induction l as [| y l IH]; intro H; cbn [app sort_by]; [reflexivity |].
  rewrite IH by (intros z Hz; apply H; right; exact Hz).
  apply insert_sorted_before_last. apply H. left. reflexivity.
Qed.

(** An element appended last that precedes every other comes first. *)
Lemma sort_by_snoc_first (l : list A) (x : A) :
  (forall y, In y l -> leb y x = false) ->
  sort_by leb (l ++ [x]) = x :: sort_by leb l.
Proof.
  induction l as [| y l IH]; intro H; cbn [app sort_by]; [reflexivity |].
  rewrite IH by (intros z Hz; apply H; right; exact Hz).
  cbn [insert_sorted]. rewrite (H y (or_introl eq_refl)). reflexivity.
Qed.
End SortTail.

Lemma filter_snoc {A : Type} (keep : A -> bool) (l : list A) (x : A) :
  keep x = true -> filter keep (l ++ [x]) = filter keep l ++ [x].
Proof.
  intro H. rewrite filter_app. cbn [filter]. rewrite H. reflexivity.
Qed.

(** X18.  A sample pushed at an instant later than every stored sample of
    its series becomes the latest row of the series: the current value is
    then the cell stored for the pushed value, which is the value itself
    for a number and NULL, read back as [None], for NaN; and the unbounded
    query returns the earlier samples followed by the new one. *)
Theorem push_later_becomes_current (s : store) (name : string)
    (value : pyfloat) (labels : option labels_t) (now1 now2 : datetime)
    (step : Z) :
  datetime_valid now1 ->
  (forall r, In r (metrics s) ->
     series_match name (json_dumps_labels (or_empty labels)) r = true ->
     exists d, datetime_valid d /\ m_timestamp r = isoformat d
               /\ datetime_compare d now1 = Lt) ->
  let s' := fst (push_metric s name value labels now1 now2) in
  get_current_value s' name labels = bind_real value
  /\ (forall x, value = Num x -> get_current_value s' name labels = Some x)
  /\ (value = NaN -> get_current_value s' name labels = None)
  /\ query_metrics s' name labels None None step
     = query_metrics s name labels None None step
       ++ [(isoformat now1, bind_real value)].
Proof.
  intros Hnow Hold s'.
  set (lj := json_dumps_labels (or_empty labels)) in *.
  assert (Hrow : forall r, In r (filter (series_match name lj) (metrics s)) ->
            String.leb (m_timestamp r) (isoformat now1) = true
            /\ String.leb (isoformat now1) (m_timestamp r) = false
            /\ m_timestamp r <> isoformat now1).
  { intros r Hr. apply filter_In in Hr as [Hin Hm].
    destruct (Hold r Hin Hm) as (d & Hd & -> & Hlt).
    exact (isoformat_earlier d now1 Hd Hnow Hlt). }
  assert (Hfresh : existsb (same_key name lj (isoformat now1)) (metrics s)
                   = false).
  { destruct (existsb (same_key name lj (isoformat now1)) (metrics s)) eqn:E;
      [| reflexivity].
    apply existsb_exists in E as (r & Hin & Hk).
    unfold same_key in Hk. apply andb_true_iff in Hk as [Hk Hts].
    apply String.eqb_eq in Hts.
    destruct (Hrow r) as (_ & _ & Hne); [| contradiction].
    apply filter_In. split; [exact Hin | exact Hk]. }
  set (new := mk_metric_row name lj (bind_real value) (isoformat now1)
                (isoformat now2)).
  assert (Hs' : metrics s' = metrics s ++ [new]).
  { unfold s', push_metric. cbn [fst metrics metric_timestamp].
    fold lj. unfold insert_or_ignore. rewrite Hfresh. reflexivity. }
  assert (Hsel : filter (series_match name lj) (metrics s')
                 = filter (series_match name lj) (metrics s) ++ [new]).
  { rewrite Hs'. apply filter_snoc. unfold series_match, new.
    cbn [m_name m_labels]. rewrite !String.eqb_refl. reflexivity. }
  assert (Hcur : get_current_value s' name labels = bind_real value).
  { unfold get_current_value. fold lj. rewrite Hsel.
    rewrite sort_by_snoc_first; [reflexivity |].
    intros r Hr. cbn [m_timestamp new]. apply (Hrow r Hr). }
  split; [exact Hcur |]. split; [| split].
  - intros x ->. exact Hcur.
  - intros ->. exact Hcur.
  - unfold query_metrics, order_by_timestamp. fold lj. rewrite Hsel.
    rewrite sort_by_snoc_last.
    + rewrite map_app. reflexivity.
    + intros r Hr. cbn [m_timestamp new]. apply (Hrow r Hr).
Qed.

Lemma push_later_becomes_current_witness :
  get_current_value
    (fst (push_metric store_two "cpu" (Num (Fin 7)) None (tick 9) (tick 9)))
    "cpu" None
  = Some (Fin 7)
  /\ get_current_value
       (fst (push_metric store_two "cpu" NaN None (tick 9) (tick 9)))
       "cpu" None
     = None.
Proof.
  assert (Hnow : datetime_valid (tick 9))
    by (unfold datetime_valid; cbn; lia).
  assert (Hold : forall r, In r (metrics store_two) ->
            series_match "cpu" (json_dumps_labels (or_empty None)) r = true ->
            exists d, datetime_valid d /\ m_timestamp r = isoformat d
                      /\ datetime_compare d (tick 9) = Lt).
  { intros r Hin _. cbn in Hin.
    destruct Hin as [<- | [<- | []]].
    - exists (tick 0). split; [unfold datetime_valid; cbn; lia |].
      split; reflexivity.
    - exists (tick 5). split; [unfold datetime_valid; cbn; lia |].
      split; reflexivity. }
  split.
  - exact (proj1 (push_later_becomes_current store_two "cpu" (Num (Fin 7))
                    None (tick 9) (tick 9) 60 Hnow Hold)).
  - exact (proj1 (proj2 (proj2 (push_later_becomes_current store_two "cpu"
                                  NaN None (tick 9) (tick 9) 60 Hnow Hold)))
             eq_refl).
Defined.

(** X19.  With both bounds given, a sample stamped at instant [d] is
    returned exactly when it is a sample of the series and [d] lies
    chronologically in the closed interval from [from_ts] to [to_ts]. *)
Theorem query_metrics_window_chronological (s : store) (name : string)
    (labels : option labels_t) (f t d : datetime) (v : option number)
    (step : Z) :
  datetime_valid f -> datetime_valid t -> datetime_valid d ->
  (In (isoformat d, v) (query_metrics s name labels (Some f) (Some t) step)
   <-> In (isoformat d, v) (query_metrics s name labels None None step)
       /\ datetime_compare f d <> Gt /\ datetime_compare d t <> Gt).
Proof.
  intros Hf Ht Hd. rewrite !query_metrics_rows, !in_map_iff.
  rewrite <- (isoformat_leb f d Hf Hd), <- (isoformat_leb d t Hd Ht).
  unfold order_by_timestamp. split.
  - intros (r & Er & Hin). apply sort_by_In, filter_In in Hin as [Hin Hsel].
    apply andb_true_iff in Hsel as [Hm Hb].
    unfold between in Hb. apply andb_true_iff in Hb as [Hlo Hhi].
    injection Er as Ets Ev. rewrite Ets in Hlo, Hhi.
    split; [| split; assumption].
    exists r. split; [rewrite Ets, Ev; reflexivity |].
    apply sort_by_In, filter_In. split; [exact Hin |].
    rewrite Hm. reflexivity.
  - intros ((r & Er & Hin) & Hlo & Hhi).
    apply sort_by_In, filter_In in Hin as [Hin Hsel].
    rewrite andb_true_r in Hsel. injection Er as Ets Ev.
    exists r. split; [rewrite Ets, Ev; reflexivity |].
    apply sort_by_In, filter_In. split; [exact Hin |].
    rewrite Hsel. unfold between. rewrite Ets, Hlo, Hhi. reflexivity.
Qed.

Lemma query_metrics_window_chronological_witness :
  In (isoformat (tick 5), Some (Fin 100))
    (query_metrics store_two "cpu" None (Some (tick 3)) (Some (tick 7)) 60)
  <-> In (isoformat (tick 5), Some (Fin 100))
        (query_metrics store_two "cpu" None None None 60)
      /\ datetime_compare (tick 3) (tick 5) <> Gt
      /\ datetime_compare (tick 5) (tick 7) <> Gt.
Proof.
  apply (query_metrics_window_chronological store_two "cpu" None (tick 3)
           (tick 7) (tick 5) (Some (Fin 100)) 60);
    unfold datetime_valid; cbn; lia.
Defined.

(** ** Shape of dashboard identifiers *)

Lemma hex_digit_is_hex (n : nat) :
  (n < 16)%nat -> is_hex (hex_digit n) = true.
Proof.
  intro H.
  do 16 (destruct n as [| n]; [reflexivity |]). lia.
Qed.

Lemma hex_byte_chars (x : Z) :
  0 <= x < 256 ->
  exists c1 c2, MD5.hex_byte x = String c1 (String c2 EmptyString)
                /\ is_hex c1 = true /\ is_hex c2 = true.
Proof.
  intro Hx. unfold MD5.hex_byte, str1. eexists. eexists.
  split; [reflexivity |]. split; apply hex_digit_is_hex.
  - assert (0 <= x / 16 < 16)
      by (split; [apply Z.div_pos; lia | apply Z.div_lt_upper_bound; lia]).
    lia.
  - pose proof (Z.mod_pos_bound x 16 ltac:(lia)). lia.
Qed.

Lemma md5_8_hex8 (s : string) : hex8 (md5_8 s).
Proof.
  unfold md5_8, MD5.hexdigest, MD5.digest.
  destruct (MD5.blocks _ _ _) as [[[a b] c] d].
  unfold MD5.le_bytes at 1. cbn [seq map app].
  set (rest := (_ ++ _)%list).
  destruct (hex_byte_chars ((a / 2 ^ (8 * Z.of_nat 0)) mod 256)
              ltac:(apply Z.mod_pos_bound; lia)) as (c1 & c2 & -> & H1 & H2).
  destruct (hex_byte_chars ((a / 2 ^ (8 * Z.of_nat 1)) mod 256)
              ltac:(apply Z.mod_pos_bound; lia)) as (c3 & c4 & -> & H3 & H4).
  destruct (hex_byte_chars ((a / 2 ^ (8 * Z.of_nat 2)) mod 256)
              ltac:(apply Z.mod_pos_bound; lia)) as (c5 & c6 & -> & H5 & H6).
  destruct (hex_byte_chars ((a / 2 ^ (8 * Z.of_nat 3)) mod 256)
              ltac:(apply Z.mod_pos_bound; lia)) as (c7 & c8 & -> & H7 & H8).
  assert (Hrest : exists y ys, map MD5.hex_byte rest = y :: ys).
  { unfold rest, MD5.le_bytes. cbn [seq map app]. eexists. eexists.
    reflexivity. }
  destruct Hrest as (y & ys & ->).
  cbn [String.concat append substring].
  assert (H0 : forall z, substring 0 0 z = EmptyString)
    by (intros [| ? ?]; reflexivity).
  rewrite H0. unfold hex8.
  cbn [String.length list_ascii_of_string forallb].
  rewrite H1, H2, H3, H4, H5, H6, H7, H8. split; reflexivity.
Qed.

(** X20.  The id and the uid of a dashboard that [create_dashboard]
    returns, and the id of one that [import_json] returns, are eight
    lowercase hexadecimal digits; the uid of a created dashboard and the id
    of an imported one depend on the title alone. *)
Theorem dashboard_ids_hex8 (s : store) :
  (forall title description tags refresh_interval time_range now1 now2 s' d,
     create_dashboard s title description tags refresh_interval time_range
       now1 now2 = Ok (s', d) ->
     hex8 (d_id d)
     /\ exists uid, d_uid d = JStr uid /\ hex8 uid
                     /\ uid = md5_8 (d_title d))
  /\ (forall doc now s' d,
        import_json s doc now = Some (Ok (s', d)) ->
        hex8 (d_id d) /\ d_id d = md5_8 (d_title d)).
Proof.
  split.
  - intros title description tags refresh_interval time_range now1 now2 s' d.
    unfold create_dashboard.
    destruct (insert_dashboard s _) as [s1 | e]; [| discriminate].
    cbn [bind]. intro E. injection E as _ <-.
    cbn [new_dashboard d_id d_uid d_title].
    split; [apply md5_8_hex8 |]. eexists. split; [reflexivity |].
    split; [apply md5_8_hex8 | reflexivity].
  - intros doc now s' d. unfold import_json.
    destruct doc as [| | | | | | data]; try discriminate.
    destruct (dict_get data "title" (JStr EmptyString));
      try discriminate.
    destruct (dict_get data "time" (JDict [])); try discriminate.
    cbn [d_uid d_description d_refresh_interval d_time_range d_tags].
    destruct (bind_text _) as [[? | ?] |]; try discriminate.
    destruct (bind_text _) as [[? | ?] |]; try discriminate.
    destruct (bind_text _) as [[? | ?] |]; try discriminate.
    destruct (bind_text _) as [[? | ?] |]; try discriminate.
    cbn [obind]. intro E. injection E as _ <-. cbn [d_id d_title].
    split; [apply md5_8_hex8 | reflexivity].
Qed.

Lemma dashboard_ids_hex8_witness :
  hex8 (d_id (new_dashboard "Ops" EmptyString None "30s" "1h"
                (tick 1) (tick 1)))
  /\ exists uid,
       d_uid (new_dashboard "Ops" EmptyString None "30s" "1h"
                (tick 1) (tick 1)) = JStr uid
       /\ hex8 uid
       /\ uid = md5_8 (d_title (new_dashboard "Ops" EmptyString None "30s"
                                  "1h" (tick 1) (tick 1))).
Proof.
  exact (proj1 (dashboard_ids_hex8 init_db) "Ops"%string EmptyString None
           "30s"%string "1h"%string (tick 1) (tick 1)
           (mk_store
              [new_row "Ops" EmptyString None "30s" "1h" (tick 1) (tick 1)]
              [])
           (new_dashboard "Ops" EmptyString None "30s" "1h"
              (tick 1) (tick 1))
           eq_refl).
Defined.

(** ** Exporting an id that is not stored *)

Lemma md5_8_empty : md5_8 EmptyString = "d41d8cd9"%string.
Proof. vm_compute. reflexivity. Qed.

(** X21.  For an id that is not stored [export_json] gives the empty
    object and raises nothing, and [import_json] accepts that document: it
    stores and returns a dashboard with the empty title, whose id and uid
    are [d41d8cd9], the first eight digits of the MD5 of the empty
    string. *)
Theorem export_missing_then_import (s : store) (dashboard_id : string)
    (now : datetime) :
  find_dashboard s dashboard_id = None ->
  export_json s dashboard_id = Ok (JDict [])
  /\ exists s' d,
       import_json s (JDict []) now = Some (Ok (s', d))
       /\ d_title d = EmptyString
       /\ d_id d = "d41d8cd9"%string /\ d_uid d = JStr "d41d8cd9"
       /\ find_dashboard s' "d41d8cd9"
          = Some (mk_dash_row "d41d8cd9" (Some "d41d8cd9"%string)
                    EmptyString (Some EmptyString) (JList []) (JList [])
                    (JList []) (Some "30s"%string) (Some "1h"%string)
                    (isoformat now)).
Proof.
  intro Hf.
  split; [unfold export_json; rewrite Hf; reflexivity |].
  unfold import_json, dict_get. cbn [dict_lookup].
  pose proof md5_8_empty as Hid.
  remember (md5_8 EmptyString) as h eqn:Eh. clear Eh. subst h.
  cbn [d_uid d_description d_refresh_interval d_time_range d_tags bind_text
         obind].
  eexists. eexists. split; [reflexivity |].
  cbn [d_title d_id d_uid]. repeat (split; [reflexivity |]).
  exact (find_after_replace s
           (mk_dash_row "d41d8cd9" (Some "d41d8cd9"%string) EmptyString
              (Some EmptyString) (JList []) (JList []) (JList [])
              (Some "30s"%string) (Some "1h"%string) (isoformat now))).
Qed.

Lemma export_missing_then_import_witness :
  export_json store_dash "absent" = Ok (JDict [])
  /\ exists s' d,
       import_json store_dash (JDict []) (tick 9) = Some (Ok (s', d))
       /\ d_title d = EmptyString
       /\ d_id d = "d41d8cd9"%string /\ d_uid d = JStr "d41d8cd9"
       /\ find_dashboard s' "d41d8cd9"
          = Some (mk_dash_row "d41d8cd9" (Some "d41d8cd9"%string)
                    EmptyString (Some EmptyString) (JList []) (JList [])
                    (JList []) (Some "30s"%string) (Some "1h"%string)
                    (isoformat (tick 9))).
Proof.
  assert (Hf : find_dashboard store_dash "absent" = None)
    by (vm_compute; reflexivity).
  exact (export_missing_then_import store_dash "absent" (tick 9) Hf).
Defined.
